(** * glDynamicBuffer (vis/Code/WebGL.js): a growable typed CPU array mirrored
    in a WebGL buffer or texture.

    The class is embedded as state-passing code over a record for the object
    ([this]), the list of calls made on the global WebGL context ([gl]) and
    the lines written to the console.  A method either completes normally or
    throws; the fields it assigned before throwing stay assigned.

    What the model takes for granted: the global [gl] holds a context and
    the numbers passed in are integers.  Whether a typed array can be
    allocated depends on the engine and the machine: the class is modelled
    over the largest byte size the engine allocates, an arbitrary number,
    and an array is allocated when its length is a valid one and its byte
    size is at most that. *)

From Stdlib Require Import ZArith List String Bool Lia.
Import ListNotations.
Open Scope string_scope.
Open Scope list_scope.
Open Scope Z_scope.

(** ** JavaScript numbers and completions *)

(** Numbers are restricted to the integers the class is used with.  The only
    operator that is not exact on them is [<<], which works on 32-bit signed
    integers. *)
Module JS.

Definition ToInt32 (x : Z) : Z := (x + 2 ^ 31) mod 2 ^ 32 - 2 ^ 31.

(** [x << k] *)
Definition shl (x k : Z) : Z := ToInt32 (Z.shiftl (ToInt32 x) (k mod 32)).

Inductive Exception : Type :=
| Error (message : string)
| RangeError (message : string)
| TypeError (message : string).

Inductive Completion (A : Type) : Type :=
| Normal (value : A)
| Throw (e : Exception).
Arguments Normal {A} value.
Arguments Throw {A} e.

End JS.
Import JS.

(** ** Typed arrays *)

Inductive ArrayKind : Type := Float32Array | Uint8Array.

(** The elements are kept as their stored bit patterns: the 32 bits of a
    float, the 8 bits of a byte.  Both kinds are created filled with the
    pattern 0 (the float +0 and the byte 0). *)
Record TypedArray : Type := mkTypedArray {
  kind : ArrayKind;
  elems : list Z
}.

(** The bytes of one element. *)
Definition bytes_per_element (k : ArrayKind) : Z :=
  match k with
  | Float32Array => 4
  | Uint8Array => 1
  end.

(** A byte [v] (0..255) read as a number and stored as a float: the bits of
    the float equal to [v]. *)
Definition float32_bits_of_byte (v : Z) : Z :=
  if v <=? 0 then 0
  else let e := Z.log2 v in (e + 127) * 2 ^ 23 + (v - 2 ^ e) * 2 ^ (23 - e).

(** A float, given by its bits, stored as a byte: NaN and the infinities
    become 0, any other value is truncated towards zero and reduced modulo
    2^8. *)
Definition byte_of_float32_bits (bits : Z) : Z :=
  let sign := Z.testbit bits 31 in
  let e := Z.land (Z.shiftr bits 23) 255 in
  let m := Z.land bits (2 ^ 23 - 1) in
  if e =? 255 then 0
  else if e =? 0 then 0
  else
    let magnitude :=
      if 150 <=? e then (2 ^ 23 + m) * 2 ^ (e - 150)
      else (2 ^ 23 + m) / 2 ^ (150 - e) in
    (if sign then - magnitude else magnitude) mod 2 ^ 8.

(** The element [v] of an array of kind [from] as stored in an array of kind
    [to]: between arrays of one kind the bits are copied. *)
Definition store_as (from to : ArrayKind) (v : Z) : Z :=
  match from, to with
  | Float32Array, Float32Array | Uint8Array, Uint8Array => v
  | Uint8Array, Float32Array => float32_bits_of_byte v
  | Float32Array, Uint8Array => byte_of_float32_bits v
  end.

(** [target.set(source)]: writes [source] over the first elements of
    [target], or throws when [source] is the longer one. *)
Definition TypedArray_set (target source : TypedArray) : Completion TypedArray :=
  if (List.length (elems target) <? List.length (elems source))%nat
  then Throw (RangeError "offset is out of bounds")
  else Normal (mkTypedArray (kind target)
                 (map (store_as (kind source) (kind target)) (elems source)
                  ++ skipn (List.length (elems source)) (elems target))).

(** ** The WebGL context *)

(** Names of WebGL objects (buffers, textures, programs). *)
Definition Handle : Type := nat.

(** The enumeration values of the WebGL API the class uses. *)
Module GL.
Definition BYTE : Z := 5120.            (* 0x1400 *)
Definition UNSIGNED_BYTE : Z := 5121.   (* 0x1401 *)
Definition FLOAT : Z := 5126.           (* 0x1406 *)
Definition ALPHA : Z := 6406.           (* 0x1906 *)
Definition TEXTURE_2D : Z := 3553.      (* 0x0DE1 *)
Definition NEAREST : Z := 9728.         (* 0x2600 *)
Definition TEXTURE_MAG_FILTER : Z := 10240.  (* 0x2800 *)
Definition TEXTURE_MIN_FILTER : Z := 10241.  (* 0x2801 *)
Definition TEXTURE_WRAP_S : Z := 10242.      (* 0x2802 *)
Definition TEXTURE_WRAP_T : Z := 10243.      (* 0x2803 *)
Definition CLAMP_TO_EDGE : Z := 33071.  (* 0x812F *)
Definition ARRAY_BUFFER : Z := 34962.   (* 0x8892 *)
Definition DYNAMIC_DRAW : Z := 35048.   (* 0x88E8 *)
End GL.

(** One constructor per function of the context that the class calls, with
    the arguments it passes and, for the functions that return something,
    the value returned. *)
Inductive GLCall : Type :=
| createBuffer (result : Handle)
| bindBuffer (target : Z) (buffer : option Handle)
| bufferData (target size usage : Z)
| bufferSubData (target offset : Z) (data : option TypedArray)
| createTexture (result : Handle)
| bindTexture (target : Z) (texture : option Handle)
| texParameteri (target pname param : Z)
| texImage2D (target level internalformat width height border format ty : Z)
             (pixels : option TypedArray)
| getAttribLocation (program : Handle) (name : string) (result : Z)
| enableVertexAttribArray (index : Z)
| vertexAttribPointer (index size ty : Z) (normalized : bool) (stride offset : Z)
| vertexAttribDivisor (index divisor : Z).

(** The global [gl], taken to be an initialised context: the calls made so
    far (oldest first), the next unused object name and the attribute
    locations of the linked programs. *)
Record GLContext : Type := mkGL {
  glCalls : list GLCall;
  glNextName : Handle;
  glAttribLocations : Handle -> string -> Z
}.

(** The calls that transmit the contents of an array to a GPU resource. *)
Definition is_upload (c : GLCall) : bool :=
  match c with
  | bufferSubData _ _ (Some _) => true
  | texImage2D _ _ _ _ _ _ _ _ (Some _) => true
  | _ => false
  end.

Definition uploads (calls : list GLCall) : list GLCall := filter is_upload calls.

(** The array an upload call transmits. *)
Definition uploaded_array (c : GLCall) : option TypedArray :=
  match c with
  | bufferSubData _ _ data => data
  | texImage2D _ _ _ _ _ _ _ _ pixels => pixels
  | _ => None
  end.

(** Replays a list of calls and returns the byte size of the data store of
    buffer [h]: the size given to the last [bufferData] made while [h] was
    bound to ARRAY_BUFFER. *)
Fixpoint buffer_store_size_from (calls : list GLCall) (bound : option Handle)
    (h : Handle) (size : option Z) : option Z :=
  match calls with
  | [] => size
  | bindBuffer _ b :: rest => buffer_store_size_from rest b h size
  | bufferData _ sz _ :: rest =>
      match bound with
      | Some b => if Nat.eqb b h then buffer_store_size_from rest bound h (Some sz)
                  else buffer_store_size_from rest bound h size
      | None => buffer_store_size_from rest bound h size
      end
  | _ :: rest => buffer_store_size_from rest bound h size
  end.

Definition buffer_store_size (g : GLContext) (h : Handle) : option Z :=
  buffer_store_size_from (glCalls g) None h None.

(** ** The object *)

Module glDynamicBufferType.
Definition Buffer : Z := 1.
Definition Texture : Z := 2.
End glDynamicBufferType.

(** The fields of a [glDynamicBuffer].  [cpuArray], [buffer] and [texture]
    are [None] while undefined.  [nbEntries], [nbElementBytes] and [nbBytes]
    are undefined only inside the constructor, where they are assigned before
    they are read; they start at 0 here. *)
Record glDynamicBuffer : Type := mkBuffer {
  elementType : Z;
  nbElements : Z;
  bufferType : Z;
  dirty : bool;
  nbEntries : Z;
  nbElementBytes : Z;
  cpuArray : option TypedArray;
  nbBytes : Z;
  buffer : option Handle;
  texture : option Handle
}.

Definition set_dirty (v : bool) (b : glDynamicBuffer) : glDynamicBuffer :=
  mkBuffer (elementType b) (nbElements b) (bufferType b) v (nbEntries b)
    (nbElementBytes b) (cpuArray b) (nbBytes b) (buffer b) (texture b).

Definition set_nbEntries (v : Z) (b : glDynamicBuffer) : glDynamicBuffer :=
  mkBuffer (elementType b) (nbElements b) (bufferType b) (dirty b) v
    (nbElementBytes b) (cpuArray b) (nbBytes b) (buffer b) (texture b).

Definition set_nbElementBytes (v : Z) (b : glDynamicBuffer) : glDynamicBuffer :=
  mkBuffer (elementType b) (nbElements b) (bufferType b) (dirty b) (nbEntries b)
    v (cpuArray b) (nbBytes b) (buffer b) (texture b).

Definition set_cpuArray (v : TypedArray) (b : glDynamicBuffer) : glDynamicBuffer :=
  mkBuffer (elementType b) (nbElements b) (bufferType b) (dirty b) (nbEntries b)
    (nbElementBytes b) (Some v) (nbBytes b) (buffer b) (texture b).

Definition set_nbBytes (v : Z) (b : glDynamicBuffer) : glDynamicBuffer :=
  mkBuffer (elementType b) (nbElements b) (bufferType b) (dirty b) (nbEntries b)
    (nbElementBytes b) (cpuArray b) v (buffer b) (texture b).

Definition set_buffer (v : Handle) (b : glDynamicBuffer) : glDynamicBuffer :=
  mkBuffer (elementType b) (nbElements b) (bufferType b) (dirty b) (nbEntries b)
    (nbElementBytes b) (cpuArray b) (nbBytes b) (Some v) (texture b).

Definition set_texture (v : Handle) (b : glDynamicBuffer) : glDynamicBuffer :=
  mkBuffer (elementType b) (nbElements b) (bufferType b) (dirty b) (nbEntries b)
    (nbElementBytes b) (cpuArray b) (nbBytes b) (buffer b) (Some v).

(** The lines [Resize] writes with [console.log], by their numbers. *)
Inductive LogLine : Type :=
| LogResizing (nb_entries nb_elements nb_element_bytes nb_bytes : Z)
| LogCreating (nb_entries nb_elements nb_element_bytes nb_bytes : Z).

(** ** Methods as state-passing code *)

Record World : Type := mkWorld {
  this : glDynamicBuffer;
  gl : GLContext;
  console : list LogLine
}.

(** A piece of a method: it runs in a world and gives a completion and the
    world it leaves, also when it throws. *)
Definition M (A : Type) : Type := World -> Completion A * World.

Definition ret {A : Type} (a : A) : M A := fun w => (Normal a, w).

Definition throw {A : Type} (e : Exception) : M A := fun w => (Throw e, w).

Definition bind {A B : Type} (m : M A) (k : A -> M B) : M B :=
  fun w =>
    match m w with
    | (Normal a, w') => k a w'
    | (Throw e, w') => (Throw e, w')
    end.

Notation "x <- m ;; k" := (bind m (fun x => k))
  (at level 61, m at next level, right associativity).
Notation "m ;; k" := (bind m (fun _ => k))
  (at level 61, right associativity).

(** [assert(condition, message)] *)
Definition assert (condition : bool) (message : option string) : M unit :=
  if condition then ret tt
  else throw (Error match message with
                    | Some m => m
                    | None => "Assertion failed"
                    end).

Definition read {A : Type} (field : glDynamicBuffer -> A) : M A :=
  fun w => (Normal (field (this w)), w).

Definition assign (update : glDynamicBuffer -> glDynamicBuffer) : M unit :=
  fun w => (Normal tt, mkWorld (update (this w)) (gl w) (console w)).

Definition lift {A : Type} (c : Completion A) : M A := fun w => (c, w).

Definition console_log (l : LogLine) : M unit :=
  fun w => (Normal tt, mkWorld (this w) (gl w) (console w ++ [l])).

(** A call of a function of [gl] that returns nothing. *)
Definition gl_do (c : GLCall) : M unit :=
  fun w =>
    (Normal tt,
     mkWorld (this w)
       (mkGL (glCalls (gl w) ++ [c]) (glNextName (gl w)) (glAttribLocations (gl w)))
       (console w)).

(** [gl.createBuffer()], [gl.createTexture()]: a new object under the next
    unused name. *)
Definition gl_create (call : Handle -> GLCall) : M Handle :=
  fun w =>
    let h := glNextName (gl w) in
    (Normal h,
     mkWorld (this w)
       (mkGL (glCalls (gl w) ++ [call h]) (S h) (glAttribLocations (gl w)))
       (console w)).

Definition gl_getAttribLocation (program : Handle) (name : string) : M Z :=
  fun w =>
    let l := glAttribLocations (gl w) program name in
    (Normal l,
     mkWorld (this w)
       (mkGL (glCalls (gl w) ++ [getAttribLocation program name l])
          (glNextName (gl w)) (glAttribLocations (gl w)))
       (console w)).

(** ** The free functions *)

(** Further enumeration values of the WebGL API. *)
Module GLenum.
Definition RGBA : Z := 6408.             (* 0x1908 *)
Definition TEXTURE0 : Z := 33984.        (* 0x84C0 *)
Definition COMPILE_STATUS : Z := 35713.  (* 0x8B81 *)
Definition LINK_STATUS : Z := 35714.     (* 0x8B82 *)
End GLenum.

(** [glCreateTexture(width, height, data)], with [None] for a null [data].
    It runs in a world like the methods, and does not touch the object. *)
Definition glCreateTexture (width height : Z) (data : option TypedArray) : M Handle :=
  texture <- gl_create createTexture ;;
  (* Set filtering/wrapping to nearest/clamp *)
  gl_do (bindTexture GL.TEXTURE_2D (Some texture)) ;;
  gl_do (texParameteri GL.TEXTURE_2D GL.TEXTURE_MIN_FILTER GL.NEAREST) ;;
  gl_do (texParameteri GL.TEXTURE_2D GL.TEXTURE_MAG_FILTER GL.NEAREST) ;;
  gl_do (texParameteri GL.TEXTURE_2D GL.TEXTURE_WRAP_S GL.CLAMP_TO_EDGE) ;;
  gl_do (texParameteri GL.TEXTURE_2D GL.TEXTURE_WRAP_T GL.CLAMP_TO_EDGE) ;;
  gl_do (texImage2D GL.TEXTURE_2D 0 GLenum.RGBA width height 0 GLenum.RGBA
           GL.UNSIGNED_BYTE data) ;;
  ret texture.

(** The shader, program and uniform functions call a part of the context
    that the buffer class does not use; they are modelled on a context of
    their own, by explicit state passing. *)
Module Program.

(** The values [glSetUniform] may be given: [undefined], [null], a number (by
    its bits), a boolean, a string, a texture, or another object by the
    class name that [Object.prototype.toString] reports for it. *)
Inductive JSValue : Type :=
| JSUndefined
| JSNull
| JSNumber (bits : Z)
| JSBoolean (b : bool)
| JSString (s : string)
| JSTexture (texture : Handle)
| JSObject (class_name : string).

(** [Object.prototype.toString.call(value).slice(8, -1)] *)
Definition class_of (value : JSValue) : string :=
  match value with
  | JSUndefined => "Undefined"
  | JSNull => "Null"
  | JSNumber _ => "Number"
  | JSBoolean _ => "Boolean"
  | JSString _ => "String"
  | JSTexture _ => "WebGLTexture"
  | JSObject class_name => class_name
  end.

(** [value != null] *)
Definition not_nullish (value : JSValue) : bool :=
  match value with
  | JSUndefined | JSNull => false
  | _ => true
  end.

Inductive Call : Type :=
| createShader (ty : Z) (result : Handle)
| shaderSource (shader : Handle) (source : string)
| compileShader (shader : Handle)
| getShaderParameter (shader : Handle) (pname : Z) (result : bool)
| getShaderInfoLog (shader : Handle) (result : string)
| createProgram (result : Handle)
| attachShader (program shader : Handle)
| linkProgram (program : Handle)
| getProgramParameter (program : Handle) (pname : Z) (result : bool)
| getUniformLocation (program : Handle) (name : string) (result : option Handle)
| uniform1f (location : Handle) (x : JSValue)
| activeTexture (texture : Z)
| bindTexture (target : Z) (texture : JSValue)
| uniform1i (location : Handle) (x : Z).

Inductive ConsoleCall : Type :=
| log (message : string)
| trace.

(** The context and the console: the calls made so far (oldest first), the
    next unused object name, and what the driver answers: whether a shader
    of a type and source compiles and with what log, whether two shaders
    link, and where the uniforms of a program are. *)
Record Context : Type := mkContext {
  calls : list Call;
  console : list ConsoleCall;
  nextName : Handle;
  compiles : Z -> string -> bool;
  infoLog : Z -> string -> string;
  links : Handle -> Handle -> bool;
  uniformLocations : Handle -> string -> option Handle
}.

Definition issue (c : Call) (d : Context) : Context :=
  let 'mkContext cs co nx cm il lk ul := d in
  mkContext (cs ++ [c]) co nx cm il lk ul.

Definition say (c : ConsoleCall) (d : Context) : Context :=
  let 'mkContext cs co nx cm il lk ul := d in
  mkContext cs (co ++ [c]) nx cm il lk ul.

(** [gl.createShader(type)], [gl.createProgram()]: a new object under the
    next unused name. *)
Definition create (call : Handle -> Call) (d : Context) : Handle * Context :=
  let 'mkContext cs co nx cm il lk ul := d in
  (nx, mkContext (cs ++ [call nx]) co (S nx) cm il lk ul).

Definition glCompileShader (ty : Z) (name source : string) (d : Context)
    : Handle * Context :=
  let d := say (log ("Compiling " ++ name)) d in
  (* Compile the shader *)
  let (shader, d) := create (createShader ty) d in
  let d := issue (shaderSource shader source) d in
  let d := issue (compileShader shader) d in
  (* Report any errors *)
  let status := compiles d ty source in
  let d := issue (getShaderParameter shader GLenum.COMPILE_STATUS status) d in
  let d :=
    if negb status then
      let d := say (log ("Error compiling " ++ name)) d in
      let d := issue (getShaderInfoLog shader (infoLog d ty source)) d in
      let d := say (log (infoLog d ty source)) d in
      say trace d
    else d in
  (shader, d).

Definition glCreateProgram (vshader fshader : Handle) (d : Context)
    : Handle * Context :=
  (* Attach shaders and link *)
  let (program, d) := create createProgram d in
  let d := issue (attachShader program vshader) d in
  let d := issue (attachShader program fshader) d in
  let d := issue (linkProgram program) d in
  (* Report any errors *)
  let status := links d vshader fshader in
  let d := issue (getProgramParameter program GLenum.LINK_STATUS status) d in
  let d :=
    if negb status then
      let d := say (log "Failed to link program") d in
      say trace d
    else d in
  (program, d).

Definition glSetUniform (program : Handle) (name : string) (value : JSValue)
    (index : Z) (d : Context) : Completion unit * Context :=
  (* Get location *)
  let location := uniformLocations d program name in
  let d := issue (getUniformLocation program name location) d in
  match location with
  | None => (Throw (Error ("Can't find uniform " ++ name)), d)
  | Some location =>
      (* Dispatch to uniform function by type *)
      if negb (not_nullish value) then (Throw (Error "Value is null"), d)
      else
        let type := class_of value in
        if String.eqb type "Number" then
          (Normal tt, issue (uniform1f location value) d)
        else if String.eqb type "WebGLTexture" then
          let d := issue (activeTexture (GLenum.TEXTURE0 + index)) d in
          let d := issue (bindTexture GL.TEXTURE_2D value) d in
          (Normal tt, issue (uniform1i location index) d)
        else
          (Throw (Error ("Unhandled type " ++ type)), d)
  end.

(** The calls that set a uniform or change the texture state. *)
Definition sets_state (c : Call) : bool :=
  match c with
  | uniform1f _ _ | uniform1i _ _ | activeTexture _ | bindTexture _ _ => true
  | _ => false
  end.

(** How many of the stages failed, and how many traces a list of console
    calls holds. *)
Definition failures (bs : list bool) : nat := List.length (filter negb bs).

Definition traces (l : list ConsoleCall) : nat :=
  List.length (filter (fun c => match c with trace => true | _ => false end) l).

End Program.

(** ** Allocation of typed arrays *)

(** An engine that allocates array buffers of up to 4 GiB, for the
    examples. *)
Definition heap0 : N := 2 ^ 32.

Section Heap.

(** The largest array buffer, in bytes, that the engine allocates.  It is a
    property of the engine and the machine; what follows holds for every
    value of it. *)
Variable heap_limit : N.

(** The lengths for which [new Float32Array(len)] or [new Uint8Array(len)]
    returns an array: not negative, not above 2^53 - 1, and of a byte size
    the engine allocates. *)
Definition allocatable (k : ArrayKind) (len : Z) : bool :=
  (0 <=? len) && (len <=? 2 ^ 53 - 1) &&
  (bytes_per_element k * len <=? Z.of_N heap_limit).

(** [new Float32Array(len)], [new Uint8Array(len)], as ECMAScript has them:
    a [RangeError] for a length that is no valid array length (below 0 or
    above 2^53 - 1), and a [RangeError] when the buffer cannot be
    allocated; otherwise an array of [len] zeros.  (The message texts are
    V8's; Node adds the length to the first.) *)
Definition TypedArray_new (k : ArrayKind) (len : Z) : Completion TypedArray :=
  if (len <? 0) || (2 ^ 53 - 1 <? len)
  then Throw (RangeError "Invalid typed array length")
  else if Z.of_N heap_limit <? bytes_per_element k * len
  then Throw (RangeError "Array buffer allocation failed")
  else Normal (mkTypedArray k (repeat 0 (Z.to_nat len))).

(** ** The class *)

Definition BindAsInstanceAttribute (program : Handle) (attrib_name : string) : M unit :=
  this_bufferType <- read bufferType ;;
  assert (this_bufferType =? glDynamicBufferType.Buffer)
    (Some "Can only call BindAsInstanceAttribute with Buffer types") ;;
  this_buffer <- read buffer ;;
  gl_do (bindBuffer GL.ARRAY_BUFFER this_buffer) ;;
  attrib_location <- gl_getAttribLocation program attrib_name ;;
  gl_do (enableVertexAttribArray attrib_location) ;;
  this_nbElements <- read nbElements ;;
  this_elementType <- read elementType ;;
  gl_do (vertexAttribPointer attrib_location this_nbElements this_elementType false 0 0) ;;
  gl_do (vertexAttribDivisor attrib_location 1).

(** The [switch] has no default: with any other [bufferType] nothing is
    done. *)
Definition UploadData : M unit :=
  this_bufferType <- read bufferType ;;
  if this_bufferType =? glDynamicBufferType.Buffer then
    this_buffer <- read buffer ;;
    gl_do (bindBuffer GL.ARRAY_BUFFER this_buffer) ;;
    this_cpuArray <- read cpuArray ;;
    gl_do (bufferSubData GL.ARRAY_BUFFER 0 this_cpuArray)
  else if this_bufferType =? glDynamicBufferType.Texture then
    this_texture <- read texture ;;
    gl_do (bindTexture GL.TEXTURE_2D this_texture) ;;
    this_nbEntries <- read nbEntries ;;
    this_cpuArray <- read cpuArray ;;
    gl_do (texImage2D GL.TEXTURE_2D 0 GL.ALPHA this_nbEntries 1 0 GL.ALPHA
             GL.UNSIGNED_BYTE this_cpuArray)
  else ret tt.

Definition UploadDirtyData : M unit :=
  this_dirty <- read dirty ;;
  if this_dirty then
    UploadData ;;
    assign (set_dirty false)
  else ret tt.

Definition Resize (nb_entries : Z) : M unit :=
  assign (set_nbEntries nb_entries) ;;
  (* Create the CPU array *)
  old_array <- read cpuArray ;;
  this_elementType <- read elementType ;;
  (if this_elementType =? GL.FLOAT then
     assign (set_nbElementBytes 4) ;;
     this_nbElements <- read nbElements ;;
     this_nbEntries <- read nbEntries ;;
     a <- lift (TypedArray_new Float32Array (this_nbElements * this_nbEntries)) ;;
     assign (set_cpuArray a)
   else if this_elementType =? GL.BYTE then
     assign (set_nbElementBytes 1) ;;
     this_nbElements <- read nbElements ;;
     this_nbEntries <- read nbEntries ;;
     a <- lift (TypedArray_new Uint8Array (this_nbElements * this_nbEntries)) ;;
     assign (set_cpuArray a)
   else
     assert false (Some "Unsupported dynamic buffer element type")) ;;
  (* Calculate byte size of the buffer *)
  this_nbElementBytes <- read nbElementBytes ;;
  this_nbElements <- read nbElements ;;
  this_nbEntries <- read nbEntries ;;
  assign (set_nbBytes (this_nbElementBytes * this_nbElements * this_nbEntries)) ;;
  this_nbBytes <- read nbBytes ;;
  match old_array with
  | Some old_array =>
      (* Copy the values of the previous array over *)
      this_cpuArray <- read cpuArray ;;
      match this_cpuArray with
      | Some a =>
          a' <- lift (TypedArray_set a old_array) ;;
          assign (set_cpuArray a')
      | None => throw (TypeError "Cannot read properties of undefined")
      end ;;
      console_log (LogResizing nb_entries this_nbElements this_nbElementBytes this_nbBytes)
  | None =>
      console_log (LogCreating nb_entries this_nbElements this_nbElementBytes this_nbBytes)
  end ;;
  (* Create the GPU buffer *)
  this_bufferType <- read bufferType ;;
  if this_bufferType =? glDynamicBufferType.Buffer then
    h <- gl_create createBuffer ;;
    assign (set_buffer h) ;;
    this_buffer <- read buffer ;;
    gl_do (bindBuffer GL.ARRAY_BUFFER this_buffer) ;;
    gl_do (bufferData GL.ARRAY_BUFFER this_nbBytes GL.DYNAMIC_DRAW)
  else if this_bufferType =? glDynamicBufferType.Texture then
    h <- gl_create createTexture ;;
    assign (set_texture h) ;;
    (* Point sampling with clamp for indexing *)
    this_texture <- read texture ;;
    gl_do (bindTexture GL.TEXTURE_2D this_texture) ;;
    gl_do (texParameteri GL.TEXTURE_2D GL.TEXTURE_MIN_FILTER GL.NEAREST) ;;
    gl_do (texParameteri GL.TEXTURE_2D GL.TEXTURE_MAG_FILTER GL.NEAREST) ;;
    gl_do (texParameteri GL.TEXTURE_2D GL.TEXTURE_WRAP_S GL.CLAMP_TO_EDGE) ;;
    gl_do (texParameteri GL.TEXTURE_2D GL.TEXTURE_WRAP_T GL.CLAMP_TO_EDGE) ;;
    (* Fixed-format for now *)
    this_elementType <- read elementType ;;
    assert (this_elementType =? GL.BYTE) None ;;
    this_nbElements <- read nbElements ;;
    assert (this_nbElements =? 1) None ;;
    this_nbEntries <- read nbEntries ;;
    this_cpuArray <- read cpuArray ;;
    gl_do (texImage2D GL.TEXTURE_2D 0 GL.ALPHA this_nbEntries 1 0 GL.ALPHA
             GL.UNSIGNED_BYTE this_cpuArray)
  else
    assert false (Some "Unsupported dynamic buffer type").

(** The [while] loop of [ResizeToFitNextPow2], with a bound on the number of
    tests of its condition: [None] when the bound is reached before the
    condition fails. *)
Fixpoint doubling_loop (fuel : nat) (target_count nb_entries : Z) : option Z :=
  match fuel with
  | O => None
  | S fuel' =>
      if target_count >? nb_entries
      then doubling_loop fuel' target_count (JS.shl nb_entries 1)
      else Some nb_entries
  end.

Definition ResizeToFitNextPow2 (fuel : nat) (target_count : Z)
    : World -> option (Completion unit * World) :=
  fun w =>
    match doubling_loop fuel target_count (nbEntries (this w)) with
    | None => None
    | Some nb_entries =>
        Some (if nb_entries >? nbEntries (this w)
              then Resize nb_entries w
              else (Normal tt, w))
    end.

(** [new glDynamicBuffer(element_type, nb_elements, nb_entries, buffer_type)],
    with [None] for an omitted (undefined) [buffer_type].  When the
    constructor throws there is no object; what it did to [gl] and the
    console stays. *)
Definition Construct (element_type nb_elements nb_entries : Z) (buffer_type : option Z)
    (g : GLContext) (out : list LogLine)
    : Completion glDynamicBuffer * GLContext * list LogLine :=
  let this0 :=
    mkBuffer element_type nb_elements
      match buffer_type with
      | None => glDynamicBufferType.Buffer
      | Some buffer_type => buffer_type
      end
      false 0 0 None 0 None None in
  match Resize nb_entries (mkWorld this0 g out) with
  | (Normal _, w) => (Normal (this w), gl w, console w)
  | (Throw e, w) => (Throw e, gl w, console w)
  end.

(** ** Calls on a constructed buffer *)

(** The methods that code outside the class calls on a buffer. *)
Inductive Call : Type :=
| CallResizeToFitNextPow2 (target_count : Z)
| CallUploadData
| CallUploadDirtyData
| CallBindAsInstanceAttribute (program : Handle) (attrib_name : string).

Definition call (fuel : nat) (c : Call) (w : World) : option (Completion unit * World) :=
  match c with
  | CallResizeToFitNextPow2 target_count => ResizeToFitNextPow2 fuel target_count w
  | CallUploadData => Some (UploadData w)
  | CallUploadDirtyData => Some (UploadDirtyData w)
  | CallBindAsInstanceAttribute program attrib_name =>
      Some (BindAsInstanceAttribute program attrib_name w)
  end.

(** A sequence of calls, with a bound on the loop of each.  The caller may
    catch what a call throws and go on with the object as the call left it,
    so the sequence continues after a throw; it is [None] when some call does
    not return within the bound. *)
Fixpoint calls (fuel : nat) (cs : list Call) (w : World) : option World :=
  match cs with
  | [] => Some w
  | c :: cs' =>
      match call fuel c w with
      | None => None
      | Some (_, w') => calls fuel cs' w'
      end
  end.

(** ** Observations used in the statements *)

(** The contents of the mirror. *)
Definition mirror (b : glDynamicBuffer) : list Z :=
  match cpuArray b with
  | Some a => elems a
  | None => []
  end.

Definition mirror_length (b : glDynamicBuffer) : Z := Z.of_nat (List.length (mirror b)).

(** The byte size of the mirror. *)
Definition mirror_bytes (b : glDynamicBuffer) : Z :=
  match cpuArray b with
  | Some a =>
      match kind a with
      | Float32Array => 4 * Z.of_nat (List.length (elems a))
      | Uint8Array => Z.of_nat (List.length (elems a))
      end
  | None => 0
  end.

(** The calls added to the context between two of its states. *)
Definition calls_since (before after : GLContext) : list GLCall :=
  skipn (List.length (glCalls before)) (glCalls after).

(** The calls a step added to the context. *)
Definition new_calls (before after : World) : list GLCall :=
  calls_since (gl before) (gl after).

(** The array kind the class creates for an element type. *)
Definition kind_of_elementType (t : Z) : option ArrayKind :=
  if t =? GL.FLOAT then Some Float32Array
  else if t =? GL.BYTE then Some Uint8Array
  else None.

(** The arguments the constructor is meant for: a supported element type, a
    positive number of elements per entry and of entries, and a buffer type
    that is omitted, Buffer, or Texture with single bytes. *)
Definition valid_arguments (element_type nb_elements nb_entries : Z)
    (buffer_type : option Z) : Prop :=
  (element_type = GL.FLOAT \/ element_type = GL.BYTE) /\
  0 < nb_elements /\ 0 < nb_entries /\
  (buffer_type = None \/ buffer_type = Some glDynamicBufferType.Buffer \/
   (buffer_type = Some glDynamicBufferType.Texture /\
    element_type = GL.BYTE /\ nb_elements = 1)).

(** The array kind [Resize] creates for a supported element type. *)
Definition array_kind (t : Z) : ArrayKind :=
  if t =? GL.FLOAT then Float32Array else Uint8Array.

(** The engine allocates an array of the length the mirror is meant to
    have: [nbElements * nbEntries]. *)
Definition fits (b : glDynamicBuffer) : Prop :=
  allocatable (array_kind (elementType b)) (nbElements b * nbEntries b) = true.

(** What holds of every buffer the constructor returns for such arguments,
    and is kept by the calls on it as long as the engine allocates the
    arrays they ask for.  The last field says of the mirror what holds of
    every array that exists: the engine allocates arrays of its length. *)
Record constructed (b : glDynamicBuffer) : Prop := mkConstructed {
  c_elementType : elementType b = GL.FLOAT \/ elementType b = GL.BYTE;
  c_nbElements : 0 < nbElements b;
  c_nbEntries : 0 < nbEntries b;
  c_bufferType :
    bufferType b = glDynamicBufferType.Buffer \/
    (bufferType b = glDynamicBufferType.Texture /\
     elementType b = GL.BYTE /\ nbElements b = 1);
  c_cpuArray :
    exists a, cpuArray b = Some a /\
              kind_of_elementType (elementType b) = Some (kind a) /\
              Z.of_nat (List.length (elems a)) = nbElements b * nbEntries b;
  c_allocated : fits b
}.

(** What the calls keep also when an allocation fails.  A resize whose array
    the engine does not allocate leaves the capacity it was asked for in
    [nbEntries] and the old mirror in place: the mirror then has fewer
    elements than [nbElements * nbEntries], and no later call changes
    that. *)
Record coherent (b : glDynamicBuffer) : Prop := mkCoherent {
  k_elementType : elementType b = GL.FLOAT \/ elementType b = GL.BYTE;
  k_nbElements : 0 < nbElements b;
  k_nbEntries : 0 < nbEntries b;
  k_bufferType :
    bufferType b = glDynamicBufferType.Buffer \/
    (bufferType b = glDynamicBufferType.Texture /\
     elementType b = GL.BYTE /\ nbElements b = 1);
  k_cpuArray :
    exists a, cpuArray b = Some a /\
              kind_of_elementType (elementType b) = Some (kind a) /\
              allocatable (kind a) (Z.of_nat (List.length (elems a))) = true /\
              Z.of_nat (List.length (elems a)) <= nbElements b * nbEntries b /\
              (fits b ->
               Z.of_nat (List.length (elems a)) = nbElements b * nbEntries b)
}.

(** The buffer the object holds was created before the next name the
    context gives out. *)
Definition buffer_is_older (w : World) : Prop :=
  exists h, buffer (this w) = Some h /\ (h < glNextName (gl w))%nat.

(** Bytes per element that [Resize] stores for a supported element type. *)
Definition element_bytes (t : Z) : Z := if t =? GL.FLOAT then 4 else 1.

(** The array that [Resize] leaves for [len] elements when the array before
    it was [a]: the elements of [a], then zeros. *)
Definition grown (a : TypedArray) (len : Z) : TypedArray :=
  mkTypedArray (kind a)
    (elems a ++ repeat 0 (Z.to_nat len - List.length (elems a))).

(** Replays a list of calls and returns the size of the level-0 image of
    texture [h]: width times height of the last [texImage2D] made while [h]
    was bound to TEXTURE_2D.  In the format the class uses (ALPHA,
    UNSIGNED_BYTE) a texel is one byte. *)
Fixpoint texture_store_size_from (calls : list GLCall) (bound : option Handle)
    (h : Handle) (size : option Z) : option Z :=
  match calls with
  | [] => size
  | bindTexture _ t :: rest => texture_store_size_from rest t h size
  | texImage2D _ _ _ width height _ _ _ _ :: rest =>
      match bound with
      | Some t => if Nat.eqb t h
                  then texture_store_size_from rest bound h (Some (width * height))
                  else texture_store_size_from rest bound h size
      | None => texture_store_size_from rest bound h size
      end
  | _ :: rest => texture_store_size_from rest bound h size
  end.

Definition texture_store_size (g : GLContext) (h : Handle) : option Z :=
  texture_store_size_from (glCalls g) None h None.

(** The byte size of the GPU resource the object holds. *)
Definition gpu_size (w : World) : option Z :=
  if bufferType (this w) =? glDynamicBufferType.Buffer then
    match buffer (this w) with
    | Some h => buffer_store_size (gl w) h
    | None => None
    end
  else if bufferType (this w) =? glDynamicBufferType.Texture then
    match texture (this w) with
    | Some h => texture_store_size (gl w) h
    | None => None
    end
  else None.

(** The GPU resource has the byte size of the mirror. *)
Definition gpu_size_match (w : World) : Prop :=
  gpu_size w = Some (mirror_bytes (this w)).

(** ** Two buffers used as examples *)

(** A context on which nothing was called yet. *)
Definition gl0 : GLContext := mkGL [] 1%nat (fun _ _ => 0).

(** [new glDynamicBuffer(gl.FLOAT, 3, 4, glDynamicBufferType.Buffer)] *)
Definition buffer_world : World :=
  mkWorld
    (mkBuffer GL.FLOAT 3 glDynamicBufferType.Buffer false 4 4
       (Some (mkTypedArray Float32Array [0; 0; 0; 0; 0; 0; 0; 0; 0; 0; 0; 0]))
       48 (Some 1%nat) None)
    (mkGL [createBuffer 1%nat; bindBuffer GL.ARRAY_BUFFER (Some 1%nat);
           bufferData GL.ARRAY_BUFFER 48 GL.DYNAMIC_DRAW]
       2%nat (fun _ _ => 0))
    [LogCreating 4 3 4 48].

(** [new glDynamicBuffer(gl.BYTE, 1, 4, glDynamicBufferType.Texture)] *)
Definition texture_world : World :=
  mkWorld
    (mkBuffer GL.BYTE 1 glDynamicBufferType.Texture false 4 1
       (Some (mkTypedArray Uint8Array [0; 0; 0; 0]))
       4 None (Some 1%nat))
    (mkGL [createTexture 1%nat; bindTexture GL.TEXTURE_2D (Some 1%nat);
           texParameteri GL.TEXTURE_2D GL.TEXTURE_MIN_FILTER GL.NEAREST;
           texParameteri GL.TEXTURE_2D GL.TEXTURE_MAG_FILTER GL.NEAREST;
           texParameteri GL.TEXTURE_2D GL.TEXTURE_WRAP_S GL.CLAMP_TO_EDGE;
           texParameteri GL.TEXTURE_2D GL.TEXTURE_WRAP_T GL.CLAMP_TO_EDGE;
           texImage2D GL.TEXTURE_2D 0 GL.ALPHA 4 1 0 GL.ALPHA GL.UNSIGNED_BYTE
             (Some (mkTypedArray Uint8Array [0; 0; 0; 0]))]
       2%nat (fun _ _ => 0))
    [LogCreating 4 1 1 4].

(** The first buffer after the caller has stored 7.5 (the bits 0x40F00000)
    at index 5 of the mirror and set [dirty]. *)
Definition written_world : World :=
  mkWorld
    (mkBuffer GL.FLOAT 3 glDynamicBufferType.Buffer true 4 4
       (Some (mkTypedArray Float32Array [0; 0; 0; 0; 0; 1089470464; 0; 0; 0; 0; 0; 0]))
       48 (Some 1%nat) None)
    (gl buffer_world) (console buffer_world).

(** ** Kinds of calls *)

(** The calls that act on buffer objects and vertex attributes. *)
Definition buffer_call (c : GLCall) : bool :=
  match c with
  | createBuffer _ | bindBuffer _ _ | bufferData _ _ _ | bufferSubData _ _ _
  | getAttribLocation _ _ _ | enableVertexAttribArray _
  | vertexAttribPointer _ _ _ _ _ _ | vertexAttribDivisor _ _ => true
  | _ => false
  end.

(** The calls that act on texture objects. *)
Definition texture_call (c : GLCall) : bool :=
  match c with
  | createTexture _ | bindTexture _ _ | texParameteri _ _ _
  | texImage2D _ _ _ _ _ _ _ _ _ => true
  | _ => false
  end.

Definition is_CallUploadData (c : Call) : bool :=
  match c with
  | CallUploadData => true
  | _ => false
  end.

(** The arguments for which the constructor returns a buffer: a supported
    element type, a number of elements for which the engine allocates the
    array, and a buffer type that is omitted, Buffer, or Texture with single
    bytes. *)
Definition accepted_arguments (t n c : Z) (m : option Z) : Prop :=
  (t = GL.FLOAT \/ t = GL.BYTE) /\ allocatable (array_kind t) (n * c) = true /\
  (m = None \/ m = Some glDynamicBufferType.Buffer \/
   (m = Some glDynamicBufferType.Texture /\ t = GL.BYTE /\ n = 1)).

(** Replays a list of calls and returns the pixels given to the last
    [texImage2D] made while texture [h] was bound to TEXTURE_2D: the image
    the texture holds. *)
Fixpoint texture_image_from (calls : list GLCall) (bound : option Handle)
    (h : Handle) (image : option (option TypedArray)) : option (option TypedArray) :=
  match calls with
  | [] => image
  | bindTexture _ t :: rest => texture_image_from rest t h image
  | texImage2D _ _ _ _ _ _ _ _ pixels :: rest =>
      match bound with
      | Some t => if Nat.eqb t h
                  then texture_image_from rest bound h (Some pixels)
                  else texture_image_from rest bound h image
      | None => texture_image_from rest bound h image
      end
  | _ :: rest => texture_image_from rest bound h image
  end.

Definition texture_image (g : GLContext) (h : Handle) : option (option TypedArray) :=
  texture_image_from (glCalls g) None h None.

(** The texture of the object holds the mirror as it is now. *)
Definition texture_in_sync (w : World) : Prop :=
  exists h, texture (this w) = Some h /\
            texture_image (gl w) h = Some (cpuArray (this w)).

(** [new glDynamicBuffer(gl.FLOAT, 3, 0, glDynamicBufferType.Buffer)]: a
    buffer of no entries. *)
Definition empty_world : World :=
  mkWorld
    (mkBuffer GL.FLOAT 3 glDynamicBufferType.Buffer false 0 4
       (Some (mkTypedArray Float32Array []))
       0 (Some 1%nat) None)
    (mkGL [createBuffer 1%nat; bindBuffer GL.ARRAY_BUFFER (Some 1%nat);
           bufferData GL.ARRAY_BUFFER 0 GL.DYNAMIC_DRAW]
       2%nat (fun _ _ => 0))
    [LogCreating 0 3 4 0].

(** * Proofs *)

(** ** Typed arrays *)

Lemma allocatable_spec k len :
  allocatable k len = true <->
  0 <= len <= 2 ^ 53 - 1 /\ bytes_per_element k * len <= Z.of_N heap_limit.
Proof.
  unfold allocatable. rewrite !andb_true_iff, !Z.leb_le. tauto.
Qed.

Lemma allocatable_nonneg k len : allocatable k len = true -> 0 <= len.
Proof. rewrite allocatable_spec. lia. Qed.

(** What the engine allocates it allocates in every smaller size. *)
Lemma allocatable_le k len len' :
  0 <= len' <= len -> allocatable k len = true -> allocatable k len' = true.
Proof.
  rewrite !allocatable_spec. intros H (H1 & H2). split; [lia|].
  destruct k; cbn [bytes_per_element] in *; lia.
Qed.

Lemma allocatable_zero k : allocatable k 0 = true.
Proof.
  apply allocatable_spec. rewrite Z.mul_0_r. split; [lia|]. apply N2Z.is_nonneg.
Qed.

Lemma TypedArray_new_ok k len :
  allocatable k len = true ->
  TypedArray_new k len = Normal (mkTypedArray k (repeat 0 (Z.to_nat len))).
Proof.
  rewrite allocatable_spec. intros (H1 & H2). unfold TypedArray_new.
  destruct (Z.ltb_spec len 0); [lia|].
  destruct (Z.ltb_spec (2 ^ 53 - 1) len); [lia|]. cbn [orb].
  destruct (Z.ltb_spec (Z.of_N heap_limit) (bytes_per_element k * len));
    [lia | reflexivity].
Qed.

Lemma TypedArray_new_fails k len :
  allocatable k len = false ->
  exists message, TypedArray_new k len = Throw (RangeError message).
Proof.
  intros H. unfold TypedArray_new.
  destruct ((len <? 0) || (2 ^ 53 - 1 <? len)) eqn:E1; [eexists; reflexivity|].
  destruct (Z.of_N heap_limit <? bytes_per_element k * len) eqn:E2;
    [eexists; reflexivity|].
  apply orb_false_iff in E1 as (E1 & E3).
  apply Z.ltb_ge in E1, E2, E3.
  assert (allocatable k len = true) by (apply allocatable_spec; lia).
  congruence.
Qed.

Lemma TypedArray_new_negative k len :
  len < 0 -> TypedArray_new k len = Throw (RangeError "Invalid typed array length").
Proof.
  intros H. unfold TypedArray_new.
  destruct (Z.ltb_spec len 0); [reflexivity | lia].
Qed.

Lemma map_store_as_same k l : map (store_as k k) l = l.
Proof.
  induction l as [|x l IH]; simpl; [reflexivity|].
  rewrite IH. destruct k; reflexivity.
Qed.

Lemma skipn_repeat_zero (m n : nat) : skipn m (repeat 0 n) = repeat 0 (n - m).
Proof.
  revert n. induction m as [|m IH]; intros n.
  - rewrite Nat.sub_0_r. reflexivity.
  - destruct n as [|n]; [reflexivity | simpl; apply IH].
Qed.

Lemma TypedArray_set_fresh k source len :
  kind source = k ->
  (List.length (elems source) <= len)%nat ->
  TypedArray_set (mkTypedArray k (repeat 0 len)) source =
  Normal (mkTypedArray k (elems source ++ repeat 0 (len - List.length (elems source)))).
Proof.
  intros Hk Hl. unfold TypedArray_set. cbn [elems kind].
  rewrite repeat_length.
  destruct (Nat.ltb_spec len (List.length (elems source))); [lia|].
  rewrite Hk, map_store_as_same, skipn_repeat_zero. reflexivity.
Qed.

Lemma TypedArray_set_too_long target source :
  (List.length (elems target) < List.length (elems source))%nat ->
  TypedArray_set target source = Throw (RangeError "offset is out of bounds").
Proof.
  intros Hl. unfold TypedArray_set.
  destruct (Nat.ltb_spec (List.length (elems target)) (List.length (elems source)));
    [reflexivity | lia].
Qed.

(** ** Resize *)

Ltac unfold_M :=
  unfold bind, read, assign, lift, ret, throw, assert, console_log, gl_do, gl_create,
    gl_getAttribLocation.

(** Splits on every test and completion the goal is stuck on. *)
Ltac split_branches :=
  repeat match goal with
  | |- context [if ?c then _ else _] => destruct c eqn:?; cbn
  | |- context [match ?c with Some _ => _ | None => _ end] => destruct c eqn:?; cbn
  | |- context [match ?c with Normal _ => _ | Throw _ => _ end] => destruct c eqn:?; cbn
  end.

Lemma kind_of_elementType_cases t k :
  kind_of_elementType t = Some k ->
  (t = GL.FLOAT /\ k = Float32Array) \/ (t = GL.BYTE /\ k = Uint8Array).
Proof.
  unfold kind_of_elementType.
  destruct (Z.eqb_spec t GL.FLOAT); [intros [= <-]; auto|].
  destruct (Z.eqb_spec t GL.BYTE); [intros [= <-]; auto | discriminate].
Qed.

Lemma Resize_Buffer_grow b g out n a :
  constructed b -> cpuArray b = Some a ->
  bufferType b = glDynamicBufferType.Buffer ->
  nbEntries b <= n ->
  allocatable (array_kind (elementType b)) (nbElements b * n) = true ->
  Resize n (mkWorld b g out) =
  (Normal tt,
   mkWorld
     (mkBuffer (elementType b) (nbElements b) (bufferType b) (dirty b) n
        (element_bytes (elementType b))
        (Some (grown a (nbElements b * n)))
        (element_bytes (elementType b) * nbElements b * n)
        (Some (glNextName g)) (texture b))
     (mkGL (glCalls g ++
            [createBuffer (glNextName g);
             bindBuffer GL.ARRAY_BUFFER (Some (glNextName g));
             bufferData GL.ARRAY_BUFFER
               (element_bytes (elementType b) * nbElements b * n) GL.DYNAMIC_DRAW])
        (S (glNextName g)) (glAttribLocations g))
     (out ++ [LogResizing n (nbElements b) (element_bytes (elementType b))
                (element_bytes (elementType b) * nbElements b * n)])).
Proof.
  intros [Ht Hn Hc Hm (a' & Ha' & Hk & Hlen) _] Ha Hb Hle Hal.
  rewrite Ha in Ha'. injection Ha' as <-.
  destruct b as [t ne bt d c eb arr nb bh th];
    cbn [elementType nbElements bufferType nbEntries cpuArray dirty buffer texture] in *.
  subst bt arr.
  assert (List.length (elems a) <= Z.to_nat (ne * n))%nat by nia.
  unfold Resize. unfold_M. cbn -[TypedArray_new TypedArray_set Z.mul].
  destruct (kind_of_elementType_cases _ _ Hk) as [[-> Hka] | [-> Hka]];
    cbn -[TypedArray_new TypedArray_set Z.mul];
    rewrite TypedArray_new_ok by exact Hal;
    cbn -[TypedArray_new TypedArray_set Z.mul];
    rewrite TypedArray_set_fresh by assumption;
    cbn -[Z.mul]; unfold grown; rewrite Hka, <- !app_assoc; reflexivity.
Qed.

Lemma Resize_Texture_grow b g out n a :
  constructed b -> cpuArray b = Some a ->
  bufferType b = glDynamicBufferType.Texture ->
  nbEntries b <= n ->
  allocatable (array_kind (elementType b)) (nbElements b * n) = true ->
  Resize n (mkWorld b g out) =
  (Normal tt,
   mkWorld
     (mkBuffer (elementType b) (nbElements b) (bufferType b) (dirty b) n 1
        (Some (grown a n)) n (buffer b) (Some (glNextName g)))
     (mkGL (glCalls g ++
            [createTexture (glNextName g);
             bindTexture GL.TEXTURE_2D (Some (glNextName g));
             texParameteri GL.TEXTURE_2D GL.TEXTURE_MIN_FILTER GL.NEAREST;
             texParameteri GL.TEXTURE_2D GL.TEXTURE_MAG_FILTER GL.NEAREST;
             texParameteri GL.TEXTURE_2D GL.TEXTURE_WRAP_S GL.CLAMP_TO_EDGE;
             texParameteri GL.TEXTURE_2D GL.TEXTURE_WRAP_T GL.CLAMP_TO_EDGE;
             texImage2D GL.TEXTURE_2D 0 GL.ALPHA n 1 0 GL.ALPHA GL.UNSIGNED_BYTE
               (Some (grown a n))])
        (S (glNextName g)) (glAttribLocations g))
     (out ++ [LogResizing n 1 1 n])).
Proof.
  intros [Ht Hn Hc Hm (a' & Ha' & Hk & Hlen) _] Ha Hb Hle Hal.
  rewrite Ha in Ha'. injection Ha' as <-.
  destruct Hm as [Hm | (_ & Hty & Hne)]; [rewrite Hb in Hm; discriminate|].
  destruct b as [t ne bt d c eb arr nb bh th];
    cbn [elementType nbElements bufferType nbEntries cpuArray dirty buffer texture] in *.
  subst bt arr t ne.
  assert (List.length (elems a) <= Z.to_nat (1 * n))%nat by lia.
  injection Hk as Hka.
  unfold Resize. unfold_M. cbn -[TypedArray_new TypedArray_set Z.mul].
  rewrite TypedArray_new_ok by exact Hal.
  cbn -[TypedArray_new TypedArray_set Z.mul].
  rewrite TypedArray_set_fresh by (assumption || (symmetry; assumption)).
  cbn -[Z.mul]. unfold grown.
  rewrite <- Hka, <- !app_assoc, !Z.mul_1_l. reflexivity.
Qed.

(** Case split on the buffer type of a constructed buffer, rewriting
    [Resize n] on it by its equation for that type. *)
Ltac resize_grow Hc Hle Hal :=
  let a := fresh "a" in
  let Ha := fresh "Ha" in
  let Hb := fresh "Hb" in
  destruct (c_cpuArray _ Hc) as (a & Ha & _);
  destruct (c_bufferType _ Hc) as [Hb | (Hb & _)];
  [ rewrite (Resize_Buffer_grow _ _ _ _ a Hc Ha Hb Hle Hal)
  | rewrite (Resize_Texture_grow _ _ _ _ a Hc Ha Hb Hle Hal) ].

(** When the engine does not allocate the new array, [Resize] throws the
    [RangeError] of the array constructor, having stored the capacity asked
    for and the bytes per element, and nothing else: the mirror, the GPU
    resource, the context and the console are as before. *)
Lemma Resize_unallocatable b g out n :
  elementType b = GL.FLOAT \/ elementType b = GL.BYTE ->
  allocatable (array_kind (elementType b)) (nbElements b * n) = false ->
  exists message,
    Resize n (mkWorld b g out) =
    (Throw (RangeError message),
     mkWorld
       (mkBuffer (elementType b) (nbElements b) (bufferType b) (dirty b) n
          (element_bytes (elementType b)) (cpuArray b) (nbBytes b)
          (buffer b) (texture b))
       g out).
Proof.
  intros Ht Hal.
  destruct b as [t ne bt d c eb arr nb bh th];
    cbn [elementType nbElements bufferType nbEntries cpuArray dirty buffer texture
         nbBytes] in *.
  destruct Ht as [-> | ->];
    destruct (TypedArray_new_fails _ _ Hal) as (message & E);
    exists message; unfold Resize; unfold_M;
    cbn -[TypedArray_new TypedArray_set Z.mul];
    change (array_kind GL.FLOAT) with Float32Array in E;
    change (array_kind GL.BYTE) with Uint8Array in E;
    rewrite E; reflexivity.
Qed.

Lemma grown_length a len :
  Z.of_nat (List.length (elems a)) <= len ->
  Z.of_nat (List.length (elems (grown a len))) = len.
Proof.
  intros H. unfold grown. cbn [elems].
  rewrite length_app, repeat_length. lia.
Qed.

Lemma Resize_grow_completes b g out n :
  constructed b -> nbEntries b <= n ->
  allocatable (array_kind (elementType b)) (nbElements b * n) = true ->
  fst (Resize n (mkWorld b g out)) = Normal tt.
Proof.
  intros Hc Hle Hal. resize_grow Hc Hle Hal; reflexivity.
Qed.

(** A resize of a constructed buffer to at least its capacity returns
    exactly when the engine allocates the new array. *)
Lemma Resize_grow_completes_iff b g out n :
  constructed b -> nbEntries b <= n ->
  fst (Resize n (mkWorld b g out)) = Normal tt <->
  allocatable (array_kind (elementType b)) (nbElements b * n) = true.
Proof.
  intros Hc Hle. split.
  - intros H.
    destruct (allocatable (array_kind (elementType b)) (nbElements b * n)) eqn:Hal;
      [reflexivity|].
    destruct (Resize_unallocatable b g out n (c_elementType _ Hc) Hal) as (message & E).
    rewrite E in H. discriminate H.
  - apply Resize_grow_completes; assumption.
Qed.

Lemma Resize_grow_constructed b g out n :
  constructed b -> nbEntries b <= n ->
  allocatable (array_kind (elementType b)) (nbElements b * n) = true ->
  constructed (this (snd (Resize n (mkWorld b g out)))).
Proof.
  intros Hc Hle Hal.
  pose proof (c_nbElements _ Hc). pose proof (c_nbEntries _ Hc).
  pose proof (c_elementType _ Hc) as Ht.
  destruct (c_cpuArray _ Hc) as (a0 & Ha0 & Hk0 & Hl0).
  resize_grow Hc Hle Hal; rewrite Ha in Ha0; injection Ha0 as <-; cbn [snd this].
  - apply mkConstructed; unfold fits;
      cbn [elementType nbElements nbEntries bufferType cpuArray].
    + assumption.
    + assumption.
    + lia.
    + left; assumption.
    + exists (grown a (nbElements b * n)). repeat split; [assumption|].
      apply grown_length. nia.
    + exact Hal.
  - destruct (c_bufferType _ Hc) as [Hb' | (_ & Hty & Hne)]; [rewrite Hb in Hb'; discriminate|].
    apply mkConstructed; unfold fits;
      cbn [elementType nbElements nbEntries bufferType cpuArray].
    + assumption.
    + assumption.
    + lia.
    + right; auto.
    + exists (grown a n). repeat split; [assumption|].
      rewrite Hne, Z.mul_1_l. apply grown_length. nia.
    + exact Hal.
Qed.

(** A resize to at least the capacity keeps the mirror as a prefix, also
    when it throws for want of the new array: then the mirror is the old
    one. *)
Lemma Resize_grow_mirror b g out n :
  constructed b -> nbEntries b <= n ->
  exists zeros,
    mirror (this (snd (Resize n (mkWorld b g out)))) = mirror b ++ zeros.
Proof.
  intros Hc Hle. unfold mirror at 2.
  destruct (allocatable (array_kind (elementType b)) (nbElements b * n)) eqn:Hal.
  - resize_grow Hc Hle Hal; rewrite Ha; cbn; eexists; reflexivity.
  - destruct (Resize_unallocatable b g out n (c_elementType _ Hc) Hal) as (message & ->).
    exists []. unfold mirror. cbn [snd this cpuArray]. rewrite app_nil_r. reflexivity.
Qed.

(** Whatever branch it takes, and also when it throws, [Resize] stores its
    argument in [nbEntries] and leaves [dirty], [elementType], [nbElements]
    and [bufferType] as they were. *)
Lemma Resize_fields n w :
  let b' := this (snd (Resize n w)) in
  nbEntries b' = n /\ dirty b' = dirty (this w) /\
  elementType b' = elementType (this w) /\ nbElements b' = nbElements (this w) /\
  bufferType b' = bufferType (this w).
Proof.
  unfold Resize. unfold_M. cbn. split_branches; repeat split; reflexivity.
Qed.

(** ** The doubling loop *)

Lemma ToInt32_small x : - 2 ^ 31 <= x < 2 ^ 31 -> JS.ToInt32 x = x.
Proof.
  intros H. unfold JS.ToInt32. rewrite Z.mod_small; lia.
Qed.

Lemma shl_1_double x : - 2 ^ 30 <= x < 2 ^ 30 -> JS.shl x 1 = 2 * x.
Proof.
  intros H. unfold JS.shl. change (1 mod 32) with 1.
  rewrite Z.shiftl_mul_pow2 by lia.
  rewrite (ToInt32_small x) by lia.
  rewrite ToInt32_small; lia.
Qed.

Lemma doubling_loop_done fuel target nb :
  target <= nb -> doubling_loop (S fuel) target nb = Some nb.
Proof.
  intros H. cbn [doubling_loop]. rewrite Z.gtb_ltb.
  destruct (Z.ltb_spec nb target); [lia | reflexivity].
Qed.

Lemma doubling_loop_step fuel target nb :
  nb < target ->
  doubling_loop (S fuel) target nb = doubling_loop fuel target (JS.shl nb 1).
Proof.
  intros H. cbn [doubling_loop]. rewrite Z.gtb_ltb.
  destruct (Z.ltb_spec nb target); [reflexivity | lia].
Qed.

(** From [nb > 0] the loop returns [nb * 2^k] for the least [k] that reaches
    the target, as long as that value is a 32-bit signed integer. *)
Lemma doubling_loop_grow (k : nat) :
  forall fuel target nb,
    0 < nb -> nb * 2 ^ Z.of_nat k < 2 ^ 31 ->
    (forall j : nat, (j < k)%nat -> nb * 2 ^ Z.of_nat j < target) ->
    target <= nb * 2 ^ Z.of_nat k ->
    (k < fuel)%nat ->
    doubling_loop fuel target nb = Some (nb * 2 ^ Z.of_nat k).
Proof.
  induction k as [|k IH]; intros fuel target nb Hpos Hfit Hbelow Hreach Hfuel;
    (destruct fuel as [|fuel]; [lia|]).
  - rewrite Z.mul_1_r in *. apply doubling_loop_done. assumption.
  - rewrite Nat2Z.inj_succ, Z.pow_succ_r in * by lia.
    assert (nb < target) by (specialize (Hbelow O); cbn in Hbelow; lia).
    assert (0 < 2 ^ Z.of_nat k) by (apply Z.pow_pos_nonneg; lia).
    rewrite doubling_loop_step by assumption.
    rewrite shl_1_double by nia.
    replace (nb * (2 * 2 ^ Z.of_nat k)) with (2 * nb * 2 ^ Z.of_nat k) in * by ring.
    apply IH; try lia.
    intros j Hj. specialize (Hbelow (S j)).
    rewrite Nat2Z.inj_succ, Z.pow_succ_r in Hbelow by lia.
    replace (2 * nb * 2 ^ Z.of_nat j) with (nb * (2 * 2 ^ Z.of_nat j)) by ring.
    apply Hbelow. lia.
Qed.

(** Once the doubled value has wrapped around to 0 the loop cannot end. *)
Lemma doubling_loop_zero fuel target :
  0 < target -> doubling_loop fuel target 0 = None.
Proof.
  intros H. induction fuel as [|fuel IH]; [reflexivity|].
  rewrite doubling_loop_step by assumption. exact IH.
Qed.

Lemma doubling_loop_diverges_step target nb :
  nb < target ->
  (forall fuel, doubling_loop fuel target (JS.shl nb 1) = None) ->
  forall fuel, doubling_loop fuel target nb = None.
Proof.
  intros H Hnext [|fuel]; [reflexivity|].
  rewrite doubling_loop_step by assumption. apply Hnext.
Qed.

(** ** ResizeToFitNextPow2 *)

Lemma ResizeToFitNextPow2_cases fuel target w r :
  ResizeToFitNextPow2 fuel target w = Some r ->
  r = (Normal tt, w) \/
  exists nb_entries, nbEntries (this w) < nb_entries /\ r = Resize nb_entries w.
Proof.
  unfold ResizeToFitNextPow2.
  destruct (doubling_loop fuel target (nbEntries (this w))) as [nb|]; [|discriminate].
  rewrite Z.gtb_ltb. intros [= <-].
  destruct (Z.ltb_spec (nbEntries (this w)) nb); [right; eauto | left; reflexivity].
Qed.

Lemma ResizeToFitNextPow2_noop fuel target w :
  target <= nbEntries (this w) ->
  ResizeToFitNextPow2 (S fuel) target w = Some (Normal tt, w).
Proof.
  intros H. unfold ResizeToFitNextPow2.
  rewrite doubling_loop_done by assumption.
  rewrite Z.gtb_ltb, Z.ltb_irrefl. reflexivity.
Qed.

Lemma ResizeToFitNextPow2_grow (k fuel : nat) target w :
  0 < nbEntries (this w) -> nbEntries (this w) < target ->
  nbEntries (this w) * 2 ^ Z.of_nat k < 2 ^ 31 ->
  (forall j : nat, (j < k)%nat -> nbEntries (this w) * 2 ^ Z.of_nat j < target) ->
  target <= nbEntries (this w) * 2 ^ Z.of_nat k ->
  (k < fuel)%nat ->
  ResizeToFitNextPow2 fuel target w =
  Some (Resize (nbEntries (this w) * 2 ^ Z.of_nat k) w).
Proof.
  intros Hpos Hlt Hfit Hbelow Hreach Hfuel. unfold ResizeToFitNextPow2.
  rewrite (doubling_loop_grow k) by assumption.
  rewrite Z.gtb_ltb.
  destruct (Z.ltb_spec (nbEntries (this w)) (nbEntries (this w) * 2 ^ Z.of_nat k));
    [reflexivity | lia].
Qed.

(** ** What the calls keep *)

Lemma UploadData_this w : this (snd (UploadData w)) = this w.
Proof.
  unfold UploadData. unfold_M. cbn. split_branches; reflexivity.
Qed.

Lemma UploadData_completes w : fst (UploadData w) = Normal tt.
Proof.
  unfold UploadData. unfold_M. cbn. split_branches; reflexivity.
Qed.

Lemma UploadDirtyData_this w :
  this (snd (UploadDirtyData w)) =
  if dirty (this w) then set_dirty false (this w) else this w.
Proof.
  unfold UploadDirtyData, UploadData. unfold_M. cbn. split_branches; reflexivity.
Qed.

Lemma BindAsInstanceAttribute_this program attrib_name w :
  this (snd (BindAsInstanceAttribute program attrib_name w)) = this w.
Proof.
  unfold BindAsInstanceAttribute. unfold_M. cbn. split_branches; reflexivity.
Qed.

Lemma constructed_set_dirty d b : constructed b -> constructed (set_dirty d b).
Proof.
  intros [H1 H2 H3 H4 H5 H6]. apply mkConstructed; assumption.
Qed.

Lemma coherent_set_dirty d b : coherent b -> coherent (set_dirty d b).
Proof.
  intros [H1 H2 H3 H4 H5]. apply mkCoherent; assumption.
Qed.

Lemma kind_array_kind t k : kind_of_elementType t = Some k -> array_kind t = k.
Proof.
  intros H. destruct (kind_of_elementType_cases t k H) as [[-> ->] | [-> ->]];
    reflexivity.
Qed.

Lemma constructed_coherent b : constructed b -> coherent b.
Proof.
  intros [H1 H2 H3 H4 (a & Ha & Hk & Hl) H6]. apply mkCoherent; try assumption.
  exists a. split; [exact Ha|]. split; [exact Hk|].
  split; [|split; [lia | intros _; exact Hl]].
  unfold fits in H6. rewrite (kind_array_kind _ _ Hk) in H6. rewrite Hl. exact H6.
Qed.

Lemma coherent_fits_constructed b : coherent b -> fits b -> constructed b.
Proof.
  intros [H1 H2 H3 H4 (a & Ha & Hk & _ & _ & Hl)] Hf. apply mkConstructed; try assumption.
  exists a. repeat split; auto.
Qed.

(** The mirror of a coherent buffer has [nbElements * nbEntries] elements
    exactly when the engine allocates an array of that length. *)
Lemma coherent_mirror_length b :
  coherent b ->
  mirror_length b <= nbElements b * nbEntries b /\
  (mirror_length b = nbElements b * nbEntries b <-> fits b).
Proof.
  intros [H1 H2 H3 H4 (a & Ha & Hk & Hal & Hle & Hl)].
  unfold mirror_length, mirror. rewrite Ha. split; [exact Hle|].
  split; [|exact Hl].
  intros E. unfold fits. rewrite (kind_array_kind _ _ Hk), <- E. exact Hal.
Qed.

(** The mirror [Resize n] is meant to leave is allocated exactly when the
    array it asks for is. *)
Lemma Resize_fits n w :
  fits (this (snd (Resize n w))) <->
  allocatable (array_kind (elementType (this w))) (nbElements (this w) * n) = true.
Proof.
  unfold fits. destruct (Resize_fields n w) as (-> & _ & -> & -> & _). tauto.
Qed.

(** A resize to more entries keeps a coherent buffer coherent, whether it
    returns or throws. *)
Lemma Resize_grow_coherent b g out n :
  coherent b -> nbEntries b < n ->
  coherent (this (snd (Resize n (mkWorld b g out)))).
Proof.
  intros Hk Hlt.
  pose proof (k_nbElements _ Hk) as Hne. pose proof (k_nbEntries _ Hk) as Hpos.
  destruct (allocatable (array_kind (elementType b)) (nbElements b * n)) eqn:Hal.
  - apply constructed_coherent. apply Resize_grow_constructed; [|lia | exact Hal].
    apply coherent_fits_constructed; [exact Hk|].
    unfold fits. apply (allocatable_le _ (nbElements b * n)); [nia | exact Hal].
  - destruct (Resize_unallocatable b g out n (k_elementType _ Hk) Hal) as (message & ->).
    cbn [snd this]. destruct Hk as [H1 H2 H3 H4 (a & Ha & Hka & Hala & Hl & _)].
    apply mkCoherent; unfold fits;
      cbn [elementType nbElements nbEntries bufferType cpuArray]; try assumption;
      [lia|].
    exists a. repeat split; try assumption; [nia|].
    intros Hf. rewrite Hf in Hal. discriminate Hal.
Qed.

Lemma call_coherent fuel c w r :
  coherent (this w) -> call fuel c w = Some r -> coherent (this (snd r)).
Proof.
  intros Hc. destruct c as [target| | |program attrib_name]; cbn [call].
  - intros H. apply ResizeToFitNextPow2_cases in H as [-> | (nb & Hlt & ->)].
    + exact Hc.
    + destruct w as [b g out]. apply Resize_grow_coherent; assumption.
  - intros [= <-]. rewrite UploadData_this. exact Hc.
  - intros [= <-]. rewrite UploadDirtyData_this.
    destruct (dirty (this w)); [apply coherent_set_dirty|]; exact Hc.
  - intros [= <-]. rewrite BindAsInstanceAttribute_this. exact Hc.
Qed.

Lemma calls_coherent fuel cs :
  forall w w', coherent (this w) -> calls fuel cs w = Some w' -> coherent (this w').
Proof.
  induction cs as [|c cs IH]; intros w w' Hc; cbn [calls].
  - intros [= <-]. exact Hc.
  - destruct (call fuel c w) as [[r w1]|] eqn:E; [|discriminate].
    intros H. apply (IH w1 w'); [|exact H].
    apply (call_coherent fuel c w (r, w1) Hc E).
Qed.

(** A sequence of calls that ends with a capacity the engine allocates
    leaves a constructed buffer. *)
Lemma calls_constructed fuel cs w w' :
  constructed (this w) -> calls fuel cs w = Some w' -> fits (this w') ->
  constructed (this w').
Proof.
  intros Hc Hrun Hf. apply coherent_fits_constructed; [|exact Hf].
  apply (calls_coherent fuel cs w w'); [apply constructed_coherent; exact Hc | exact Hrun].
Qed.

Lemma call_capacity fuel c w r :
  call fuel c w = Some r -> nbEntries (this w) <= nbEntries (this (snd r)).
Proof.
  destruct c as [target| | |program attrib_name]; cbn [call].
  - intros H. apply ResizeToFitNextPow2_cases in H as [-> | (nb & Hlt & ->)].
    + cbn. lia.
    + destruct (Resize_fields nb w) as (-> & _). lia.
  - intros [= <-]. rewrite UploadData_this. lia.
  - intros [= <-]. rewrite UploadDirtyData_this.
    destruct (dirty (this w)); cbn; lia.
  - intros [= <-]. rewrite BindAsInstanceAttribute_this. lia.
Qed.

(** ** The constructor *)

Lemma Construct_Buffer t n c m g out :
  t = GL.FLOAT \/ t = GL.BYTE -> allocatable (array_kind t) (n * c) = true ->
  m = None \/ m = Some glDynamicBufferType.Buffer ->
  Construct t n c m g out =
  (Normal
     (mkBuffer t n glDynamicBufferType.Buffer false c (element_bytes t)
        (Some (mkTypedArray (array_kind t) (repeat 0 (Z.to_nat (n * c)))))
        (element_bytes t * n * c) (Some (glNextName g)) None),
   mkGL (glCalls g ++
         [createBuffer (glNextName g);
          bindBuffer GL.ARRAY_BUFFER (Some (glNextName g));
          bufferData GL.ARRAY_BUFFER (element_bytes t * n * c) GL.DYNAMIC_DRAW])
     (S (glNextName g)) (glAttribLocations g),
   out ++ [LogCreating c n (element_bytes t) (element_bytes t * n * c)]).
Proof.
  intros Ht Hlen Hm. unfold Construct, Resize. unfold_M.
  destruct Hm as [-> | ->]; destruct Ht as [-> | ->];
    cbn -[TypedArray_new Z.mul]; rewrite TypedArray_new_ok by exact Hlen;
    cbn -[Z.mul]; rewrite <- !app_assoc; reflexivity.
Qed.

Lemma Construct_Texture c g out :
  allocatable Uint8Array c = true ->
  Construct GL.BYTE 1 c (Some glDynamicBufferType.Texture) g out =
  (Normal
     (mkBuffer GL.BYTE 1 glDynamicBufferType.Texture false c 1
        (Some (mkTypedArray Uint8Array (repeat 0 (Z.to_nat c))))
        c None (Some (glNextName g))),
   mkGL (glCalls g ++
         [createTexture (glNextName g);
          bindTexture GL.TEXTURE_2D (Some (glNextName g));
          texParameteri GL.TEXTURE_2D GL.TEXTURE_MIN_FILTER GL.NEAREST;
          texParameteri GL.TEXTURE_2D GL.TEXTURE_MAG_FILTER GL.NEAREST;
          texParameteri GL.TEXTURE_2D GL.TEXTURE_WRAP_S GL.CLAMP_TO_EDGE;
          texParameteri GL.TEXTURE_2D GL.TEXTURE_WRAP_T GL.CLAMP_TO_EDGE;
          texImage2D GL.TEXTURE_2D 0 GL.ALPHA c 1 0 GL.ALPHA GL.UNSIGNED_BYTE
            (Some (mkTypedArray Uint8Array (repeat 0 (Z.to_nat c))))])
     (S (glNextName g)) (glAttribLocations g),
   out ++ [LogCreating c 1 1 c]).
Proof.
  intros Hc. unfold Construct, Resize. unfold_M.
  cbn -[TypedArray_new Z.mul].
  rewrite TypedArray_new_ok by (rewrite Z.mul_1_l; exact Hc).
  cbn -[Z.mul]. rewrite <- !app_assoc, !Z.mul_1_l. reflexivity.
Qed.

(** When the engine does not allocate the mirror the constructor throws the
    [RangeError] of the array constructor, having called nothing and logged
    nothing. *)
Lemma Construct_unallocatable t n c m g out :
  t = GL.FLOAT \/ t = GL.BYTE -> allocatable (array_kind t) (n * c) = false ->
  exists message, Construct t n c m g out = (Throw (RangeError message), g, out).
Proof.
  intros Ht Hal. unfold Construct.
  match goal with
  | |- context [Resize c (mkWorld ?b0 g out)] =>
      destruct (Resize_unallocatable b0 g out c Ht Hal) as (message & ->)
  end.
  exists message. reflexivity.
Qed.

(** ** Replaying the calls *)

Lemma buffer_store_size_from_app l1 l2 h :
  forall bound size, exists bound',
    buffer_store_size_from (l1 ++ l2) bound h size =
    buffer_store_size_from l2 bound' h (buffer_store_size_from l1 bound h size).
Proof.
  induction l1 as [|c l1 IH]; intros bound size.
  - exists bound. reflexivity.
  - destruct c; cbn [app buffer_store_size_from]; try apply IH.
    destruct bound as [b|]; [destruct (Nat.eqb b h)|]; apply IH.
Qed.

Lemma texture_store_size_from_app l1 l2 h :
  forall bound size, exists bound',
    texture_store_size_from (l1 ++ l2) bound h size =
    texture_store_size_from l2 bound' h (texture_store_size_from l1 bound h size).
Proof.
  induction l1 as [|c l1 IH]; intros bound size.
  - exists bound. reflexivity.
  - destruct c; cbn [app texture_store_size_from]; try apply IH.
    destruct bound as [b|]; [destruct (Nat.eqb b h)|]; apply IH.
Qed.

Lemma calls_since_app g l n locs :
  calls_since g (mkGL (glCalls g ++ l) n locs) = l.
Proof.
  unfold calls_since. cbn [glCalls].
  rewrite skipn_app, skipn_all, Nat.sub_diag. reflexivity.
Qed.

Lemma calls_since_same g : calls_since g g = [].
Proof. unfold calls_since. apply skipn_all. Qed.

(** ** The uploads and the binding *)

Lemma UploadData_Buffer w :
  bufferType (this w) = glDynamicBufferType.Buffer ->
  UploadData w =
  (Normal tt,
   mkWorld (this w)
     (mkGL (glCalls (gl w) ++
            [bindBuffer GL.ARRAY_BUFFER (buffer (this w));
             bufferSubData GL.ARRAY_BUFFER 0 (cpuArray (this w))])
        (glNextName (gl w)) (glAttribLocations (gl w)))
     (console w)).
Proof.
  intros Hb. unfold UploadData. unfold_M. cbn. rewrite Hb. cbn.
  rewrite <- !app_assoc. reflexivity.
Qed.

Lemma UploadData_Texture w :
  bufferType (this w) = glDynamicBufferType.Texture ->
  UploadData w =
  (Normal tt,
   mkWorld (this w)
     (mkGL (glCalls (gl w) ++
            [bindTexture GL.TEXTURE_2D (texture (this w));
             texImage2D GL.TEXTURE_2D 0 GL.ALPHA (nbEntries (this w)) 1 0 GL.ALPHA
               GL.UNSIGNED_BYTE (cpuArray (this w))])
        (glNextName (gl w)) (glAttribLocations (gl w)))
     (console w)).
Proof.
  intros Hb. unfold UploadData. unfold_M. cbn. rewrite Hb. cbn.
  rewrite <- !app_assoc. reflexivity.
Qed.

Lemma UploadDirtyData_dirty w :
  dirty (this w) = true ->
  UploadDirtyData w =
  (Normal tt,
   mkWorld (set_dirty false (this w)) (gl (snd (UploadData w))) (console w)).
Proof.
  intros Hd. unfold UploadDirtyData, UploadData. unfold_M. cbn. rewrite Hd.
  split_branches; reflexivity.
Qed.

Lemma UploadDirtyData_clean w :
  dirty (this w) = false -> UploadDirtyData w = (Normal tt, w).
Proof.
  intros Hd. unfold UploadDirtyData. unfold_M. cbn. rewrite Hd. reflexivity.
Qed.

Lemma BindAsInstanceAttribute_Buffer program attrib_name w :
  bufferType (this w) = glDynamicBufferType.Buffer ->
  BindAsInstanceAttribute program attrib_name w =
  (Normal tt,
   mkWorld (this w)
     (mkGL (glCalls (gl w) ++
            [bindBuffer GL.ARRAY_BUFFER (buffer (this w));
             getAttribLocation program attrib_name
               (glAttribLocations (gl w) program attrib_name);
             enableVertexAttribArray (glAttribLocations (gl w) program attrib_name);
             vertexAttribPointer (glAttribLocations (gl w) program attrib_name)
               (nbElements (this w)) (elementType (this w)) false 0 0;
             vertexAttribDivisor (glAttribLocations (gl w) program attrib_name) 1])
        (glNextName (gl w)) (glAttribLocations (gl w)))
     (console w)).
Proof.
  intros Hb. unfold BindAsInstanceAttribute. unfold_M. cbn. rewrite Hb. cbn.
  rewrite <- !app_assoc. reflexivity.
Qed.

Lemma BindAsInstanceAttribute_not_Buffer program attrib_name w :
  bufferType (this w) <> glDynamicBufferType.Buffer ->
  BindAsInstanceAttribute program attrib_name w =
  (Throw (Error "Can only call BindAsInstanceAttribute with Buffer types"), w).
Proof.
  intros Hb. unfold BindAsInstanceAttribute. unfold_M. cbn.
  destruct (Z.eqb_spec (bufferType (this w)) glDynamicBufferType.Buffer);
    [contradiction | reflexivity].
Qed.

(** ** A shrinking Resize *)

Lemma Resize_shrink b g out n a :
  constructed b -> cpuArray b = Some a -> 0 <= n < nbEntries b ->
  Resize n (mkWorld b g out) =
  (Throw (RangeError "offset is out of bounds"),
   mkWorld
     (mkBuffer (elementType b) (nbElements b) (bufferType b) (dirty b) n
        (element_bytes (elementType b))
        (Some (mkTypedArray (kind a) (repeat 0 (Z.to_nat (nbElements b * n)))))
        (element_bytes (elementType b) * nbElements b * n)
        (buffer b) (texture b))
     g out).
Proof.
  intros [Ht Hn Hc Hm (a' & Ha' & Hk & Hlen) Hf] Ha Hle.
  rewrite Ha in Ha'. injection Ha' as <-.
  destruct b as [t ne bt d c eb arr nb bh th]; unfold fits in Hf;
    cbn [elementType nbElements bufferType nbEntries cpuArray dirty buffer texture] in *.
  subst arr.
  assert (Hal : allocatable (array_kind t) (ne * n) = true)
    by (apply (allocatable_le _ (ne * c)); [nia | exact Hf]).
  assert (Z.to_nat (ne * n) < List.length (elems a))%nat by nia.
  unfold Resize. unfold_M. cbn -[TypedArray_new TypedArray_set Z.mul].
  destruct (kind_of_elementType_cases _ _ Hk) as [[-> Hka] | [-> Hka]];
    cbn -[TypedArray_new TypedArray_set Z.mul];
    rewrite TypedArray_new_ok by exact Hal;
    cbn -[TypedArray_new TypedArray_set Z.mul];
    rewrite TypedArray_set_too_long by (cbn [elems]; rewrite repeat_length; assumption);
    cbn -[Z.mul]; rewrite Hka; reflexivity.
Qed.

(** ** The size of the GPU resource *)

Lemma mirror_bytes_constructed b :
  constructed b ->
  mirror_bytes b = element_bytes (elementType b) * nbElements b * nbEntries b.
Proof.
  intros [_ _ _ _ (a & Ha & Hk & Hlen) _]. unfold mirror_bytes. rewrite Ha.
  destruct (kind_of_elementType_cases _ _ Hk) as [[-> ->] | [-> ->]];
    rewrite Hlen; unfold element_bytes; cbn [Z.eqb Pos.eqb GL.FLOAT GL.BYTE]; lia.
Qed.

Lemma Resize_grow_gpu_size_match b g out n :
  constructed b -> nbEntries b <= n ->
  allocatable (array_kind (elementType b)) (nbElements b * n) = true ->
  gpu_size_match (snd (Resize n (mkWorld b g out))).
Proof.
  intros Hc Hle Hal. unfold gpu_size_match.
  rewrite mirror_bytes_constructed by (apply Resize_grow_constructed; assumption).
  resize_grow Hc Hle Hal; cbn [snd this elementType nbElements nbEntries];
    unfold gpu_size; cbn [this gl bufferType buffer texture]; rewrite Hb;
    cbn [Z.eqb Pos.eqb glDynamicBufferType.Buffer glDynamicBufferType.Texture].
  - unfold buffer_store_size. cbn [glCalls].
    destruct (buffer_store_size_from_app (glCalls g)
                [createBuffer (glNextName g);
                 bindBuffer GL.ARRAY_BUFFER (Some (glNextName g));
                 bufferData GL.ARRAY_BUFFER
                   (element_bytes (elementType b) * nbElements b * n) GL.DYNAMIC_DRAW]
                (glNextName g) None None) as (bound' & ->).
    cbn [buffer_store_size_from]. rewrite Nat.eqb_refl. reflexivity.
  - destruct (c_bufferType _ Hc) as [Hb' | (_ & Hty & Hne)];
      [rewrite Hb in Hb'; discriminate|].
    unfold texture_store_size. cbn [glCalls].
    destruct (texture_store_size_from_app (glCalls g)
                [createTexture (glNextName g);
                 bindTexture GL.TEXTURE_2D (Some (glNextName g));
                 texParameteri GL.TEXTURE_2D GL.TEXTURE_MIN_FILTER GL.NEAREST;
                 texParameteri GL.TEXTURE_2D GL.TEXTURE_MAG_FILTER GL.NEAREST;
                 texParameteri GL.TEXTURE_2D GL.TEXTURE_WRAP_S GL.CLAMP_TO_EDGE;
                 texParameteri GL.TEXTURE_2D GL.TEXTURE_WRAP_T GL.CLAMP_TO_EDGE;
                 texImage2D GL.TEXTURE_2D 0 GL.ALPHA n 1 0 GL.ALPHA GL.UNSIGNED_BYTE
                   (Some (grown a n))]
                (glNextName g) None None) as (bound' & ->).
    cbn [texture_store_size_from]. rewrite Nat.eqb_refl, Hty, Hne.
    change (element_bytes GL.BYTE) with 1. f_equal. lia.
Qed.

Lemma gpu_size_match_same_resource w1 w2 :
  bufferType (this w2) = bufferType (this w1) ->
  buffer (this w2) = buffer (this w1) ->
  texture (this w2) = texture (this w1) ->
  cpuArray (this w2) = cpuArray (this w1) ->
  gl w2 = gl w1 ->
  gpu_size_match w1 -> gpu_size_match w2.
Proof.
  unfold gpu_size_match, gpu_size, mirror_bytes.
  intros -> -> -> -> ->. trivial.
Qed.

Lemma UploadData_gpu_size_match w :
  constructed (this w) -> gpu_size_match w -> gpu_size_match (snd (UploadData w)).
Proof.
  intros Hc Hm. unfold gpu_size_match in *.
  rewrite UploadData_this.
  destruct (c_bufferType _ Hc) as [Hb | (Hb & Hty & Hne)].
  - rewrite <- Hm. rewrite UploadData_Buffer by assumption.
    unfold gpu_size. cbn [snd this gl]. rewrite Hb.
    cbn [Z.eqb Pos.eqb glDynamicBufferType.Buffer].
    destruct (buffer (this w)) as [h|]; [|reflexivity].
    unfold buffer_store_size. cbn [glCalls].
    destruct (buffer_store_size_from_app (glCalls (gl w))
                [bindBuffer GL.ARRAY_BUFFER (Some h);
                 bufferSubData GL.ARRAY_BUFFER 0 (cpuArray (this w))]
                h None None) as (bound' & ->).
    reflexivity.
  - rewrite mirror_bytes_constructed in * by assumption.
    rewrite UploadData_Texture by assumption.
    unfold gpu_size in *. cbn [snd this gl]. rewrite Hb in *.
    cbn [Z.eqb Pos.eqb glDynamicBufferType.Buffer glDynamicBufferType.Texture] in *.
    destruct (texture (this w)) as [h|]; [|discriminate].
    unfold texture_store_size. cbn [glCalls].
    destruct (texture_store_size_from_app (glCalls (gl w))
                [bindTexture GL.TEXTURE_2D (Some h);
                 texImage2D GL.TEXTURE_2D 0 GL.ALPHA (nbEntries (this w)) 1 0 GL.ALPHA
                   GL.UNSIGNED_BYTE (cpuArray (this w))]
                h None None) as (bound' & ->).
    cbn [texture_store_size_from]. rewrite Nat.eqb_refl, Hty, Hne.
    change (element_bytes GL.BYTE) with 1. f_equal. lia.
Qed.

Lemma call_keeps_configuration fuel c w r :
  call fuel c w = Some r ->
  elementType (this (snd r)) = elementType (this w) /\
  nbElements (this (snd r)) = nbElements (this w) /\
  bufferType (this (snd r)) = bufferType (this w) /\
  (dirty (this (snd r)) = true -> dirty (this w) = true).
Proof.
  destruct c as [target| | |program attrib_name]; cbn [call].
  - intros H. apply ResizeToFitNextPow2_cases in H as [-> | (nb & _ & ->)].
    + cbn [snd]. repeat split; auto.
    + destruct (Resize_fields nb w) as (_ & Hd & Ht & Hn & Hb).
      rewrite Hd, Ht, Hn, Hb. repeat split; auto.
  - intros [= <-]. rewrite UploadData_this. repeat split; auto.
  - intros [= <-]. rewrite UploadDirtyData_this.
    destruct (dirty (this w)) eqn:E; cbn; rewrite ?E; repeat split; auto.
  - intros [= <-]. rewrite BindAsInstanceAttribute_this. repeat split; auto.
Qed.

Lemma calls_bufferType fuel cs :
  forall w w', calls fuel cs w = Some w' -> bufferType (this w') = bufferType (this w).
Proof.
  induction cs as [|c cs IH]; intros w w'; cbn [calls].
  - intros [= <-]. reflexivity.
  - destruct (call fuel c w) as [[r w1]|] eqn:E; [|discriminate].
    intros H. rewrite (IH w1 w' H).
    apply (call_keeps_configuration fuel c w (r, w1) E).
Qed.

(** The capacity only grows and the engine allocates every smaller array:
    when the mirror of the state after a call is allocated, so is the one
    of the state before. *)
Lemma call_fits_back fuel c w r :
  coherent (this w) -> call fuel c w = Some r -> fits (this (snd r)) -> fits (this w).
Proof.
  intros Hk E Hf.
  pose proof (call_capacity fuel c w r E) as Hcap.
  destruct (call_keeps_configuration fuel c w r E) as (Ht & Hn & _).
  pose proof (k_nbElements _ Hk). pose proof (k_nbEntries _ Hk).
  unfold fits in *. rewrite Ht, Hn in Hf.
  apply (allocatable_le _ (nbElements (this w) * nbEntries (this (snd r))));
    [nia | exact Hf].
Qed.

Lemma calls_fits_back fuel cs :
  forall w w', coherent (this w) -> calls fuel cs w = Some w' ->
               fits (this w') -> fits (this w).
Proof.
  induction cs as [|c cs IH]; intros w w' Hk; cbn [calls].
  - intros [= <-]. trivial.
  - destruct (call fuel c w) as [[r w1]|] eqn:E; [|discriminate].
    intros H Hf.
    pose proof (call_coherent fuel c w (r, w1) Hk E) as Hk1.
    apply (call_fits_back fuel c w (r, w1) Hk E).
    apply (IH w1 w' Hk1 H Hf).
Qed.

Lemma call_gpu_size_match fuel c w r :
  constructed (this w) -> gpu_size_match w ->
  call fuel c w = Some r -> fits (this (snd r)) -> gpu_size_match (snd r).
Proof.
  intros Hc Hm. destruct c as [target| | |program attrib_name]; cbn [call].
  - intros H Hf. apply ResizeToFitNextPow2_cases in H as [-> | (nb & Hlt & ->)].
    + exact Hm.
    + apply (proj1 (Resize_fits nb w)) in Hf. destruct w as [b g out].
      apply Resize_grow_gpu_size_match; cbn [this] in *; [assumption | lia | exact Hf].
  - intros [= <-] _. apply UploadData_gpu_size_match; assumption.
  - intros [= <-] _. destruct (dirty (this w)) eqn:Hd.
    + rewrite UploadDirtyData_dirty by assumption.
      apply (gpu_size_match_same_resource (snd (UploadData w)));
        try (rewrite UploadData_this; reflexivity); try reflexivity.
      apply UploadData_gpu_size_match; assumption.
    + rewrite UploadDirtyData_clean by assumption. exact Hm.
  - intros [= <-] _.
    destruct (Z.eq_dec (bufferType (this w)) glDynamicBufferType.Buffer) as [Hb | Hb].
    + rewrite BindAsInstanceAttribute_Buffer by assumption.
      unfold gpu_size_match in *. cbn [snd this]. rewrite <- Hm.
      unfold gpu_size. cbn [this gl]. rewrite Hb.
      cbn [Z.eqb Pos.eqb glDynamicBufferType.Buffer].
      destruct (buffer (this w)) as [h|]; [|reflexivity].
      unfold buffer_store_size. cbn [glCalls].
      match goal with
      | |- buffer_store_size_from (?l1 ++ ?l2) _ _ _ = _ =>
          destruct (buffer_store_size_from_app l1 l2 h None None) as (bound' & ->)
      end.
      reflexivity.
    + rewrite BindAsInstanceAttribute_not_Buffer by assumption. exact Hm.
Qed.

Lemma calls_gpu_size_match fuel cs :
  forall w w', constructed (this w) -> gpu_size_match w ->
               calls fuel cs w = Some w' -> fits (this w') -> gpu_size_match w'.
Proof.
  induction cs as [|c cs IH]; intros w w' Hc Hm; cbn [calls].
  - intros [= <-] _. exact Hm.
  - destruct (call fuel c w) as [[r w1]|] eqn:E; [|discriminate].
    intros H Hf.
    assert (Hk1 : coherent (this w1))
      by (apply (call_coherent fuel c w (r, w1));
          [apply constructed_coherent; exact Hc | exact E]).
    pose proof (calls_fits_back fuel cs w1 w' Hk1 H Hf) as Hf1.
    apply (IH w1 w'); [| |exact H | exact Hf].
    + apply coherent_fits_constructed; assumption.
    + apply (call_gpu_size_match fuel c w (r, w1) Hc Hm E Hf1).
Qed.

(** The constructor, for the arguments it is meant for. *)
Lemma Construct_valid_cases t n c m g out :
  valid_arguments t n c m -> allocatable (array_kind t) (n * c) = true ->
  exists b g' out',
    Construct t n c m g out = (Normal b, g', out') /\
    constructed b /\ gpu_size_match (mkWorld b g' out') /\
    elementType b = t /\ nbElements b = n /\ nbEntries b = c /\ dirty b = false /\
    cpuArray b = Some (mkTypedArray (array_kind t) (repeat 0 (Z.to_nat (n * c)))) /\
    ((bufferType b = glDynamicBufferType.Buffer /\
      calls_since g g' =
        [createBuffer (glNextName g);
         bindBuffer GL.ARRAY_BUFFER (Some (glNextName g));
         bufferData GL.ARRAY_BUFFER (element_bytes t * n * c) GL.DYNAMIC_DRAW]) \/
     (bufferType b = glDynamicBufferType.Texture /\
      calls_since g g' =
        [createTexture (glNextName g);
         bindTexture GL.TEXTURE_2D (Some (glNextName g));
         texParameteri GL.TEXTURE_2D GL.TEXTURE_MIN_FILTER GL.NEAREST;
         texParameteri GL.TEXTURE_2D GL.TEXTURE_MAG_FILTER GL.NEAREST;
         texParameteri GL.TEXTURE_2D GL.TEXTURE_WRAP_S GL.CLAMP_TO_EDGE;
         texParameteri GL.TEXTURE_2D GL.TEXTURE_WRAP_T GL.CLAMP_TO_EDGE;
         texImage2D GL.TEXTURE_2D 0 GL.ALPHA c 1 0 GL.ALPHA GL.UNSIGNED_BYTE
           (cpuArray b)])).
Proof.
  intros (Ht & Hn & Hc & Hm) Hlen.
  assert (Hmode : (m = None \/ m = Some glDynamicBufferType.Buffer) \/
                  (m = Some glDynamicBufferType.Texture /\ t = GL.BYTE /\ n = 1))
    by tauto.
  destruct Hmode as [Hmode | (-> & -> & ->)].
  - rewrite (Construct_Buffer t n c m g out Ht Hlen Hmode).
    do 3 eexists. split; [reflexivity|].
    assert (Hcon : constructed
              (mkBuffer t n glDynamicBufferType.Buffer false c (element_bytes t)
                 (Some (mkTypedArray (array_kind t) (repeat 0 (Z.to_nat (n * c)))))
                 (element_bytes t * n * c) (Some (glNextName g)) None)).
    { apply mkConstructed; unfold fits;
        cbn [elementType nbElements nbEntries bufferType cpuArray];
        try assumption; [left; reflexivity|].
      eexists; split; [reflexivity|]. cbn [kind elems]. split.
      - destruct Ht as [-> | ->]; reflexivity.
      - rewrite repeat_length. apply allocatable_nonneg in Hlen. lia. }
    split; [exact Hcon|]. split.
    { unfold gpu_size_match. rewrite mirror_bytes_constructed by exact Hcon.
      unfold gpu_size, buffer_store_size.
      cbn [this gl bufferType buffer glCalls elementType nbElements nbEntries
           Z.eqb Pos.eqb glDynamicBufferType.Buffer].
      match goal with
      | |- buffer_store_size_from (?l1 ++ ?l2) _ ?h _ = _ =>
          destruct (buffer_store_size_from_app l1 l2 h None None) as (bound' & ->)
      end.
      cbn [buffer_store_size_from]. rewrite Nat.eqb_refl. reflexivity. }
    repeat (split; [reflexivity|]).
    left. split; [reflexivity | apply calls_since_app].
  - rewrite Z.mul_1_l in Hlen. change (array_kind GL.BYTE) with Uint8Array in Hlen.
    rewrite (Construct_Texture c g out) by exact Hlen.
    do 3 eexists. split; [reflexivity|].
    assert (Hcon : constructed
              (mkBuffer GL.BYTE 1 glDynamicBufferType.Texture false c 1
                 (Some (mkTypedArray Uint8Array (repeat 0 (Z.to_nat c))))
                 c None (Some (glNextName g)))).
    { apply mkConstructed; unfold fits;
        cbn [elementType nbElements nbEntries bufferType cpuArray];
        try assumption; [right; repeat split; reflexivity | |].
      - eexists; split; [reflexivity|]. cbn [kind elems]. split; [reflexivity|].
        rewrite repeat_length. lia.
      - rewrite Z.mul_1_l. exact Hlen. }
    split; [exact Hcon|]. split.
    { unfold gpu_size_match. rewrite mirror_bytes_constructed by exact Hcon.
      unfold gpu_size, texture_store_size.
      cbn [this gl bufferType texture glCalls elementType nbElements nbEntries
           Z.eqb Pos.eqb glDynamicBufferType.Buffer glDynamicBufferType.Texture].
      match goal with
      | |- texture_store_size_from (?l1 ++ ?l2) _ ?h _ = _ =>
          destruct (texture_store_size_from_app l1 l2 h None None) as (bound' & ->)
      end.
      cbn [texture_store_size_from]. rewrite Nat.eqb_refl.
      change (element_bytes GL.BYTE) with 1. f_equal. lia. }
    rewrite Z.mul_1_l.
    repeat (split; [reflexivity|]).
    right. split; [reflexivity | apply calls_since_app].
Qed.

(** * The properties of the specification *)

(** ** Growth and the dirty flag *)

Lemma Resize_grow_uploads b g out n :
  constructed b -> nbEntries b <= n ->
  allocatable (array_kind (elementType b)) (nbElements b * n) = true ->
  (bufferType b = glDynamicBufferType.Buffer ->
   uploads (new_calls (mkWorld b g out) (snd (Resize n (mkWorld b g out)))) = []) /\
  (bufferType b = glDynamicBufferType.Texture ->
   uploads (new_calls (mkWorld b g out) (snd (Resize n (mkWorld b g out)))) =
   [texImage2D GL.TEXTURE_2D 0 GL.ALPHA n 1 0 GL.ALPHA GL.UNSIGNED_BYTE
      (cpuArray (this (snd (Resize n (mkWorld b g out)))))] /\
   exists a, cpuArray b = Some a /\
             cpuArray (this (snd (Resize n (mkWorld b g out)))) = Some (grown a n)).
Proof.
  intros Hc Hle Hal. unfold new_calls.
  resize_grow Hc Hle Hal; cbn [snd gl this cpuArray]; rewrite calls_since_app; split;
    intros Hb'; try (rewrite Hb in Hb'; discriminate).
  - reflexivity.
  - split; [reflexivity | eauto].
Qed.

(** A resize that does not return has called nothing on [gl] and left the
    mirror as it was, whenever the element type is supported and the new
    capacity is at least the old one. *)
Lemma Resize_grow_throws b g out n :
  constructed b -> nbEntries b <= n ->
  fst (Resize n (mkWorld b g out)) <> Normal tt ->
  (exists message, fst (Resize n (mkWorld b g out)) = Throw (RangeError message)) /\
  gl (snd (Resize n (mkWorld b g out))) = g /\
  console (snd (Resize n (mkWorld b g out))) = out /\
  cpuArray (this (snd (Resize n (mkWorld b g out)))) = cpuArray b.
Proof.
  intros Hc Hle Hthrow.
  destruct (allocatable (array_kind (elementType b)) (nbElements b * n)) eqn:Hal.
  - exfalso. apply Hthrow. apply Resize_grow_completes; assumption.
  - destruct (Resize_unallocatable b g out n (c_elementType _ Hc) Hal) as (message & ->).
    cbn [fst snd this gl console cpuArray]. eauto.
Qed.

(** C1, as the code has it.  A growth resize of a constructed buffer leaves
    [dirty] as it was, and with the Buffer type it makes no upload.  It
    returns when the engine allocates the new mirror, and only then.  When
    it returns with the Texture type, the [texImage2D] call that defines the
    new texture is given the new mirror (the old contents, then zeros),
    which is one upload.  When it does not return it has thrown the
    [RangeError] of the array constructor, called nothing and left the
    mirror as it was.  The resize that [ResizeToFitNextPow2] makes behaves
    the same: [dirty] is unchanged, with the Buffer type nothing is
    uploaded, and with the Texture type the mirror is uploaded when the call
    returns with a larger capacity. *)
Theorem Resize_grow_dirty_uploads (w : World) (n : Z) :
  constructed (this w) -> nbEntries (this w) < n ->
  dirty (this (snd (Resize n w))) = dirty (this w) /\
  (bufferType (this w) = glDynamicBufferType.Buffer ->
   uploads (new_calls w (snd (Resize n w))) = []) /\
  (fst (Resize n w) = Normal tt <->
   allocatable (array_kind (elementType (this w))) (nbElements (this w) * n) = true) /\
  (bufferType (this w) = glDynamicBufferType.Texture ->
   fst (Resize n w) = Normal tt ->
   uploads (new_calls w (snd (Resize n w))) =
   [texImage2D GL.TEXTURE_2D 0 GL.ALPHA n 1 0 GL.ALPHA GL.UNSIGNED_BYTE
      (cpuArray (this (snd (Resize n w))))] /\
   exists a, cpuArray (this w) = Some a /\
             cpuArray (this (snd (Resize n w))) = Some (grown a n)) /\
  (fst (Resize n w) <> Normal tt ->
   (exists message, fst (Resize n w) = Throw (RangeError message)) /\
   gl (snd (Resize n w)) = gl w /\
   cpuArray (this (snd (Resize n w))) = cpuArray (this w)) /\
  (forall fuel target r,
     ResizeToFitNextPow2 fuel target w = Some r ->
     dirty (this (snd r)) = dirty (this w) /\
     (bufferType (this w) = glDynamicBufferType.Buffer ->
      uploads (new_calls w (snd r)) = []) /\
     (bufferType (this w) = glDynamicBufferType.Texture ->
      nbEntries (this w) < nbEntries (this (snd r)) ->
      fst r = Normal tt ->
      uploads (new_calls w (snd r)) =
      [texImage2D GL.TEXTURE_2D 0 GL.ALPHA (nbEntries (this (snd r))) 1 0 GL.ALPHA
         GL.UNSIGNED_BYTE (cpuArray (this (snd r)))])).
Proof.
  intros Hc Hlt. destruct w as [b g out]. cbn [this] in *.
  assert (Hbuffer : forall n', nbEntries b <= n' ->
            bufferType b = glDynamicBufferType.Buffer ->
            uploads (new_calls (mkWorld b g out) (snd (Resize n' (mkWorld b g out)))) = []).
  { intros n' Hle Hb.
    destruct (allocatable (array_kind (elementType b)) (nbElements b * n')) eqn:Hal.
    - apply (Resize_grow_uploads b g out n' Hc Hle Hal). exact Hb.
    - destruct (Resize_unallocatable b g out n' (c_elementType _ Hc) Hal)
        as (message & ->).
      unfold new_calls. cbn [snd gl]. rewrite calls_since_same. reflexivity. }
  assert (Htexture : forall n', nbEntries b <= n' ->
            bufferType b = glDynamicBufferType.Texture ->
            fst (Resize n' (mkWorld b g out)) = Normal tt ->
            uploads (new_calls (mkWorld b g out) (snd (Resize n' (mkWorld b g out)))) =
            [texImage2D GL.TEXTURE_2D 0 GL.ALPHA n' 1 0 GL.ALPHA GL.UNSIGNED_BYTE
               (cpuArray (this (snd (Resize n' (mkWorld b g out)))))] /\
            exists a, cpuArray b = Some a /\
                      cpuArray (this (snd (Resize n' (mkWorld b g out)))) =
                        Some (grown a n')).
  { intros n' Hle Hb Hret.
    apply (Resize_grow_completes_iff b g out n' Hc Hle) in Hret.
    apply (Resize_grow_uploads b g out n' Hc Hle Hret). exact Hb. }
  split; [apply Resize_fields|].
  split; [apply Hbuffer; lia|].
  split; [apply Resize_grow_completes_iff; [assumption | lia]|].
  split; [apply Htexture; lia|].
  split.
  { intros Hthrow.
    destruct (Resize_grow_throws b g out n Hc) as (He & Hg & _ & Ha); [lia | exact Hthrow|].
    auto. }
  intros fuel target r Hr.
  apply ResizeToFitNextPow2_cases in Hr as [-> | (nb & Hnb & ->)].
  - split; [reflexivity|]. split.
    + intros _. unfold new_calls. cbn [snd]. rewrite calls_since_same. reflexivity.
    + cbn [snd this]. lia.
  - split; [apply Resize_fields|].
    cbn [this] in Hnb.
    split; [apply Hbuffer; lia|].
    intros Hb _ Hret. destruct (Resize_fields nb (mkWorld b g out)) as (-> & _).
    apply Htexture; [lia | exact Hb | exact Hret].
Qed.
(** ** Construction *)

(** C2, as the code has it: for valid arguments whose mirror the engine
    allocates, the constructor returns a buffer whose mirror is
    [nb_elements * nb_entries] zeros, with [dirty = false], and whose GPU
    resource has the byte size of the mirror.  With the Texture type the
    [texImage2D] call that defines the texture is given the zero-filled
    mirror: one upload.  With the Buffer type the constructor only calls
    [createBuffer], [bindBuffer] and [bufferData] with the byte size:
    nothing is uploaded.  For valid arguments whose mirror the engine does
    not allocate, the constructor throws the [RangeError] of the array
    constructor, having called nothing and logged nothing. *)
Theorem Construct_zero_mirror (t n c : Z) (m : option Z) (g : GLContext)
    (out : list LogLine) :
  valid_arguments t n c m ->
  (allocatable (array_kind t) (n * c) = true ->
   exists b g' out',
     Construct t n c m g out = (Normal b, g', out') /\
     mirror b = repeat 0 (Z.to_nat (n * c)) /\
     mirror_length b = n * c /\
     dirty b = false /\
     gpu_size_match (mkWorld b g' out') /\
     (bufferType b = glDynamicBufferType.Buffer ->
      calls_since g g' =
        [createBuffer (glNextName g);
         bindBuffer GL.ARRAY_BUFFER (Some (glNextName g));
         bufferData GL.ARRAY_BUFFER (element_bytes t * n * c) GL.DYNAMIC_DRAW] /\
      uploads (calls_since g g') = []) /\
     (bufferType b = glDynamicBufferType.Texture ->
      uploads (calls_since g g') =
        [texImage2D GL.TEXTURE_2D 0 GL.ALPHA c 1 0 GL.ALPHA GL.UNSIGNED_BYTE
           (Some (mkTypedArray Uint8Array (repeat 0 (Z.to_nat (n * c)))))])) /\
  (allocatable (array_kind t) (n * c) = false ->
   exists message, Construct t n c m g out = (Throw (RangeError message), g, out)).
Proof.
  intros Hv. split.
  - intros Hal.
    assert (Hlen : 0 <= n * c) by (destruct Hv as (_ & ? & ? & _); nia).
    destruct (Construct_valid_cases t n c m g out Hv Hal)
      as (b & g' & out' & HC & Hcon & Hgpu & Ht & Hn & Hc & Hd & Ha & Hcalls).
    exists b, g', out'. split; [exact HC|].
    assert (Hmirror : mirror b = repeat 0 (Z.to_nat (n * c)))
      by (unfold mirror; rewrite Ha; reflexivity).
    split; [exact Hmirror|].
    split; [unfold mirror_length; rewrite Hmirror, repeat_length; lia|].
    split; [exact Hd|]. split; [exact Hgpu|].
    destruct Hcalls as [(Hb & ->) | (Hb & ->)]; split; intros Hb';
      try (rewrite Hb in Hb'; discriminate).
    + split; reflexivity.
    + destruct (c_bufferType _ Hcon) as [Hb2 | (_ & Hty & _)];
        [rewrite Hb in Hb2; discriminate|].
      rewrite Ha, <- Ht, Hty. reflexivity.
  - intros Hal. destruct Hv as (Ht & _).
    apply Construct_unallocatable; assumption.
Qed.

(** ** The doubling law *)

(** C3, as the code has it.  When the target is at most the capacity [C],
    [ResizeToFitNextPow2] returns without changing anything.  Otherwise, for
    [C > 0] and the least [k] with [C * 2^k >= target], when [C * 2^k] is
    below 2^31 (the doubling is a 32-bit shift) the call is [Resize(C * 2^k)]:
    the capacity becomes [C * 2^k], and on a constructed buffer the resize
    returns when the engine allocates the new mirror, and only then.  The
    call returns once the loop bound exceeds [k]. *)
Theorem ResizeToFitNextPow2_doubling (w : World) (target : Z) :
  0 < nbEntries (this w) ->
  (target <= nbEntries (this w) ->
   forall fuel, ResizeToFitNextPow2 (S fuel) target w = Some (Normal tt, w)) /\
  (forall k : nat,
     nbEntries (this w) < target ->
     target <= nbEntries (this w) * 2 ^ Z.of_nat k ->
     (forall j : nat, (j < k)%nat -> nbEntries (this w) * 2 ^ Z.of_nat j < target) ->
     nbEntries (this w) * 2 ^ Z.of_nat k < 2 ^ 31 ->
     forall fuel, (k < fuel)%nat ->
       ResizeToFitNextPow2 fuel target w =
         Some (Resize (nbEntries (this w) * 2 ^ Z.of_nat k) w) /\
       nbEntries (this (snd (Resize (nbEntries (this w) * 2 ^ Z.of_nat k) w))) =
         nbEntries (this w) * 2 ^ Z.of_nat k /\
       (constructed (this w) ->
        (fst (Resize (nbEntries (this w) * 2 ^ Z.of_nat k) w) = Normal tt <->
         allocatable (array_kind (elementType (this w)))
           (nbElements (this w) * (nbEntries (this w) * 2 ^ Z.of_nat k)) = true))).
Proof.
  intros Hpos. split.
  - intros Hle fuel. apply ResizeToFitNextPow2_noop. exact Hle.
  - intros k Hlt Hreach Hbelow Hfit fuel Hfuel.
    split; [apply ResizeToFitNextPow2_grow; assumption|].
    split; [apply Resize_fields|].
    intros Hc. destruct w as [b g out]. cbn [this] in *.
    apply Resize_grow_completes_iff; [assumption | lia].
Qed.

(** ** Prefix preservation *)

(** C4.  After a growth resize of a constructed buffer the first
    [C1 * nbElements] elements of the mirror are the mirror before it,
    whether the resize returns (when the engine allocates the new mirror,
    which then has [nbElements * C2] elements) or throws.  The same holds of
    whatever [ResizeToFitNextPow2] does. *)
Theorem Resize_preserves_prefix (w : World) (n : Z) :
  constructed (this w) -> nbEntries (this w) < n ->
  nbEntries (this (snd (Resize n w))) = n /\
  firstn (Z.to_nat (nbEntries (this w) * nbElements (this w)))
    (mirror (this (snd (Resize n w)))) = mirror (this w) /\
  (allocatable (array_kind (elementType (this w))) (nbElements (this w) * n) = true ->
   fst (Resize n w) = Normal tt /\
   mirror_length (this (snd (Resize n w))) = nbElements (this w) * n) /\
  (forall fuel target r,
     ResizeToFitNextPow2 fuel target w = Some r ->
     firstn (Z.to_nat (nbEntries (this w) * nbElements (this w)))
       (mirror (this (snd r))) = mirror (this w)).
Proof.
  intros Hc Hlt. destruct w as [b g out]. cbn [this] in *.
  assert (Hlen : Z.to_nat (nbEntries b * nbElements b) = List.length (mirror b)).
  { destruct (c_cpuArray _ Hc) as (a & Ha & _ & Hl). unfold mirror. rewrite Ha. lia. }
  assert (Hprefix : forall n', nbEntries b <= n' ->
            firstn (Z.to_nat (nbEntries b * nbElements b))
              (mirror (this (snd (Resize n' (mkWorld b g out))))) = mirror b).
  { intros n' Hle. destruct (Resize_grow_mirror b g out n' Hc Hle) as (zeros & ->).
    rewrite Hlen, firstn_app, Nat.sub_diag, firstn_all, firstn_O. apply app_nil_r. }
  split; [apply Resize_fields|].
  split; [apply Hprefix; lia|].
  split.
  { intros Hal. split; [apply Resize_grow_completes; [assumption | lia | exact Hal]|].
    assert (Hc' : constructed (this (snd (Resize n (mkWorld b g out)))))
      by (apply Resize_grow_constructed; [assumption | lia | exact Hal]).
    destruct (coherent_mirror_length _ (constructed_coherent _ Hc')) as (_ & Hiff).
    rewrite (proj2 Hiff (c_allocated _ Hc')).
    destruct (Resize_fields n (mkWorld b g out)) as (-> & _ & _ & -> & _).
    reflexivity. }
  intros fuel target r Hr.
  apply ResizeToFitNextPow2_cases in Hr as [-> | (nb & Hnb & ->)].
  - cbn [snd this]. rewrite Hlen. apply firstn_all.
  - cbn [this] in Hnb. apply Hprefix. lia.
Qed.

(** ** Uploading when dirty *)

Lemma UploadData_uploads_mirror w :
  constructed (this w) ->
  exists c,
    uploads (calls_since (gl w) (gl (snd (UploadData w)))) = [c] /\
    uploaded_array c = cpuArray (this w).
Proof.
  intros Hc. destruct (c_cpuArray _ Hc) as (a & Ha & _).
  destruct (c_bufferType _ Hc) as [Hb | (Hb & _)];
    [rewrite UploadData_Buffer by assumption
    |rewrite UploadData_Texture by assumption];
    cbn [snd gl]; rewrite calls_since_app, Ha; eexists; split; reflexivity.
Qed.

(** C5.  On a constructed buffer with [dirty] set, [UploadDirtyData] makes
    the calls of [UploadData], one of them an upload, of the mirror, and
    clears [dirty]; a second call then changes nothing, so the two calls
    together upload once.  With [dirty] clear nothing is called and nothing
    changes. *)
Theorem UploadDirtyData_once (w : World) :
  constructed (this w) ->
  (dirty (this w) = true ->
   fst (UploadDirtyData w) = Normal tt /\
   this (snd (UploadDirtyData w)) = set_dirty false (this w) /\
   gl (snd (UploadDirtyData w)) = gl (snd (UploadData w)) /\
   map uploaded_array (uploads (new_calls w (snd (UploadDirtyData w)))) =
     [cpuArray (this w)] /\
   UploadDirtyData (snd (UploadDirtyData w)) = (Normal tt, snd (UploadDirtyData w)) /\
   List.length
     (uploads (new_calls w (snd (UploadDirtyData (snd (UploadDirtyData w)))))) = 1%nat) /\
  (dirty (this w) = false -> UploadDirtyData w = (Normal tt, w)).
Proof.
  intros Hc. split; [|apply UploadDirtyData_clean].
  intros Hd. rewrite (UploadDirtyData_dirty w Hd). cbn [fst snd this gl].
  rewrite UploadDirtyData_clean by reflexivity. cbn [snd].
  unfold new_calls. cbn [gl].
  destruct (UploadData_uploads_mirror w Hc) as (c & -> & Hc').
  cbn [map List.length]. rewrite Hc'. repeat split; reflexivity.
Qed.

(** ** The failures *)

Lemma Construct_Texture_throws t n c g out :
  t <> GL.BYTE \/ n <> 1 ->
  exists e,
    fst (fst (Construct t n c (Some glDynamicBufferType.Texture) g out)) = Throw e /\
    (allocatable (array_kind t) (n * c) = true ->
     e = Error "Assertion failed" \/
     e = Error "Unsupported dynamic buffer element type") /\
    (t = GL.FLOAT \/ t = GL.BYTE -> allocatable (array_kind t) (n * c) = false ->
     exists message, e = RangeError message).
Proof.
  intros Hbad.
  destruct (Z.eq_dec t GL.FLOAT) as [Hf | Hf];
    [|destruct (Z.eq_dec t GL.BYTE) as [Hb | Hb]].
  3: { exists (Error "Unsupported dynamic buffer element type").
       split; [|split; [auto | intros [? | ?]; contradiction]].
       unfold Construct, Resize. unfold_M. cbn -[TypedArray_new Z.mul].
       destruct (Z.eqb_spec t GL.FLOAT); [contradiction|].
       destruct (Z.eqb_spec t GL.BYTE); [contradiction|].
       reflexivity. }
  all: assert (Ht : t = GL.FLOAT \/ t = GL.BYTE) by auto;
    destruct (allocatable (array_kind t) (n * c)) eqn:Hal.
  all: try (destruct (Construct_unallocatable t n c (Some glDynamicBufferType.Texture)
                        g out Ht Hal) as (message & ->);
            exists (RangeError message); cbn [fst];
            split; [reflexivity | split; [discriminate | eauto]]).
  all: exists (Error "Assertion failed");
    (split; [|split; [auto | discriminate]]);
    unfold Construct, Resize; unfold_M; subst t;
    cbn -[TypedArray_new Z.mul]; rewrite TypedArray_new_ok by exact Hal;
    cbn -[Z.mul]; try reflexivity.
  destruct (Z.eqb_spec n 1) as [-> | Hn]; [destruct Hbad; contradiction|].
  reflexivity.
Qed.

(** C6, as the code has it.  With the Texture type and an element type
    other than [gl.BYTE] or more than one element per entry the constructor
    throws.  When the engine allocates the mirror, what it throws is the
    [Error] of a failed [assert], as in
    [new glDynamicBuffer(gl.BYTE, 2, 8, glDynamicBufferType.Texture)].  When
    it does not, the array constructor throws its [RangeError] first, before
    any [assert] is reached.  [BindAsInstanceAttribute] on a buffer of the
    Texture type throws the [Error] of its [assert], having called nothing
    and changed nothing. *)
Theorem Texture_restrictions_throw :
  (forall t n c g out,
     t <> GL.BYTE \/ n <> 1 ->
     exists e,
       fst (fst (Construct t n c (Some glDynamicBufferType.Texture) g out)) = Throw e /\
       (allocatable (array_kind t) (n * c) = true -> exists message, e = Error message) /\
       (t = GL.FLOAT \/ t = GL.BYTE -> allocatable (array_kind t) (n * c) = false ->
        exists message, e = RangeError message)) /\
  (forall g out,
     allocatable Uint8Array 16 = true ->
     fst (fst (Construct GL.BYTE 2 8 (Some glDynamicBufferType.Texture) g out)) =
       Throw (Error "Assertion failed")) /\
  (forall program attrib_name w,
     bufferType (this w) = glDynamicBufferType.Texture ->
     BindAsInstanceAttribute program attrib_name w =
       (Throw (Error "Can only call BindAsInstanceAttribute with Buffer types"), w)).
Proof.
  split; [|split].
  - intros t n c g out Hbad.
    destruct (Construct_Texture_throws t n c g out Hbad) as (e & H & He & Hr).
    exists e. split; [exact H|]. split; [|exact Hr].
    intros Hlen. destruct (He Hlen) as [-> | ->]; eauto.
  - intros g out Hal. unfold Construct, Resize. unfold_M.
    cbn -[TypedArray_new Z.mul]. rewrite TypedArray_new_ok by exact Hal. reflexivity.
  - intros program attrib_name w Hb.
    apply BindAsInstanceAttribute_not_Buffer. rewrite Hb. discriminate.
Qed.

(** ** The invariants *)

(** C7, as the code has it.  The buffer the constructor returns for valid
    arguments has a mirror of [nbElements * nbEntries] elements.  After any
    sequence of calls of its methods the mirror has at most that many
    elements, and it has exactly that many when the engine allocates an
    array of that length, and only then: a growth whose array the engine
    does not allocate leaves the new capacity in [nbEntries] and the old,
    shorter mirror. *)
Theorem mirror_length_invariant (t n c : Z) (m : option Z) (g : GLContext)
    (out : list LogLine) :
  valid_arguments t n c m -> allocatable (array_kind t) (n * c) = true ->
  exists b g' out',
    Construct t n c m g out = (Normal b, g', out') /\
    mirror_length b = nbElements b * nbEntries b /\
    (forall fuel cs w',
       calls fuel cs (mkWorld b g' out') = Some w' ->
       mirror_length (this w') <= nbElements (this w') * nbEntries (this w') /\
       (mirror_length (this w') = nbElements (this w') * nbEntries (this w') <->
        allocatable (array_kind (elementType (this w')))
          (nbElements (this w') * nbEntries (this w')) = true)).
Proof.
  intros Hv Hal.
  destruct (Construct_valid_cases t n c m g out Hv Hal)
    as (b & g' & out' & HC & Hcon & _).
  exists b, g', out'. split; [exact HC|].
  split.
  { destruct (coherent_mirror_length b (constructed_coherent b Hcon)) as (_ & Hiff).
    apply Hiff. exact (c_allocated _ Hcon). }
  intros fuel cs w' Hrun. apply coherent_mirror_length.
  apply (calls_coherent fuel cs (mkWorld b g' out') w');
    [apply constructed_coherent; exact Hcon | exact Hrun].
Qed.

(** C8.  No sequence of calls of the methods, from any state of the object,
    ends with fewer entries than it started with. *)
Theorem capacity_never_shrinks (fuel : nat) (cs : list Call) (w w' : World) :
  calls fuel cs w = Some w' -> nbEntries (this w) <= nbEntries (this w').
Proof.
  revert w. induction cs as [|c cs IH]; intros w; cbn [calls].
  - intros [= <-]. lia.
  - destruct (call fuel c w) as [[r w1]|] eqn:E; [|discriminate].
    intros H. apply IH in H. apply call_capacity in E. cbn [snd] in E. lia.
Qed.

(** ** A direct Resize to fewer entries *)


(** ** The omitted buffer type *)

(** C10.  Constructing without the buffer type is constructing with
    [glDynamicBufferType.Buffer]: the two do the same, and the buffer
    returned has that type. *)
Theorem Construct_default_bufferType (t n c : Z) (g : GLContext) (out : list LogLine) :
  Construct t n c None g out =
    Construct t n c (Some glDynamicBufferType.Buffer) g out /\
  (forall b g' out',
     Construct t n c None g out = (Normal b, g', out') ->
     bufferType b = glDynamicBufferType.Buffer).
Proof.
  split; [reflexivity|].
  intros b g' out'. unfold Construct.
  match goal with
  | |- context [Resize c ?w0] =>
      pose proof (Resize_fields c w0) as (_ & _ & _ & _ & Hb);
      destruct (Resize c w0) as [[u|e] w1]
  end; [|discriminate].
  intros [= <- _ _]. exact Hb.
Qed.

(** * Further properties of the class *)

(** ** What no call changes *)

(** The element type, the number of elements per entry and the buffer type
    are those the object started with after any sequence of calls, from any
    state of the object; and [dirty] is set afterwards only if it was set
    before: the methods clear it, none sets it. *)
Theorem calls_keep_configuration (fuel : nat) (cs : list Call) (w w' : World) :
  calls fuel cs w = Some w' ->
  elementType (this w') = elementType (this w) /\
  nbElements (this w') = nbElements (this w) /\
  bufferType (this w') = bufferType (this w) /\
  (dirty (this w') = true -> dirty (this w) = true).
Proof.
  revert w. induction cs as [|c cs IH]; intros w; cbn [calls].
  - intros [= <-]. repeat split; auto.
  - destruct (call fuel c w) as [[r w1]|] eqn:E; [|discriminate].
    intros H. apply IH in H as (Ht & Hn & Hb & Hd).
    apply call_keeps_configuration in E as (Ht1 & Hn1 & Hb1 & Hd1). cbn [snd] in *.
    rewrite Ht, Hn, Hb, Ht1, Hn1, Hb1. repeat split; auto.
Qed.

(** ** The size of the GPU resource, over the life of a buffer *)

(** After the constructor, and after any sequence of calls on the buffer it
    returned that ends with a capacity whose mirror the engine allocates,
    the GPU buffer or texture has the byte size of the mirror, which is the
    bytes of [nbElements * nbEntries] elements. *)
Theorem gpu_size_invariant (t n c : Z) (m : option Z) (g : GLContext)
    (out : list LogLine) :
  valid_arguments t n c m -> allocatable (array_kind t) (n * c) = true ->
  exists b g' out',
    Construct t n c m g out = (Normal b, g', out') /\
    forall fuel cs w',
      calls fuel cs (mkWorld b g' out') = Some w' ->
      fits (this w') ->
      gpu_size w' = Some (mirror_bytes (this w')) /\
      mirror_bytes (this w') =
        element_bytes (elementType (this w')) * nbElements (this w') * nbEntries (this w').
Proof.
  intros Hv Hal.
  destruct (Construct_valid_cases t n c m g out Hv Hal)
    as (b & g' & out' & HC & Hcon & Hgpu & _).
  exists b, g', out'. split; [exact HC|].
  intros fuel cs w' Hrun Hf. split.
  - apply (calls_gpu_size_match fuel cs (mkWorld b g' out') w' Hcon Hgpu Hrun Hf).
  - apply mirror_bytes_constructed.
    apply (calls_constructed fuel cs (mkWorld b g' out') w' Hcon Hrun Hf).
Qed.

(** ** Growth *)

(** A resize of a constructed buffer to at least its capacity, when the
    engine allocates the new mirror, appends zeros to the mirror: the old
    elements, then [nbElements] zeros for each added entry.  To the same
    capacity the mirror is unchanged. *)
Theorem Resize_appends_zeros (w : World) (n : Z) :
  constructed (this w) -> nbEntries (this w) <= n ->
  allocatable (array_kind (elementType (this w))) (nbElements (this w) * n) = true ->
  fst (Resize n w) = Normal tt /\
  mirror (this (snd (Resize n w))) =
  mirror (this w) ++
  repeat 0 (Z.to_nat (nbElements (this w) * (n - nbEntries (this w)))).
Proof.
  intros Hc Hle Hal. destruct w as [b g out]. cbn [this] in *.
  split; [apply Resize_grow_completes; assumption|].
  destruct (c_cpuArray _ Hc) as (a0 & Ha0 & _ & Hl).
  pose proof (c_nbElements _ Hc) as Hne.
  assert (Hz : (Z.to_nat (nbElements b * n) - List.length (elems a0))%nat =
               Z.to_nat (nbElements b * (n - nbEntries b))) by nia.
  unfold mirror at 2. rewrite Ha0.
  resize_grow Hc Hle Hal; rewrite Ha in Ha0; injection Ha0 as <-;
    unfold mirror; cbn [snd this cpuArray grown elems].
  - rewrite Hz. reflexivity.
  - destruct (c_bufferType _ Hc) as [Hb' | (_ & _ & H1)];
      [rewrite Hb in Hb'; discriminate|].
    rewrite H1 in Hz. rewrite !Z.mul_1_l in Hz. rewrite Hz, H1, Z.mul_1_l. reflexivity.
Qed.

(** ** More on ResizeToFitNextPow2 *)

Lemma doubling_loop_exit fuel :
  forall target nb r, doubling_loop fuel target nb = Some r -> target <= r.
Proof.
  induction fuel as [|fuel IH]; intros target nb r; cbn [doubling_loop]; [discriminate|].
  rewrite Z.gtb_ltb. destruct (Z.ltb_spec nb target).
  - apply IH.
  - intros [= <-]. assumption.
Qed.

(** For targets up to 2^30 the loop ends within 31 tests, at the first
    doubled value that reaches the target. *)
Lemma doubling_loop_total (f : nat) :
  forall target nb,
    0 < nb -> target <= 2 ^ 30 -> target <= nb * 2 ^ Z.of_nat f ->
    exists k : nat,
      doubling_loop (S f) target nb = Some (nb * 2 ^ Z.of_nat k) /\
      target <= nb * 2 ^ Z.of_nat k /\
      (target <= nb -> k = 0%nat) /\
      (nb < target -> nb * 2 ^ Z.of_nat k < 2 * target).
Proof.
  induction f as [|f IH]; intros target nb Hpos Ht Hreach.
  - exists 0%nat. cbn [Z.of_nat] in *. rewrite Z.pow_0_r, Z.mul_1_r in *.
    split; [apply doubling_loop_done; assumption|]. repeat split; auto; lia.
  - destruct (Z.le_gt_cases target nb) as [Hle | Hlt].
    + exists 0%nat. cbn [Z.of_nat]. rewrite Z.pow_0_r, Z.mul_1_r.
      split; [apply doubling_loop_done; assumption|]. repeat split; auto; lia.
    + rewrite Nat2Z.inj_succ, Z.pow_succ_r in Hreach by lia.
      destruct (IH target (2 * nb)) as (k & Hk & Hge & Hzero & Hbound); try lia.
      exists (S k). rewrite Nat2Z.inj_succ, Z.pow_succ_r by lia.
      replace (nb * (2 * 2 ^ Z.of_nat k)) with (2 * nb * 2 ^ Z.of_nat k) by ring.
      rewrite doubling_loop_step by assumption.
      rewrite shl_1_double by lia.
      split; [exact Hk|]. split; [exact Hge|]. split; [lia|].
      intros _. destruct (Z.le_gt_cases target (2 * nb)) as [H2 | H2].
      * rewrite (Hzero H2). cbn [Z.of_nat]. lia.
      * apply Hbound. exact H2.
Qed.

(** A target above the capacity [C > 0] and at most 2^30 is always fitted:
    with a loop bound above 30 the call is [Resize(C * 2^k)] for a capacity
    that reaches the target and is less than twice the target. *)
Theorem ResizeToFitNextPow2_fits (w : World) (target : Z) (fuel : nat) :
  0 < nbEntries (this w) -> nbEntries (this w) < target -> target <= 2 ^ 30 ->
  (30 < fuel)%nat ->
  exists k : nat,
    ResizeToFitNextPow2 fuel target w =
      Some (Resize (nbEntries (this w) * 2 ^ Z.of_nat k) w) /\
    target <= nbEntries (this w) * 2 ^ Z.of_nat k < 2 * target.
Proof.
  intros Hpos Hlt Ht Hfuel.
  destruct fuel as [|f]; [lia|].
  assert (Hreach : target <= nbEntries (this w) * 2 ^ Z.of_nat f).
  { assert (2 ^ 30 <= 2 ^ Z.of_nat f) by (apply Z.pow_le_mono_r; lia). nia. }
  destruct (doubling_loop_total f target (nbEntries (this w)) Hpos Ht Hreach)
    as (k & Hk & Hge & _ & Hbound).
  exists k. unfold ResizeToFitNextPow2. rewrite Hk, Z.gtb_ltb.
  destruct (Z.ltb_spec (nbEntries (this w)) (nbEntries (this w) * 2 ^ Z.of_nat k));
    [|lia].
  split; [reflexivity|]. split; [exact Hge | apply Hbound; exact Hlt].
Qed.

(** On a buffer of no entries the doubling stays at 0: for a positive
    target the call returns for no loop bound. *)
Theorem ResizeToFitNextPow2_from_zero (w : World) (target : Z) :
  nbEntries (this w) = 0 -> 0 < target ->
  forall fuel, ResizeToFitNextPow2 fuel target w = None.
Proof.
  intros H0 Ht fuel. unfold ResizeToFitNextPow2.
  rewrite H0, doubling_loop_zero by assumption. reflexivity.
Qed.

(** When [ResizeToFitNextPow2(target)] returns, also by a throw of its
    resize, the buffer has at least [target] entries, and a later call with
    the same or a smaller target returns without doing anything. *)
Theorem ResizeToFitNextPow2_absorbs (w : World) (target : Z) (fuel : nat)
    (r : Completion unit * World) :
  ResizeToFitNextPow2 fuel target w = Some r ->
  target <= nbEntries (this (snd r)) /\
  forall target' fuel',
    target' <= target ->
    ResizeToFitNextPow2 (S fuel') target' (snd r) = Some (Normal tt, snd r).
Proof.
  intros H.
  assert (Hge : target <= nbEntries (this (snd r))).
  { unfold ResizeToFitNextPow2 in H.
    destruct (doubling_loop fuel target (nbEntries (this w))) as [nb|] eqn:E;
      [|discriminate].
    apply doubling_loop_exit in E. rewrite Z.gtb_ltb in H. injection H as <-.
    destruct (Z.ltb_spec (nbEntries (this w)) nb).
    - destruct (Resize_fields nb w) as (-> & _). exact E.
    - cbn [snd]. lia. }
  split; [exact Hge|].
  intros target' fuel' Hle. apply ResizeToFitNextPow2_noop. lia.
Qed.

(** ** Targets that cannot be fitted *)

Lemma shl_below_2_31 x k : JS.shl x k < 2 ^ 31.
Proof.
  unfold JS.shl. unfold JS.ToInt32 at 1.
  match goal with
  | |- ?a mod ?m - _ < _ => pose proof (Z.mod_pos_bound a m)
  end.
  lia.
Qed.

(** A target of 2^31 or more, above the capacity, is never reached by the
    32-bit doubling: the call returns for no loop bound. *)
Theorem ResizeToFitNextPow2_beyond_int32 (w : World) (target : Z) :
  nbEntries (this w) < target -> 2 ^ 31 <= target ->
  forall fuel, ResizeToFitNextPow2 fuel target w = None.
Proof.
  intros Hlt Hbig fuel. unfold ResizeToFitNextPow2.
  assert (Hloop : forall f nb, nb < target -> doubling_loop f target nb = None).
  { induction f as [|f IH]; intros nb Hnb; [reflexivity|].
    rewrite doubling_loop_step by assumption. apply IH.
    pose proof (shl_below_2_31 nb 1). lia. }
  rewrite Hloop by assumption. reflexivity.
Qed.

(** ** The texture and the mirror *)

Lemma texture_image_from_app l1 l2 h :
  forall bound image, exists bound',
    texture_image_from (l1 ++ l2) bound h image =
    texture_image_from l2 bound' h (texture_image_from l1 bound h image).
Proof.
  induction l1 as [|c l1 IH]; intros bound image.
  - exists bound. reflexivity.
  - destruct c; cbn [app texture_image_from]; try apply IH.
    destruct bound as [b|]; [destruct (Nat.eqb b h)|]; apply IH.
Qed.

Lemma UploadData_texture_in_sync w :
  bufferType (this w) = glDynamicBufferType.Texture ->
  texture_in_sync w -> texture_in_sync (snd (UploadData w)).
Proof.
  intros Hb (h & Hh & _). rewrite UploadData_Texture by assumption.
  exists h. cbn [snd this gl]. split; [exact Hh|].
  unfold texture_image. cbn [glCalls]. rewrite Hh.
  match goal with
  | |- texture_image_from (?l1 ++ ?l2) _ _ _ = _ =>
      destruct (texture_image_from_app l1 l2 h None None) as (bound' & ->)
  end.
  cbn [texture_image_from]. rewrite Nat.eqb_refl. reflexivity.
Qed.

Lemma call_texture_in_sync fuel c w r :
  coherent (this w) ->
  bufferType (this w) = glDynamicBufferType.Texture ->
  texture_in_sync w -> call fuel c w = Some r -> texture_in_sync (snd r).
Proof.
  intros Hk Hb Hs. destruct c as [target| | |program attrib_name]; cbn [call].
  - intros H. apply ResizeToFitNextPow2_cases in H as [-> | (nb & Hlt & ->)].
    + exact Hs.
    + destruct w as [b g out]. cbn [this] in *.
      pose proof (k_nbElements _ Hk). pose proof (k_nbEntries _ Hk).
      destruct (allocatable (array_kind (elementType b)) (nbElements b * nb)) eqn:Hal.
      * assert (Hc : constructed b).
        { apply coherent_fits_constructed; [exact Hk|]. unfold fits.
          apply (allocatable_le _ (nbElements b * nb)); [nia | exact Hal]. }
        destruct (c_cpuArray _ Hc) as (a & Ha & _).
        rewrite (Resize_Texture_grow b g out nb a Hc Ha Hb) by (lia || exact Hal).
        exists (glNextName g). cbn [snd this gl texture cpuArray]. split; [reflexivity|].
        unfold texture_image. cbn [glCalls].
        match goal with
        | |- texture_image_from (?l1 ++ ?l2) _ ?h _ = _ =>
            destruct (texture_image_from_app l1 l2 h None None) as (bound' & ->)
        end.
        cbn [texture_image_from]. rewrite Nat.eqb_refl. reflexivity.
      * destruct (Resize_unallocatable b g out nb (k_elementType _ Hk) Hal)
          as (message & ->).
        exact Hs.
  - intros [= <-]. apply UploadData_texture_in_sync; assumption.
  - intros [= <-]. destruct (dirty (this w)) eqn:Hd.
    + rewrite UploadDirtyData_dirty by assumption.
      destruct (UploadData_texture_in_sync w Hb Hs) as (h & Hh & Hi).
      rewrite UploadData_this in Hh, Hi.
      exists h. cbn [snd this gl]. split; [exact Hh | exact Hi].
    + rewrite UploadDirtyData_clean by assumption. exact Hs.
  - intros [= <-]. rewrite BindAsInstanceAttribute_not_Buffer; [exact Hs|].
    rewrite Hb. discriminate.
Qed.

(** With the Texture type the texture always holds the mirror: after the
    constructor, when the engine allocates the mirror, and after any
    sequence of calls, the pixels last given to the object's texture are the
    mirror as it is; also after a growth that threw for want of the new
    array, which leaves both as they were.  (With the Buffer type a growth
    leaves the new buffer without the mirror.) *)
Theorem Texture_holds_mirror (c : Z) (g : GLContext) (out : list LogLine) :
  0 < c -> allocatable Uint8Array c = true ->
  exists b g' out',
    Construct GL.BYTE 1 c (Some glDynamicBufferType.Texture) g out =
      (Normal b, g', out') /\
    forall fuel cs w',
      calls fuel cs (mkWorld b g' out') = Some w' ->
      exists h, texture (this w') = Some h /\
                texture_image (gl w') h = Some (cpuArray (this w')).
Proof.
  intros Hc Hal.
  assert (Hv : valid_arguments GL.BYTE 1 c (Some glDynamicBufferType.Texture)).
  { split; [right; reflexivity|]. split; [lia|]. split; [exact Hc|].
    right; right. repeat split; reflexivity. }
  assert (Hal' : allocatable (array_kind GL.BYTE) (1 * c) = true)
    by (rewrite Z.mul_1_l; exact Hal).
  destruct (Construct_valid_cases GL.BYTE 1 c (Some glDynamicBufferType.Texture) g out
              Hv Hal')
    as (b & g' & out' & HC & Hcon & _).
  exists b, g', out'. split; [exact HC|].
  assert (H0 : bufferType b = glDynamicBufferType.Texture /\
               texture_in_sync (mkWorld b g' out')).
  { rewrite (Construct_Texture c g out) in HC by exact Hal.
    injection HC as <- <- _. split; [reflexivity|].
    exists (glNextName g). cbn [this gl texture cpuArray]. split; [reflexivity|].
    unfold texture_image. cbn [glCalls].
    match goal with
    | |- texture_image_from (?l1 ++ ?l2) _ ?h _ = _ =>
        destruct (texture_image_from_app l1 l2 h None None) as (bound' & ->)
    end.
    cbn [texture_image_from]. rewrite Nat.eqb_refl. reflexivity. }
  destruct H0 as (Hb & Hs).
  assert (Hgen : forall fuel cs w w',
            coherent (this w) ->
            bufferType (this w) = glDynamicBufferType.Texture ->
            texture_in_sync w -> calls fuel cs w = Some w' -> texture_in_sync w').
  { intros fuel cs. induction cs as [|c0 cs IH]; intros w w' Hcw Hbw Hsw; cbn [calls].
    - intros [= <-]. exact Hsw.
    - destruct (call fuel c0 w) as [[r w1]|] eqn:E; [|discriminate].
      intros H.
      pose proof (call_coherent fuel c0 w (r, w1) Hcw E) as Hc1.
      destruct (call_keeps_configuration fuel c0 w (r, w1) E) as (_ & _ & Hb1 & _).
      pose proof (call_texture_in_sync fuel c0 w (r, w1) Hcw Hbw Hsw E) as Hs1.
      cbn [snd] in *. rewrite Hbw in Hb1.
      apply (IH w1 w' Hc1 Hb1 Hs1 H). }
  intros fuel cs w' Hrun.
  apply (Hgen fuel cs (mkWorld b g' out') w' (constructed_coherent _ Hcon) Hb Hs Hrun).
Qed.

(** ** When the constructor throws *)

Lemma Construct_unsupported_elementType t n c m g out :
  t <> GL.FLOAT -> t <> GL.BYTE ->
  Construct t n c m g out =
  (Throw (Error "Unsupported dynamic buffer element type"), g, out).
Proof.
  intros Hf Hb. unfold Construct, Resize. unfold_M. cbn -[TypedArray_new Z.mul].
  destruct (Z.eqb_spec t GL.FLOAT); [contradiction|].
  destruct (Z.eqb_spec t GL.BYTE); [contradiction|].
  reflexivity.
Qed.

Lemma Construct_negative_length t n c m g out :
  t = GL.FLOAT \/ t = GL.BYTE -> n * c < 0 ->
  Construct t n c m g out =
  (Throw (RangeError "Invalid typed array length"), g, out).
Proof.
  intros Ht Hlen. unfold Construct, Resize. unfold_M.
  destruct Ht as [-> | ->]; cbn -[TypedArray_new Z.mul];
    rewrite TypedArray_new_negative by exact Hlen; reflexivity.
Qed.

Lemma Construct_Texture_rejected t n c g out :
  t = GL.FLOAT \/ t = GL.BYTE -> allocatable (array_kind t) (n * c) = true ->
  t <> GL.BYTE \/ n <> 1 ->
  Construct t n c (Some glDynamicBufferType.Texture) g out =
  (Throw (Error "Assertion failed"),
   mkGL (glCalls g ++
         [createTexture (glNextName g);
          bindTexture GL.TEXTURE_2D (Some (glNextName g));
          texParameteri GL.TEXTURE_2D GL.TEXTURE_MIN_FILTER GL.NEAREST;
          texParameteri GL.TEXTURE_2D GL.TEXTURE_MAG_FILTER GL.NEAREST;
          texParameteri GL.TEXTURE_2D GL.TEXTURE_WRAP_S GL.CLAMP_TO_EDGE;
          texParameteri GL.TEXTURE_2D GL.TEXTURE_WRAP_T GL.CLAMP_TO_EDGE])
     (S (glNextName g)) (glAttribLocations g),
   out ++ [LogCreating c n (element_bytes t) (element_bytes t * n * c)]).
Proof.
  intros Ht Hlen Hbad. unfold Construct, Resize. unfold_M.
  destruct Ht as [-> | ->]; cbn -[TypedArray_new Z.mul];
    rewrite TypedArray_new_ok by exact Hlen; cbn -[Z.mul].
  - rewrite <- !app_assoc. reflexivity.
  - destruct (Z.eqb_spec n 1) as [-> | Hn]; [destruct Hbad; contradiction|].
    cbn -[Z.mul]. rewrite <- !app_assoc. reflexivity.
Qed.

Lemma Construct_unsupported_bufferType t n c x g out :
  t = GL.FLOAT \/ t = GL.BYTE -> allocatable (array_kind t) (n * c) = true ->
  x <> glDynamicBufferType.Buffer -> x <> glDynamicBufferType.Texture ->
  Construct t n c (Some x) g out =
  (Throw (Error "Unsupported dynamic buffer type"), g,
   out ++ [LogCreating c n (element_bytes t) (element_bytes t * n * c)]).
Proof.
  intros Ht Hlen Hb Hx. unfold Construct, Resize. unfold_M.
  destruct Ht as [-> | ->]; cbn -[TypedArray_new Z.mul];
    rewrite TypedArray_new_ok by exact Hlen; cbn -[Z.mul];
    destruct (Z.eqb_spec x glDynamicBufferType.Buffer); try contradiction;
    destruct (Z.eqb_spec x glDynamicBufferType.Texture); try contradiction;
    reflexivity.
Qed.

Lemma Construct_cases t n c m g out :
  (accepted_arguments t n c m /\
   exists b g' out', Construct t n c m g out = (Normal b, g', out')) \/
  (~ accepted_arguments t n c m /\
   exists e,
     (Construct t n c m g out = (Throw e, g, out) \/
      Construct t n c m g out =
        (Throw e, g, out ++ [LogCreating c n (element_bytes t) (element_bytes t * n * c)]) \/
      (m = Some glDynamicBufferType.Texture /\
       Construct t n c m g out =
       (Throw e,
        mkGL (glCalls g ++
              [createTexture (glNextName g);
               bindTexture GL.TEXTURE_2D (Some (glNextName g));
               texParameteri GL.TEXTURE_2D GL.TEXTURE_MIN_FILTER GL.NEAREST;
               texParameteri GL.TEXTURE_2D GL.TEXTURE_MAG_FILTER GL.NEAREST;
               texParameteri GL.TEXTURE_2D GL.TEXTURE_WRAP_S GL.CLAMP_TO_EDGE;
               texParameteri GL.TEXTURE_2D GL.TEXTURE_WRAP_T GL.CLAMP_TO_EDGE])
          (S (glNextName g)) (glAttribLocations g),
        out ++ [LogCreating c n (element_bytes t) (element_bytes t * n * c)])))).
Proof.
  unfold accepted_arguments.
  destruct (Z.eq_dec t GL.FLOAT) as [Hf | Hf];
    [|destruct (Z.eq_dec t GL.BYTE) as [Hb | Hb]].
  3: { right. split; [intros ([? | ?] & _); contradiction|].
       eexists. left. apply Construct_unsupported_elementType; assumption. }
  all: assert (Ht : t = GL.FLOAT \/ t = GL.BYTE) by auto;
    (destruct (allocatable (array_kind t) (n * c)) eqn:Hlen;
     [|right; split; [intros (_ & ? & _); discriminate|];
       destruct (Construct_unallocatable t n c m g out Ht Hlen) as (message & E);
       eexists; left; exact E]).
  all: destruct m as [x|];
    [destruct (Z.eq_dec x glDynamicBufferType.Buffer) as [-> | Hx1];
     [|destruct (Z.eq_dec x glDynamicBufferType.Texture) as [-> | Hx2]]|].
  all: try (left; split; [auto|];
            rewrite (Construct_Buffer t n c _ g out Ht Hlen) by auto;
            do 3 eexists; reflexivity).
  all: try (right; split;
            [intros (_ & _ & [? | [[= ?] | ([= ?] & _)]]); congruence|];
            eexists; right; left;
            apply Construct_unsupported_bufferType; assumption).
  - right. split.
    + intros (_ & _ & [? | [? | (_ & ? & _)]]); try discriminate.
      subst t. discriminate.
    + eexists. right; right. split; [reflexivity|].
      apply Construct_Texture_rejected; auto. left. subst t. discriminate.
  - destruct (Z.eq_dec n 1) as [-> | Hn].
    + left. subst t.
      split; [split; [exact Ht|split; [reflexivity|right; right; repeat split; reflexivity]]|].
      rewrite Construct_Texture by (rewrite Z.mul_1_l in Hlen; exact Hlen).
      do 3 eexists; reflexivity.
    + right. split.
      * intros (_ & _ & [? | [? | (_ & _ & ?)]]); try discriminate. contradiction.
      * eexists. right; right. split; [reflexivity|].
        apply Construct_Texture_rejected; auto.
Qed.

(** The constructor returns a buffer exactly for a supported element type, a
    number of elements for which the engine allocates the array, and a
    buffer type that is omitted, Buffer, or Texture with single bytes. *)
Theorem Construct_completes_iff (t n c : Z) (m : option Z) (g : GLContext)
    (out : list LogLine) :
  (exists b g' out', Construct t n c m g out = (Normal b, g', out')) <->
  accepted_arguments t n c m.
Proof.
  destruct (Construct_cases t n c m g out)
    as [(Ha & Hok) | (Hna & e & [H | [H | (_ & H)]])]; split; intros H';
    try assumption; try contradiction;
    destruct H' as (b & g' & out' & H'); rewrite H in H'; discriminate H'.
Qed.

(** A constructor that throws was given arguments it does not accept (an
    array the engine does not allocate among them); it has uploaded nothing
    and created no buffer.  Either it has called nothing on [gl], or it
    failed the assertions of the Texture type: then it has created a texture
    and set its four parameters, without defining its image, and the
    texture's name is lost with the object. *)
Theorem Construct_throws_calls (t n c : Z) (m : option Z) (g g' : GLContext)
    (out out' : list LogLine) (e : Exception) :
  Construct t n c m g out = (Throw e, g', out') ->
  ~ accepted_arguments t n c m /\
  (g' = g \/
   (m = Some glDynamicBufferType.Texture /\
    glNextName g' = S (glNextName g) /\
    calls_since g g' =
      [createTexture (glNextName g);
       bindTexture GL.TEXTURE_2D (Some (glNextName g));
       texParameteri GL.TEXTURE_2D GL.TEXTURE_MIN_FILTER GL.NEAREST;
       texParameteri GL.TEXTURE_2D GL.TEXTURE_MAG_FILTER GL.NEAREST;
       texParameteri GL.TEXTURE_2D GL.TEXTURE_WRAP_S GL.CLAMP_TO_EDGE;
       texParameteri GL.TEXTURE_2D GL.TEXTURE_WRAP_T GL.CLAMP_TO_EDGE])) /\
  uploads (calls_since g g') = [].
Proof.
  intros H.
  destruct (Construct_cases t n c m g out)
    as [(_ & b & g1 & out1 & Hok) | (Hna & e1 & [H1 | [H1 | (Hm & H1)]])];
    rewrite H in *; try discriminate.
  - injection H1 as _ -> _. split; [exact Hna|].
    rewrite calls_since_same. split; [left|]; reflexivity.
  - injection H1 as _ -> _. split; [exact Hna|].
    rewrite calls_since_same. split; [left|]; reflexivity.
  - injection H1 as _ -> _. split; [exact Hna|].
    rewrite calls_since_app. split; [right|]; repeat split; auto.
Qed.

(** ** UploadData *)

(** [UploadData] never throws and leaves the object and the console as they
    are.  On a constructed buffer it makes one upload, of the whole mirror:
    all [nbElements * nbEntries] elements.  With a buffer type that is
    neither Buffer nor Texture it does nothing. *)
Theorem UploadData_whole_mirror (w : World) :
  fst (UploadData w) = Normal tt /\
  this (snd (UploadData w)) = this w /\
  console (snd (UploadData w)) = console w /\
  (bufferType (this w) <> glDynamicBufferType.Buffer ->
   bufferType (this w) <> glDynamicBufferType.Texture ->
   UploadData w = (Normal tt, w)) /\
  (constructed (this w) ->
   exists a,
     map uploaded_array (uploads (new_calls w (snd (UploadData w)))) = [Some a] /\
     elems a = mirror (this w) /\
     Z.of_nat (List.length (elems a)) = nbElements (this w) * nbEntries (this w)).
Proof.
  split; [apply UploadData_completes|]. split; [apply UploadData_this|].
  split; [unfold UploadData; unfold_M; cbn; split_branches; reflexivity|].
  split.
  - intros Hb Ht. unfold UploadData. unfold_M. cbn.
    destruct (Z.eqb_spec (bufferType (this w)) glDynamicBufferType.Buffer);
      [contradiction|].
    destruct (Z.eqb_spec (bufferType (this w)) glDynamicBufferType.Texture);
      [contradiction|].
    destruct w; reflexivity.
  - intros Hc. destruct (c_cpuArray _ Hc) as (a & Ha & _ & Hl).
    destruct (UploadData_uploads_mirror w Hc) as (c & Hc1 & Hc2).
    exists a. unfold new_calls. rewrite Hc1. cbn [map]. rewrite Hc2, Ha.
    split; [reflexivity|]. split; [|exact Hl].
    unfold mirror. rewrite Ha. reflexivity.
Qed.

(** ** A direct Resize to no or negatively many entries *)

Lemma Resize_negative b g out n a :
  constructed b -> cpuArray b = Some a -> n < 0 ->
  Resize n (mkWorld b g out) =
  (Throw (RangeError "Invalid typed array length"),
   mkWorld
     (mkBuffer (elementType b) (nbElements b) (bufferType b) (dirty b) n
        (element_bytes (elementType b)) (Some a) (nbBytes b) (buffer b) (texture b))
     g out).
Proof.
  intros [Ht Hn Hc Hm (a' & Ha' & Hk & Hlen) _] Ha Hneg.
  rewrite Ha in Ha'. injection Ha' as <-.
  destruct b as [t ne bt d c eb arr nb bh th];
    cbn [elementType nbElements bufferType nbEntries cpuArray dirty buffer texture
         nbBytes] in *.
  subst arr.
  assert (Hlt : ne * n < 0) by nia.
  unfold Resize. unfold_M. cbn -[TypedArray_new TypedArray_set Z.mul].
  destruct (kind_of_elementType_cases _ _ Hk) as [[-> Hka] | [-> Hka]];
    cbn -[TypedArray_new TypedArray_set Z.mul];
    rewrite TypedArray_new_negative by exact Hlt; reflexivity.
Qed.

(** On a constructed buffer [Resize(n)] with [n <= 0] throws a [RangeError]
    without calling [gl]: for [n = 0] from [set], leaving an empty mirror;
    for [n < 0] from the array constructor, leaving the old mirror with a
    negative [nbEntries]. *)
Theorem Resize_nonpositive (w : World) (n : Z) :
  constructed (this w) -> n <= 0 ->
  nbEntries (this (snd (Resize n w))) = n /\
  gl (snd (Resize n w)) = gl w /\
  console (snd (Resize n w)) = console w /\
  (n = 0 ->
   fst (Resize n w) = Throw (RangeError "offset is out of bounds") /\
   mirror (this (snd (Resize n w))) = []) /\
  (n < 0 ->
   fst (Resize n w) = Throw (RangeError "Invalid typed array length") /\
   mirror (this (snd (Resize n w))) = mirror (this w)).
Proof.
  intros Hc Hn. destruct w as [b g out]. cbn [this] in *.
  destruct (c_cpuArray _ Hc) as (a & Ha & _).
  pose proof (c_nbEntries _ Hc) as Hpos.
  destruct (Z.eq_dec n 0) as [-> | Hn0].
  - rewrite (Resize_shrink b g out 0 a Hc Ha) by lia. cbn [fst snd this gl console nbEntries].
    repeat split; try reflexivity; try lia.
    unfold mirror. cbn [cpuArray elems]. rewrite Z.mul_0_r. reflexivity.
  - rewrite (Resize_negative b g out n a Hc Ha) by lia.
    cbn [fst snd this gl console nbEntries].
    repeat split; try reflexivity; try lia.
    unfold mirror. cbn [cpuArray]. rewrite Ha. reflexivity.
Qed.

(** ** The calls a buffer makes *)

Lemma calls_since_ext g g' l :
  glCalls g' = glCalls g ++ l -> calls_since g g' = l.
Proof.
  intros H. unfold calls_since. rewrite H.
  rewrite skipn_app, skipn_all, Nat.sub_diag. reflexivity.
Qed.

Lemma UploadData_log w :
  coherent (this w) ->
  exists l,
    glCalls (gl (snd (UploadData w))) = glCalls (gl w) ++ l /\
    (bufferType (this w) = glDynamicBufferType.Buffer -> forallb buffer_call l = true) /\
    (bufferType (this w) = glDynamicBufferType.Texture -> forallb texture_call l = true).
Proof.
  intros Hc. destruct (k_bufferType _ Hc) as [Hb | (Hb & _)].
  - rewrite UploadData_Buffer by assumption. eexists. split; [reflexivity|].
    split; intros Hb'; [reflexivity | rewrite Hb in Hb'; discriminate].
  - rewrite UploadData_Texture by assumption. eexists. split; [reflexivity|].
    split; intros Hb'; [rewrite Hb in Hb'; discriminate | reflexivity].
Qed.

(** The calls a resize to more entries adds: those of the buffer's kind
    when it returns, none when it throws for want of the new array. *)
Lemma Resize_grow_log b g out n :
  coherent b -> nbEntries b < n ->
  exists l,
    glCalls (gl (snd (Resize n (mkWorld b g out)))) = glCalls g ++ l /\
    (bufferType b = glDynamicBufferType.Buffer ->
     forallb buffer_call l = true /\ uploads l = []) /\
    (bufferType b = glDynamicBufferType.Texture -> forallb texture_call l = true).
Proof.
  intros Hk Hlt.
  pose proof (k_nbElements _ Hk). pose proof (k_nbEntries _ Hk).
  destruct (allocatable (array_kind (elementType b)) (nbElements b * n)) eqn:Hal.
  - assert (Hc : constructed b).
    { apply coherent_fits_constructed; [exact Hk|]. unfold fits.
      apply (allocatable_le _ (nbElements b * n)); [nia | exact Hal]. }
    assert (Hle : nbEntries b <= n) by lia.
    resize_grow Hc Hle Hal; cbn [snd gl glCalls]; eexists; (split; [reflexivity|]);
      split; intros Hb'; try (rewrite Hb in Hb'; discriminate Hb');
      repeat split; reflexivity.
  - destruct (Resize_unallocatable b g out n (k_elementType _ Hk) Hal) as (message & ->).
    exists []. cbn [snd gl]. rewrite app_nil_r. repeat split; reflexivity.
Qed.

Lemma call_log fuel c w r :
  coherent (this w) -> call fuel c w = Some r ->
  exists l,
    glCalls (gl (snd r)) = glCalls (gl w) ++ l /\
    (bufferType (this w) = glDynamicBufferType.Buffer -> forallb buffer_call l = true) /\
    (bufferType (this w) = glDynamicBufferType.Texture -> forallb texture_call l = true) /\
    (bufferType (this w) = glDynamicBufferType.Buffer ->
     is_CallUploadData c = false -> dirty (this w) = false -> uploads l = []).
Proof.
  intros Hc. destruct c as [target| | |program attrib_name]; cbn [call].
  - intros H. apply ResizeToFitNextPow2_cases in H as [-> | (nb & Hlt & ->)].
    + exists []. cbn [snd]. rewrite app_nil_r. repeat split; reflexivity.
    + destruct w as [b g out]. cbn [this gl] in *.
      destruct (Resize_grow_log b g out nb Hc Hlt) as (l & Hl & HB & HT).
      exists l. split; [exact Hl|]. split; [intros Hb; apply HB; exact Hb|].
      split; [exact HT|]. intros Hb _ _. apply HB; exact Hb.
  - intros [= <-]. destruct (UploadData_log w Hc) as (l & Hl & HB & HT).
    exists l. repeat split; try assumption. discriminate.
  - intros [= <-]. destruct (dirty (this w)) eqn:Hd.
    + rewrite UploadDirtyData_dirty by assumption. cbn [snd gl].
      destruct (UploadData_log w Hc) as (l & Hl & HB & HT).
      exists l. repeat split; try assumption. discriminate.
    + rewrite UploadDirtyData_clean by assumption.
      exists []. cbn [snd]. rewrite app_nil_r. repeat split; reflexivity.
  - intros [= <-].
    destruct (Z.eq_dec (bufferType (this w)) glDynamicBufferType.Buffer) as [Hb | Hb].
    + rewrite BindAsInstanceAttribute_Buffer by assumption. cbn [snd gl glCalls].
      eexists. split; [reflexivity|]. repeat split; intros; try reflexivity.
      match goal with
      | H2 : bufferType (this w) = glDynamicBufferType.Texture |- _ =>
          rewrite Hb in H2; discriminate H2
      end.
    + rewrite BindAsInstanceAttribute_not_Buffer by assumption.
      exists []. cbn [snd]. rewrite app_nil_r. repeat split; reflexivity.
Qed.

Lemma calls_log (fuel : nat) (cs : list Call) (w w' : World) :
  coherent (this w) -> calls fuel cs w = Some w' ->
  exists l,
    glCalls (gl w') = glCalls (gl w) ++ l /\
    (bufferType (this w) = glDynamicBufferType.Buffer -> forallb buffer_call l = true) /\
    (bufferType (this w) = glDynamicBufferType.Texture -> forallb texture_call l = true).
Proof.
  revert w. induction cs as [|c cs IH]; intros w Hc; cbn [calls].
  - intros [= <-]. exists []. rewrite app_nil_r. repeat split; reflexivity.
  - destruct (call fuel c w) as [[r w1]|] eqn:E; [|discriminate].
    intros H.
    pose proof (call_coherent fuel c w (r, w1) Hc E) as Hc1.
    destruct (call_keeps_configuration fuel c w (r, w1) E) as (_ & _ & Hb1 & _).
    destruct (call_log fuel c w (r, w1) Hc E) as (l1 & Hl1 & HB1 & HT1 & _).
    cbn [snd] in *.
    destruct (IH w1 Hc1 H) as (l2 & Hl2 & HB2 & HT2).
    exists (l1 ++ l2). rewrite Hl2, Hl1, app_assoc. split; [reflexivity|].
    rewrite Hb1 in HB2, HT2.
    split; intros Hb; rewrite forallb_app; [rewrite HB1, HB2 | rewrite HT1, HT2];
      auto.
Qed.

Lemma calls_clean_Buffer (fuel : nat) (cs : list Call) :
  forall w w',
    coherent (this w) ->
    bufferType (this w) = glDynamicBufferType.Buffer ->
    dirty (this w) = false ->
    forallb (fun c => negb (is_CallUploadData c)) cs = true ->
    calls fuel cs w = Some w' ->
    uploads (new_calls w w') = [] /\ dirty (this w') = false.
Proof.
  induction cs as [|c cs IH]; intros w w' Hc Hb Hd Hcs; cbn [calls].
  - intros [= <-]. unfold new_calls. rewrite calls_since_same. auto.
  - destruct (call fuel c w) as [[r w1]|] eqn:E; [|discriminate].
    intros H. cbn [forallb] in Hcs. apply andb_prop in Hcs as (Hnot & Hcs).
    apply negb_true_iff in Hnot.
    pose proof (call_coherent fuel c w (r, w1) Hc E) as Hc1.
    destruct (call_keeps_configuration fuel c w (r, w1) E) as (_ & _ & Hb1 & Hd1).
    destruct (call_log fuel c w (r, w1) Hc E) as (l1 & Hl1 & _ & _ & Hup).
    cbn [snd] in *.
    assert (Hd1' : dirty (this w1) = false).
    { destruct (dirty (this w1)); [|reflexivity]. rewrite Hd1 in Hd by reflexivity.
      discriminate Hd. }
    rewrite <- Hb1 in Hb.
    destruct (IH w1 w' Hc1 Hb Hd1' Hcs H) as (Hup2 & Hd2).
    split; [|exact Hd2].
    destruct (calls_log fuel cs w1 w' Hc1 H) as (l2 & Hl2 & _).
    unfold new_calls in *.
    rewrite (calls_since_ext (gl w1) (gl w') l2 Hl2) in Hup2.
    rewrite (calls_since_ext (gl w) (gl w') (l1 ++ l2))
      by (rewrite Hl2, Hl1, app_assoc; reflexivity).
    unfold uploads in *. rewrite filter_app, Hup2, app_nil_r.
    apply Hup; [rewrite <- Hb1; exact Hb | exact Hnot | exact Hd].
Qed.

(** The calls of a constructed buffer only add to the calls made on [gl],
    and what they add is of the buffer's kind: a buffer of the Buffer type
    makes no texture call, one of the Texture type no buffer or attribute
    call. *)
Theorem calls_of_one_kind (fuel : nat) (cs : list Call) (w w' : World) :
  constructed (this w) -> calls fuel cs w = Some w' ->
  exists l,
    glCalls (gl w') = glCalls (gl w) ++ l /\
    (bufferType (this w) = glDynamicBufferType.Buffer -> forallb buffer_call l = true) /\
    (bufferType (this w) = glDynamicBufferType.Texture -> forallb texture_call l = true).
Proof.
  intros Hc Hrun.
  destruct (calls_log fuel cs w w' (constructed_coherent _ Hc) Hrun) as (l & Hl & HB & HT).
  exists l. split; [exact Hl|]. split; [exact HB | exact HT].
Qed.

(** With the Buffer type and [dirty] clear, no sequence of calls other than
    [UploadData] uploads anything, and [dirty] stays clear: after a growth
    the grown mirror reaches the new GPU buffer only if the caller sets
    [dirty] or calls [UploadData]. *)
Theorem clean_Buffer_never_uploads (fuel : nat) (cs : list Call) (w w' : World) :
  constructed (this w) ->
  bufferType (this w) = glDynamicBufferType.Buffer ->
  dirty (this w) = false ->
  forallb (fun c => negb (is_CallUploadData c)) cs = true ->
  calls fuel cs w = Some w' ->
  uploads (new_calls w w') = [] /\ dirty (this w') = false.
Proof.
  intros Hc. apply calls_clean_Buffer. apply constructed_coherent. exact Hc.
Qed.

(** ** The byte counts the object keeps *)

Lemma call_byte_counts fuel c w r :
  coherent (this w) ->
  nbElementBytes (this w) = element_bytes (elementType (this w)) ->
  nbBytes (this w) = mirror_bytes (this w) ->
  call fuel c w = Some r ->
  nbElementBytes (this (snd r)) = element_bytes (elementType (this (snd r))) /\
  nbBytes (this (snd r)) = mirror_bytes (this (snd r)).
Proof.
  intros Hk He Hn. destruct c as [target| | |program attrib_name]; cbn [call].
  - intros H. apply ResizeToFitNextPow2_cases in H as [-> | (nb & Hlt & ->)].
    + cbn [snd]. auto.
    + destruct w as [b g out]. cbn [this] in *.
      pose proof (k_nbElements _ Hk). pose proof (k_nbEntries _ Hk).
      destruct (allocatable (array_kind (elementType b)) (nbElements b * nb)) eqn:Hal.
      * assert (Hc : constructed b).
        { apply coherent_fits_constructed; [exact Hk|]. unfold fits.
          apply (allocatable_le _ (nbElements b * nb)); [nia | exact Hal]. }
        assert (Hle : nbEntries b <= nb) by lia.
        rewrite mirror_bytes_constructed
          by (apply Resize_grow_constructed; assumption).
        resize_grow Hc Hle Hal;
          cbn [snd this nbElementBytes nbBytes elementType nbElements nbEntries].
        -- auto.
        -- destruct (c_bufferType _ Hc) as [Hb' | (_ & Hty & Hne)];
             [rewrite Hb in Hb'; discriminate|].
           rewrite Hty, Hne. change (element_bytes GL.BYTE) with 1. split; lia.
      * destruct (Resize_unallocatable b g out nb (k_elementType _ Hk) Hal)
          as (message & ->).
        cbn [snd this nbElementBytes nbBytes elementType]. split; [reflexivity|].
        rewrite Hn. reflexivity.
  - intros [= <-]. rewrite UploadData_this. auto.
  - intros [= <-]. rewrite UploadDirtyData_this.
    destruct (dirty (this w)); cbn; auto.
  - intros [= <-]. rewrite BindAsInstanceAttribute_this. auto.
Qed.

(** After the constructor, when the engine allocates the mirror, and after
    any sequence of calls, [nbElementBytes] is 4 for [gl.FLOAT] and 1 for
    [gl.BYTE], and [nbBytes] is the byte size of the mirror; also after a
    growth that threw for want of the new array, which leaves both the old
    mirror and its byte count. *)
Theorem byte_counts_invariant (t n c : Z) (m : option Z) (g : GLContext)
    (out : list LogLine) :
  valid_arguments t n c m -> allocatable (array_kind t) (n * c) = true ->
  exists b g' out',
    Construct t n c m g out = (Normal b, g', out') /\
    forall fuel cs w',
      calls fuel cs (mkWorld b g' out') = Some w' ->
      nbElementBytes (this w') = element_bytes (elementType (this w')) /\
      nbBytes (this w') = mirror_bytes (this w').
Proof.
  intros Hv Hal.
  destruct (Construct_valid_cases t n c m g out Hv Hal)
    as (b & g' & out' & HC & Hcon & _).
  exists b, g', out'. split; [exact HC|].
  assert (H0 : nbElementBytes b = element_bytes (elementType b) /\
               nbBytes b = mirror_bytes b).
  { rewrite mirror_bytes_constructed by exact Hcon.
    destruct Hv as (Ht & Hn & Hc & Hm).
    assert (Hmode : (m = None \/ m = Some glDynamicBufferType.Buffer) \/
                    (m = Some glDynamicBufferType.Texture /\ t = GL.BYTE /\ n = 1))
      by tauto.
    destruct Hmode as [Hmode | (-> & -> & ->)].
    - rewrite (Construct_Buffer t n c m g out Ht Hal Hmode) in HC.
      injection HC as <- _ _.
      cbn [nbElementBytes nbBytes elementType nbElements nbEntries]. auto.
    - rewrite (Construct_Texture c g out) in HC
        by (rewrite Z.mul_1_l in Hal; exact Hal).
      injection HC as <- _ _.
      cbn [nbElementBytes nbBytes elementType nbElements nbEntries].
      change (element_bytes GL.BYTE) with 1. split; [reflexivity | lia]. }
  assert (Hgen : forall fuel cs w w',
            coherent (this w) ->
            nbElementBytes (this w) = element_bytes (elementType (this w)) ->
            nbBytes (this w) = mirror_bytes (this w) ->
            calls fuel cs w = Some w' ->
            nbElementBytes (this w') = element_bytes (elementType (this w')) /\
            nbBytes (this w') = mirror_bytes (this w')).
  { intros fuel cs. induction cs as [|c0 cs IH]; intros w w' Hc He Hn; cbn [calls].
    - intros [= <-]. auto.
    - destruct (call fuel c0 w) as [[r w1]|] eqn:E; [|discriminate].
      intros H.
      pose proof (call_coherent fuel c0 w (r, w1) Hc E) as Hc1.
      destruct (call_byte_counts fuel c0 w (r, w1) Hc He Hn E) as (He1 & Hn1).
      apply (IH w1 w' Hc1 He1 Hn1 H). }
  intros fuel cs w' Hrun. destruct H0 as (He & Hn).
  apply (Hgen fuel cs (mkWorld b g' out') w' (constructed_coherent _ Hcon) He Hn Hrun).
Qed.

(** ** What a growth does to the GPU object *)

Lemma call_buffer_is_older fuel c w r :
  coherent (this w) ->
  bufferType (this w) = glDynamicBufferType.Buffer ->
  buffer_is_older w -> call fuel c w = Some r -> buffer_is_older (snd r).
Proof.
  intros Hk Hb Ho. destruct c as [target| | |program attrib_name]; cbn [call].
  - intros H. apply ResizeToFitNextPow2_cases in H as [-> | (nb & Hlt & ->)].
    + exact Ho.
    + destruct w as [b g out]. cbn [this] in *.
      pose proof (k_nbElements _ Hk). pose proof (k_nbEntries _ Hk).
      destruct (allocatable (array_kind (elementType b)) (nbElements b * nb)) eqn:Hal.
      * assert (Hc : constructed b).
        { apply coherent_fits_constructed; [exact Hk|]. unfold fits.
          apply (allocatable_le _ (nbElements b * nb)); [nia | exact Hal]. }
        destruct (c_cpuArray _ Hc) as (a & Ha & _).
        rewrite (Resize_Buffer_grow b g out nb a Hc Ha Hb) by (lia || exact Hal).
        exists (glNextName g). cbn [snd this gl buffer glNextName]. split; [reflexivity | lia].
      * destruct (Resize_unallocatable b g out nb (k_elementType _ Hk) Hal)
          as (message & ->).
        exact Ho.
  - intros [= <-]. rewrite UploadData_Buffer by exact Hb. exact Ho.
  - intros [= <-]. destruct (dirty (this w)) eqn:Hd.
    + rewrite UploadDirtyData_dirty by assumption.
      rewrite UploadData_Buffer by exact Hb. exact Ho.
    + rewrite UploadDirtyData_clean by assumption. exact Ho.
  - intros [= <-]. rewrite BindAsInstanceAttribute_Buffer by exact Hb. exact Ho.
Qed.

Lemma calls_buffer_is_older fuel cs :
  forall w w',
    coherent (this w) -> bufferType (this w) = glDynamicBufferType.Buffer ->
    buffer_is_older w -> calls fuel cs w = Some w' -> buffer_is_older w'.
Proof.
  induction cs as [|c cs IH]; intros w w' Hk Hb Ho; cbn [calls].
  - intros [= <-]. exact Ho.
  - destruct (call fuel c w) as [[r w1]|] eqn:E; [|discriminate].
    intros H.
    pose proof (call_coherent fuel c w (r, w1) Hk E) as Hk1.
    destruct (call_keeps_configuration fuel c w (r, w1) E) as (_ & _ & Hb1 & _).
    pose proof (call_buffer_is_older fuel c w (r, w1) Hk Hb Ho E) as Ho1.
    cbn [snd] in *. rewrite Hb in Hb1.
    apply (IH w1 w' Hk1 Hb1 Ho1 H).
Qed.

(** A growth of a buffer of the Buffer type puts the data under a new GPU
    buffer.  On the buffer the constructor returned, after any sequence of
    calls, a resize to at least the capacity whose mirror the engine
    allocates leaves the object with the name it created, which is not the
    one it held.  The resize itself sets no attribute pointer, so an
    attribute bound before still reads the old buffer;
    [BindAsInstanceAttribute] called afterwards binds the new one. *)
Theorem growth_replaces_buffer (t n c : Z) (m : option Z) (g : GLContext)
    (out : list LogLine) (program : Handle) (attrib_name : string) :
  valid_arguments t n c m ->
  m = None \/ m = Some glDynamicBufferType.Buffer ->
  allocatable (array_kind t) (n * c) = true ->
  exists b g' out',
    Construct t n c m g out = (Normal b, g', out') /\
    forall fuel cs w' n',
      calls fuel cs (mkWorld b g' out') = Some w' ->
      nbEntries (this w') <= n' ->
      allocatable (array_kind (elementType (this w'))) (nbElements (this w') * n') = true ->
      fst (Resize n' w') = Normal tt /\
      buffer (this (snd (Resize n' w'))) = Some (glNextName (gl w')) /\
      buffer (this (snd (Resize n' w'))) <> buffer (this w') /\
      new_calls w' (snd (Resize n' w')) =
        [createBuffer (glNextName (gl w'));
         bindBuffer GL.ARRAY_BUFFER (Some (glNextName (gl w')));
         bufferData GL.ARRAY_BUFFER (mirror_bytes (this (snd (Resize n' w'))))
           GL.DYNAMIC_DRAW] /\
      hd_error (new_calls (snd (Resize n' w'))
                  (snd (BindAsInstanceAttribute program attrib_name (snd (Resize n' w'))))) =
        Some (bindBuffer GL.ARRAY_BUFFER (Some (glNextName (gl w')))).
Proof.
  intros Hv Hm Hal.
  destruct (Construct_valid_cases t n c m g out Hv Hal)
    as (b & g' & out' & HC & Hcon & _).
  exists b, g', out'. split; [exact HC|].
  assert (H0 : bufferType b = glDynamicBufferType.Buffer /\
               buffer_is_older (mkWorld b g' out')).
  { destruct Hv as (Ht & _).
    rewrite (Construct_Buffer t n c m g out Ht Hal Hm) in HC.
    injection HC as <- <- _. split; [reflexivity|].
    exists (glNextName g). cbn [this gl buffer glNextName]. split; [reflexivity | lia]. }
  destruct H0 as (Hb0 & Ho0).
  intros fuel cs w' n' Hrun Hle Hal'.
  pose proof (calls_coherent fuel cs (mkWorld b g' out') w'
                (constructed_coherent _ Hcon) Hrun) as Hk.
  pose proof (calls_buffer_is_older fuel cs (mkWorld b g' out') w'
                (constructed_coherent _ Hcon) Hb0 Ho0 Hrun) as (h & Hh & Hold).
  assert (Hb : bufferType (this w') = glDynamicBufferType.Buffer)
    by (rewrite (calls_bufferType fuel cs (mkWorld b g' out') w' Hrun); exact Hb0).
  destruct w' as [b' g1 out1]. cbn [this gl] in *.
  pose proof (k_nbElements _ Hk). pose proof (k_nbEntries _ Hk).
  assert (Hc : constructed b').
  { apply coherent_fits_constructed; [exact Hk|]. unfold fits.
    apply (allocatable_le _ (nbElements b' * n')); [nia | exact Hal']. }
  pose proof (Resize_grow_constructed b' g1 out1 n' Hc Hle Hal') as Hc'.
  pose proof (mirror_bytes_constructed _ Hc') as Hbytes.
  destruct (c_cpuArray _ Hc) as (a & Ha & _).
  rewrite (Resize_Buffer_grow b' g1 out1 n' a Hc Ha Hb Hle Hal') in *.
  cbn [fst snd this gl buffer elementType nbElements nbEntries] in *.
  split; [reflexivity|]. split; [reflexivity|].
  split; [rewrite Hh; intros [= E]; lia|].
  split.
  - unfold new_calls. cbn [gl]. rewrite calls_since_app, Hbytes. reflexivity.
  - rewrite BindAsInstanceAttribute_Buffer by exact Hb.
    unfold new_calls. cbn [snd gl this buffer]. rewrite calls_since_app. reflexivity.
Qed.

(** ** Uploads fit the GPU resource *)

(** After the constructor and any sequence of calls that ends with a
    capacity whose mirror the engine allocates, what [UploadData] sends is
    exactly as many bytes as the GPU buffer or texture of the object
    holds. *)
Theorem UploadData_fits_resource (t n c : Z) (m : option Z) (g : GLContext)
    (out : list LogLine) :
  valid_arguments t n c m -> allocatable (array_kind t) (n * c) = true ->
  exists b g' out',
    Construct t n c m g out = (Normal b, g', out') /\
    forall fuel cs w',
      calls fuel cs (mkWorld b g' out') = Some w' ->
      fits (this w') ->
      exists a,
        map uploaded_array (uploads (new_calls w' (snd (UploadData w')))) = [Some a] /\
        cpuArray (this w') = Some a /\
        gpu_size w' =
          Some (element_bytes (elementType (this w')) * Z.of_nat (List.length (elems a))).
Proof.
  intros Hv Hal.
  destruct (Construct_valid_cases t n c m g out Hv Hal)
    as (b & g' & out' & HC & Hcon & Hgpu & _).
  exists b, g', out'. split; [exact HC|].
  intros fuel cs w' Hrun Hf.
  pose proof (calls_constructed fuel cs (mkWorld b g' out') w' Hcon Hrun Hf) as Hc'.
  pose proof (calls_gpu_size_match fuel cs (mkWorld b g' out') w' Hcon Hgpu Hrun Hf) as Hm'.
  destruct (c_cpuArray _ Hc') as (a & Ha & _ & Hl).
  destruct (UploadData_uploads_mirror w' Hc') as (u & Hu1 & Hu2).
  exists a. unfold new_calls. rewrite Hu1. cbn [map]. rewrite Hu2, Ha.
  split; [reflexivity|]. split; [reflexivity|].
  unfold gpu_size_match in Hm'. rewrite Hm', mirror_bytes_constructed by exact Hc'.
  rewrite Hl. f_equal. ring.
Qed.

(** ** glCreateTexture *)

Lemma glCreateTexture_eq width height data w :
  glCreateTexture width height data w =
  (Normal (glNextName (gl w)),
   mkWorld (this w)
     (mkGL (glCalls (gl w) ++
            [createTexture (glNextName (gl w));
             bindTexture GL.TEXTURE_2D (Some (glNextName (gl w)));
             texParameteri GL.TEXTURE_2D GL.TEXTURE_MIN_FILTER GL.NEAREST;
             texParameteri GL.TEXTURE_2D GL.TEXTURE_MAG_FILTER GL.NEAREST;
             texParameteri GL.TEXTURE_2D GL.TEXTURE_WRAP_S GL.CLAMP_TO_EDGE;
             texParameteri GL.TEXTURE_2D GL.TEXTURE_WRAP_T GL.CLAMP_TO_EDGE;
             texImage2D GL.TEXTURE_2D 0 GLenum.RGBA width height 0 GLenum.RGBA
               GL.UNSIGNED_BYTE data])
        (S (glNextName (gl w))) (glAttribLocations (gl w)))
     (console w)).
Proof.
  unfold glCreateTexture. unfold_M. cbn. rewrite <- !app_assoc. reflexivity.
Qed.

(** [glCreateTexture] returns a texture under a new name whose image has
    [width * height] texels, and it does not disturb a dynamic buffer in the
    same context: if the GPU resource of the object had the size of the
    mirror before, it has it afterwards (the object's texture, if it has
    one, being an older one). *)
Theorem glCreateTexture_keeps_buffer (width height : Z) (data : option TypedArray)
    (w : World) :
  texture (this w) <> Some (glNextName (gl w)) ->
  gpu_size_match w ->
  fst (glCreateTexture width height data w) = Normal (glNextName (gl w)) /\
  texture_store_size (gl (snd (glCreateTexture width height data w)))
    (glNextName (gl w)) = Some (width * height) /\
  this (snd (glCreateTexture width height data w)) = this w /\
  gpu_size_match (snd (glCreateTexture width height data w)).
Proof.
  intros Hfresh Hm. rewrite glCreateTexture_eq. cbn [fst snd this gl].
  split; [reflexivity|]. split.
  { unfold texture_store_size. cbn [glCalls].
    match goal with
    | |- texture_store_size_from (?l1 ++ ?l2) _ ?h _ = _ =>
        destruct (texture_store_size_from_app l1 l2 h None None) as (bound' & ->)
    end.
    cbn [texture_store_size_from]. rewrite Nat.eqb_refl. reflexivity. }
  split; [reflexivity|].
  unfold gpu_size_match, gpu_size in *. cbn [this gl].
  destruct (bufferType (this w) =? glDynamicBufferType.Buffer).
  - destruct (buffer (this w)) as [h|]; [|discriminate].
    rewrite <- Hm. unfold buffer_store_size. cbn [glCalls].
    match goal with
    | |- buffer_store_size_from (?l1 ++ ?l2) _ ?h _ = _ =>
        destruct (buffer_store_size_from_app l1 l2 h None None) as (bound' & ->)
    end.
    reflexivity.
  - destruct (bufferType (this w) =? glDynamicBufferType.Texture); [|discriminate].
    destruct (texture (this w)) as [h|]; [|discriminate].
    rewrite <- Hm. unfold texture_store_size. cbn [glCalls].
    match goal with
    | |- texture_store_size_from (?l1 ++ ?l2) _ ?h _ = _ =>
        destruct (texture_store_size_from_app l1 l2 h None None) as (bound' & ->)
    end.
    cbn [texture_store_size_from].
    destruct (Nat.eqb_spec (glNextName (gl w)) h) as [E | _]; [|reflexivity].
    exfalso. apply Hfresh. rewrite E. reflexivity.
Qed.

End Heap.

(** ** The shader, program and uniform functions *)

Module ProgramFacts.
Import Program.

(** [glSetUniform] completes exactly when the uniform is found and the value
    is not null or undefined and is of class Number or WebGLTexture.  A
    missing uniform is what it reports first.  When it throws it has only
    looked the uniform up: it has set no uniform and has not touched the
    texture state. *)
Theorem glSetUniform_completes_iff (program : Handle) (name : string)
    (value : JSValue) (index : Z) (d : Context) :
  (fst (glSetUniform program name value index d) = Normal tt <->
   uniformLocations d program name <> None /\
   not_nullish value = true /\
   (class_of value = "Number" \/ class_of value = "WebGLTexture")) /\
  (uniformLocations d program name = None ->
   fst (glSetUniform program name value index d) =
     Throw (Error ("Can't find uniform " ++ name))) /\
  (fst (glSetUniform program name value index d) <> Normal tt ->
   calls (snd (glSetUniform program name value index d)) =
     calls d ++ [getUniformLocation program name (uniformLocations d program name)]).
Proof.
  destruct d as [cs co nx cm il lk ul]. unfold glSetUniform, issue.
  cbn [uniformLocations calls].
  destruct (ul program name) as [location|] eqn:Hloc; cbn [fst snd calls].
  2: { split; [split; [discriminate | intros (H & _); contradiction]|].
       split; [reflexivity|]. reflexivity. }
  destruct (not_nullish value) eqn:Hnull; cbn [negb fst snd calls].
  2: { split; [split; [discriminate | intros (_ & H & _); discriminate]|].
       split; [discriminate|]. reflexivity. }
  destruct (String.eqb_spec (class_of value) "Number") as [Hn | Hn]; cbn [fst snd calls].
  { split; [split; [intros _; repeat split; auto; discriminate | reflexivity]|].
    split; [discriminate|]. intros H; contradiction H; reflexivity. }
  destruct (String.eqb_spec (class_of value) "WebGLTexture") as [Ht | Ht]; cbn [fst snd calls].
  { split; [split; [intros _; repeat split; auto; discriminate | reflexivity]|].
    split; [discriminate|]. intros H; contradiction H; reflexivity. }
  split; [split; [discriminate | intros (_ & _ & [H | H]); contradiction]|].
  split; [discriminate|]. reflexivity.
Qed.

Lemma glCompileShader_eq ty name source d :
  glCompileShader ty name source d =
  (nextName d,
   mkContext
     (calls d ++
      [createShader ty (nextName d); shaderSource (nextName d) source;
       compileShader (nextName d);
       getShaderParameter (nextName d) GLenum.COMPILE_STATUS (compiles d ty source)] ++
      (if compiles d ty source then []
       else [getShaderInfoLog (nextName d) (infoLog d ty source)]))
     (console d ++
      [log ("Compiling " ++ name)] ++
      (if compiles d ty source then []
       else [log ("Error compiling " ++ name); log (infoLog d ty source); trace]))
     (S (nextName d)) (compiles d) (infoLog d) (links d) (uniformLocations d)).
Proof.
  destruct d as [cs co nx cm il lk ul].
  cbv beta iota zeta delta [glCompileShader create issue say calls console nextName
                            compiles infoLog links uniformLocations].
  destruct (cm ty source); cbv beta iota delta [negb];
    rewrite <- ?app_assoc; reflexivity.
Qed.

Lemma glCreateProgram_eq vshader fshader d :
  glCreateProgram vshader fshader d =
  (nextName d,
   mkContext
     (calls d ++
      [createProgram (nextName d); attachShader (nextName d) vshader;
       attachShader (nextName d) fshader; linkProgram (nextName d);
       getProgramParameter (nextName d) GLenum.LINK_STATUS (links d vshader fshader)])
     (console d ++
      (if links d vshader fshader then []
       else [log "Failed to link program"; trace]))
     (S (nextName d)) (compiles d) (infoLog d) (links d) (uniformLocations d)).
Proof.
  destruct d as [cs co nx cm il lk ul].
  cbv beta iota zeta delta [glCreateProgram create issue say calls console nextName
                            compiles infoLog links uniformLocations].
  destruct (lk vshader fshader); cbv beta iota delta [negb];
    rewrite <- ?app_assoc, ?app_nil_r; reflexivity.
Qed.

(** Compiling two shaders and linking them never fails to return: the
    program comes back whatever the driver reports.  The three objects have
    three new, different names, the shaders are attached to the program in
    the order given, and the console gets one trace for each stage that
    failed. *)
Theorem compile_and_link (tv tf : Z) (nv sv nf sf : string) (d : Context) :
  let (vs, d1) := glCompileShader tv nv sv d in
  let (fs, d2) := glCompileShader tf nf sf d1 in
  let (p, d3) := glCreateProgram vs fs d2 in
  vs = nextName d /\ fs = S vs /\ p = S fs /\ nextName d3 = S p /\
  (exists l,
     calls d3 = calls d ++ l /\
     filter (fun c => match c with attachShader _ _ => true | _ => false end) l =
       [attachShader p vs; attachShader p fs]) /\
  (exists l,
     console d3 = console d ++ l /\
     traces l = failures [compiles d tv sv; compiles d tf sf; links d vs fs]).
Proof.
  rewrite glCompileShader_eq, glCompileShader_eq, glCreateProgram_eq.
  cbn [calls console nextName compiles infoLog links uniformLocations].
  repeat (split; [reflexivity|]).
  split; eexists; (split; [rewrite <- !app_assoc; reflexivity|]).
  - destruct (compiles d tv sv), (compiles d tf sf); reflexivity.
  - destruct (compiles d tv sv), (compiles d tf sf),
      (links d (nextName d) (S (nextName d))); reflexivity.
Qed.

End ProgramFacts.

(** * The theorems at the example buffers *)

(** The examples are run on an engine that allocates array buffers of up to
    [heap0] bytes. *)

(** The example buffers are what the constructor returns. *)
Lemma buffer_world_Construct :
  Construct heap0 GL.FLOAT 3 4 (Some glDynamicBufferType.Buffer) gl0 [] =
  (Normal (this buffer_world), gl buffer_world, console buffer_world).
Proof. reflexivity. Qed.

Lemma texture_world_Construct :
  Construct heap0 GL.BYTE 1 4 (Some glDynamicBufferType.Texture) gl0 [] =
  (Normal (this texture_world), gl texture_world, console texture_world).
Proof. reflexivity. Qed.

Lemma buffer_world_constructed : constructed heap0 (this buffer_world).
Proof.
  apply mkConstructed; cbn.
  - left; reflexivity.
  - reflexivity.
  - reflexivity.
  - left; reflexivity.
  - eexists; repeat split; reflexivity.
  - reflexivity.
Defined.

Lemma texture_world_constructed : constructed heap0 (this texture_world).
Proof.
  apply mkConstructed; cbn.
  - right; reflexivity.
  - reflexivity.
  - reflexivity.
  - right; repeat split; reflexivity.
  - eexists; repeat split; reflexivity.
  - reflexivity.
Defined.

Lemma written_world_constructed : constructed heap0 (this written_world).
Proof.
  apply mkConstructed; cbn.
  - left; reflexivity.
  - reflexivity.
  - reflexivity.
  - left; reflexivity.
  - eexists; repeat split; reflexivity.
  - reflexivity.
Defined.

Lemma valid_FLOAT_3_4_Buffer :
  valid_arguments GL.FLOAT 3 4 (Some glDynamicBufferType.Buffer).
Proof.
  split; [left; reflexivity|]. split; [reflexivity|]. split; [reflexivity|].
  right; left; reflexivity.
Defined.

Lemma valid_BYTE_1_4_Texture :
  valid_arguments GL.BYTE 1 4 (Some glDynamicBufferType.Texture).
Proof.
  split; [right; reflexivity|]. split; [reflexivity|]. split; [reflexivity|].
  right; right. repeat split; reflexivity.
Defined.

(** C1 fails as stated: on the buffer made by
    [new glDynamicBuffer(gl.BYTE, 1, 4, glDynamicBufferType.Texture)],
    [Resize(8)] is a growth resize, and it does upload. *)
Lemma Resize_Texture_uploads_mirror :
  ~ (nbEntries (this texture_world) < 8 ->
     dirty (this (snd (Resize heap0 8 texture_world))) = dirty (this texture_world) /\
     uploads (new_calls texture_world (snd (Resize heap0 8 texture_world))) = []).
Proof.
  intros H. destruct H as [_ H]; [reflexivity|].
  vm_compute in H. discriminate H.
Qed.

(** C2 fails as stated on its own example:
    [new glDynamicBuffer(gl.FLOAT, 3, 4, glDynamicBufferType.Buffer)] makes
    no upload at all. *)
Lemma Construct_Buffer_no_upload :
  List.length
    (uploads
       (calls_since gl0
          (snd (fst (Construct heap0 GL.FLOAT 3 4 (Some glDynamicBufferType.Buffer)
                       gl0 [])))))
  <> 1%nat.
Proof. vm_compute. discriminate. Qed.

(** C3 fails as stated: from capacity 4 and for the target 2^30 + 1 the
    doubled value passes 2^30, wraps around to -2^31 and then to 0, where it
    stays; the loop never ends, so the call returns for no loop bound. *)
Lemma ResizeToFitNextPow2_diverges :
  ~ exists fuel r, ResizeToFitNextPow2 heap0 fuel (2 ^ 30 + 1) buffer_world = Some r.
Proof.
  intros (fuel & r & H). unfold ResizeToFitNextPow2 in H.
  assert (Hloop : forall fuel, doubling_loop fuel (2 ^ 30 + 1) 4 = None).
  { do 30 (apply doubling_loop_diverges_step; [reflexivity|]).
    intros f. apply doubling_loop_zero. reflexivity. }
  change (nbEntries (this buffer_world)) with 4 in H.
  rewrite Hloop in H. discriminate H.
Qed.

(** C6 fails as stated: in
    [new glDynamicBuffer(gl.FLOAT, 3, 2 ** 60, glDynamicBufferType.Texture)]
    the array constructor is asked for 3 * 2^60 elements, more than any
    typed array has, and throws its [RangeError] before the assertions of
    the Texture type are reached: what the constructor throws is not the
    [Error] of an [assert]. *)
Lemma Construct_Texture_RangeError :
  fst (fst (Construct heap0 GL.FLOAT 3 (2 ^ 60) (Some glDynamicBufferType.Texture)
              gl0 [])) =
    Throw (RangeError "Invalid typed array length") /\
  ~ (exists message,
       fst (fst (Construct heap0 GL.FLOAT 3 (2 ^ 60) (Some glDynamicBufferType.Texture)
                   gl0 [])) = Throw (Error message)).
Proof.
  assert (H : fst (fst (Construct heap0 GL.FLOAT 3 (2 ^ 60)
                          (Some glDynamicBufferType.Texture) gl0 [])) =
              Throw (RangeError "Invalid typed array length"))
    by (vm_compute; reflexivity).
  split; [exact H|]. intros (message & H'). rewrite H in H'. discriminate H'.
Qed.

(** C7 fails as stated:
    [new glDynamicBuffer(gl.FLOAT, 8, 4, glDynamicBufferType.Buffer)]
    returns a buffer with a mirror of 32 elements; on it
    [ResizeToFitNextPow2(2 ** 30)] doubles the capacity to 2^30 and asks
    for an array of 8 * 2^30 floats, 32 GiB.  The engine does not allocate
    it, the call throws, and the object is left with [nbEntries = 2^30] and
    its mirror of 32 elements. *)
Lemma failed_growth_breaks_mirror_length :
  exists b g' out' w',
    Construct heap0 GL.FLOAT 8 4 (Some glDynamicBufferType.Buffer) gl0 [] =
      (Normal b, g', out') /\
    calls heap0 40 [CallResizeToFitNextPow2 (2 ^ 30)] (mkWorld b g' out') = Some w' /\
    nbElements (this w') = 8 /\ nbEntries (this w') = 2 ^ 30 /\
    mirror_length (this w') = 32 /\
    mirror_length (this w') <> nbElements (this w') * nbEntries (this w').
Proof.
  do 4 eexists. split; [vm_compute; reflexivity|].
  split; [vm_compute; reflexivity|].
  cbn [this nbElements nbEntries].
  split; [reflexivity|]. split; [reflexivity|]. split; [reflexivity|].
  vm_compute. discriminate.
Qed.

(** Growing the texture example from 4 to 8 entries. *)
Lemma Resize_grow_dirty_uploads_witness :
  (constructed heap0 (this texture_world) /\ nbEntries (this texture_world) < 8) /\
  fst (Resize heap0 8 texture_world) = Normal tt /\
  dirty (this (snd (Resize heap0 8 texture_world))) = dirty (this texture_world) /\
  uploads (new_calls texture_world (snd (Resize heap0 8 texture_world))) =
    [texImage2D GL.TEXTURE_2D 0 GL.ALPHA 8 1 0 GL.ALPHA GL.UNSIGNED_BYTE
       (cpuArray (this (snd (Resize heap0 8 texture_world))))].
Proof.
  split; [split; [exact texture_world_constructed | reflexivity]|].
  pose proof (Resize_grow_dirty_uploads heap0 texture_world 8 texture_world_constructed
                eq_refl) as (H1 & _ & H3 & H4 & _).
  assert (Hret : fst (Resize heap0 8 texture_world) = Normal tt)
    by (apply H3; reflexivity).
  split; [exact Hret|]. split; [exact H1|].
  exact (proj1 (H4 eq_refl Hret)).
Defined.

(** [new glDynamicBuffer(gl.FLOAT, 3, 4, glDynamicBufferType.Buffer)] on a
    fresh context. *)
Lemma Construct_zero_mirror_witness :
  (valid_arguments GL.FLOAT 3 4 (Some glDynamicBufferType.Buffer) /\
   allocatable heap0 (array_kind GL.FLOAT) (3 * 4) = true) /\
  exists b g' out',
    Construct heap0 GL.FLOAT 3 4 (Some glDynamicBufferType.Buffer) gl0 [] =
      (Normal b, g', out') /\
    mirror b = repeat 0 (Z.to_nat (3 * 4)) /\ dirty b = false /\
    gpu_size_match (mkWorld b g' out').
Proof.
  split; [split; [exact valid_FLOAT_3_4_Buffer | reflexivity]|].
  destruct (proj1 (Construct_zero_mirror heap0 GL.FLOAT 3 4
                     (Some glDynamicBufferType.Buffer) gl0 [] valid_FLOAT_3_4_Buffer)
              eq_refl)
    as (b & g' & out' & H1 & H2 & _ & H4 & H5 & _).
  exists b, g', out'. split; [exact H1|]. split; [exact H2|]. split; [exact H4 | exact H5].
Defined.

(** [ResizeToFitNextPow2(10)] from 4 entries: 4, 8, 16. *)
Lemma ResizeToFitNextPow2_doubling_witness :
  0 < nbEntries (this buffer_world) /\
  ResizeToFitNextPow2 heap0 3 10 buffer_world =
    Some (Resize heap0 (nbEntries (this buffer_world) * 2 ^ Z.of_nat 2) buffer_world) /\
  nbEntries (this (snd (Resize heap0 (nbEntries (this buffer_world) * 2 ^ Z.of_nat 2)
                          buffer_world))) = 16 /\
  fst (Resize heap0 (nbEntries (this buffer_world) * 2 ^ Z.of_nat 2) buffer_world) =
    Normal tt.
Proof.
  split; [reflexivity|].
  destruct (ResizeToFitNextPow2_doubling heap0 buffer_world 10 eq_refl) as [_ H].
  destruct (H 2%nat) with (fuel := 3%nat) as (H1 & H2 & H3).
  - reflexivity.
  - cbn. lia.
  - intros [|[|j]] Hj; [reflexivity | reflexivity | lia].
  - reflexivity.
  - lia.
  - split; [exact H1|]. split; [exact H2|].
    apply (H3 buffer_world_constructed). reflexivity.
Defined.

(** Growing the written buffer from 4 to 16 entries keeps its 12 elements,
    the 7.5 at index 5 among them. *)
Lemma Resize_preserves_prefix_witness :
  (constructed heap0 (this written_world) /\ nbEntries (this written_world) < 16) /\
  firstn 12 (mirror (this (snd (Resize heap0 16 written_world)))) =
    [0; 0; 0; 0; 0; 1089470464; 0; 0; 0; 0; 0; 0] /\
  mirror_length (this (snd (Resize heap0 16 written_world))) = 48.
Proof.
  split; [split; [exact written_world_constructed | reflexivity]|].
  destruct (Resize_preserves_prefix heap0 written_world 16 written_world_constructed
              eq_refl) as (_ & H2 & H3 & _).
  split; [exact H2|]. exact (proj2 (H3 eq_refl)).
Defined.

(** [UploadDirtyData()] twice after the write of 7.5. *)
Lemma UploadDirtyData_once_witness :
  (constructed heap0 (this written_world) /\ dirty (this written_world) = true) /\
  map uploaded_array
    (uploads (new_calls written_world (snd (UploadDirtyData written_world)))) =
    [cpuArray (this written_world)] /\
  List.length
    (uploads (new_calls written_world
                (snd (UploadDirtyData (snd (UploadDirtyData written_world)))))) = 1%nat.
Proof.
  split; [split; [exact written_world_constructed | reflexivity]|].
  destruct (proj1 (UploadDirtyData_once heap0 written_world written_world_constructed)
              eq_refl)
    as (_ & _ & _ & H4 & _ & H6).
  split; [exact H4 | exact H6].
Defined.

(** [new glDynamicBuffer(gl.FLOAT, 3, 4, glDynamicBufferType.Texture)],
    [new glDynamicBuffer(gl.BYTE, 2, 8, glDynamicBufferType.Texture)], and
    [BindAsInstanceAttribute] on the texture example. *)
Lemma Texture_restrictions_throw_witness :
  ((GL.FLOAT <> GL.BYTE \/ 3 <> 1) /\
   allocatable heap0 (array_kind GL.FLOAT) (3 * 4) = true /\
   allocatable heap0 Uint8Array 16 = true /\
   bufferType (this texture_world) = glDynamicBufferType.Texture) /\
  (exists message,
     fst (fst (Construct heap0 GL.FLOAT 3 4 (Some glDynamicBufferType.Texture) gl0 [])) =
       Throw (Error message)) /\
  fst (fst (Construct heap0 GL.BYTE 2 8 (Some glDynamicBufferType.Texture) gl0 [])) =
    Throw (Error "Assertion failed") /\
  BindAsInstanceAttribute 7%nat "position" texture_world =
    (Throw (Error "Can only call BindAsInstanceAttribute with Buffer types"),
     texture_world).
Proof.
  assert (H1 : GL.FLOAT <> GL.BYTE \/ 3 <> 1) by (left; discriminate).
  split; [split; [exact H1 | repeat split; reflexivity]|].
  split; [|split].
  - destruct (proj1 (Texture_restrictions_throw heap0) GL.FLOAT 3 4 gl0 [] H1)
      as (e & He & Hm & _).
    destruct (Hm eq_refl) as (message & ->).
    exists message. exact He.
  - exact (proj1 (proj2 (Texture_restrictions_throw heap0)) gl0 [] eq_refl).
  - exact (proj2 (proj2 (Texture_restrictions_throw heap0)) 7%nat "position"
             texture_world eq_refl).
Defined.

(** [new glDynamicBuffer(gl.BYTE, 1, 4, glDynamicBufferType.Texture)] on a
    fresh context, then three calls. *)
Lemma mirror_length_invariant_witness :
  (valid_arguments GL.BYTE 1 4 (Some glDynamicBufferType.Texture) /\
   allocatable heap0 (array_kind GL.BYTE) (1 * 4) = true) /\
  exists w',
    calls heap0 5 [CallResizeToFitNextPow2 10; CallUploadData; CallUploadDirtyData]
      texture_world = Some w' /\
    mirror_length (this w') = nbElements (this w') * nbEntries (this w').
Proof.
  split; [split; [exact valid_BYTE_1_4_Texture | reflexivity]|].
  destruct (mirror_length_invariant heap0 GL.BYTE 1 4 (Some glDynamicBufferType.Texture)
              gl0 [] valid_BYTE_1_4_Texture eq_refl)
    as (b & g' & out' & H1 & _ & H3).
  rewrite texture_world_Construct in H1. injection H1 as <- <- <-.
  destruct (calls heap0 5 [CallResizeToFitNextPow2 10; CallUploadData; CallUploadDirtyData]
              texture_world) as [w'|] eqn:E; [|vm_compute in E; discriminate E].
  exists w'. split; [reflexivity|].
  destruct (H3 5%nat [CallResizeToFitNextPow2 10; CallUploadData; CallUploadDirtyData] w' E)
    as (_ & Hiff).
  apply Hiff. vm_compute in E. injection E as <-. reflexivity.
Defined.

(** Three calls on the buffer example. *)
Lemma capacity_never_shrinks_witness :
  exists w',
    calls heap0 5 [CallResizeToFitNextPow2 10; CallUploadData; CallResizeToFitNextPow2 3]
      buffer_world = Some w' /\
    nbEntries (this buffer_world) <= nbEntries (this w').
Proof.
  eexists. split; [vm_compute; reflexivity|].
  apply (capacity_never_shrinks heap0 5
           [CallResizeToFitNextPow2 10; CallUploadData; CallResizeToFitNextPow2 3]
           buffer_world).
  vm_compute. reflexivity.
Defined.


(** [new glDynamicBuffer(gl.FLOAT, 3, 4)] on a fresh context. *)
Lemma Construct_default_bufferType_witness :
  Construct heap0 GL.FLOAT 3 4 None gl0 [] =
    (Normal (this buffer_world), gl buffer_world, console buffer_world) /\
  bufferType (this buffer_world) = glDynamicBufferType.Buffer.
Proof.
  split; [reflexivity|].
  exact (proj2 (Construct_default_bufferType heap0 GL.FLOAT 3 4 gl0 [])
           (this buffer_world) (gl buffer_world) (console buffer_world) eq_refl).
Defined.

(** * The further properties at the example buffers *)

(** The buffer of no entries is what the constructor returns for 0 entries,
    and it is a valid state but for its capacity. *)
Lemma empty_world_Construct :
  Construct heap0 GL.FLOAT 3 0 (Some glDynamicBufferType.Buffer) gl0 [] =
  (Normal (this empty_world), gl empty_world, console empty_world).
Proof. reflexivity. Qed.

(** Two calls on the written buffer. *)
Lemma calls_keep_configuration_witness :
  exists w',
    calls heap0 5 [CallResizeToFitNextPow2 10; CallUploadDirtyData] written_world =
      Some w' /\
    bufferType (this w') = bufferType (this written_world) /\
    nbElements (this w') = nbElements (this written_world).
Proof.
  destruct (calls heap0 5 [CallResizeToFitNextPow2 10; CallUploadDirtyData] written_world)
    as [w'|] eqn:E; [|vm_compute in E; discriminate E].
  exists w'. split; [reflexivity|].
  destruct (calls_keep_configuration heap0 5
              [CallResizeToFitNextPow2 10; CallUploadDirtyData]
              written_world w' E) as (_ & Hn & Hb & _).
  split; [exact Hb | exact Hn].
Defined.

(** [new glDynamicBuffer(gl.FLOAT, 3, 4, glDynamicBufferType.Buffer)], a
    growth to 16 entries and an upload. *)
Lemma gpu_size_invariant_witness :
  (valid_arguments GL.FLOAT 3 4 (Some glDynamicBufferType.Buffer) /\
   allocatable heap0 (array_kind GL.FLOAT) (3 * 4) = true) /\
  exists w',
    calls heap0 5 [CallResizeToFitNextPow2 10; CallUploadData] buffer_world = Some w' /\
    fits heap0 (this w') /\
    gpu_size w' = Some (mirror_bytes (this w')) /\
    mirror_bytes (this w') = 192.
Proof.
  split; [split; [exact valid_FLOAT_3_4_Buffer | reflexivity]|].
  destruct (gpu_size_invariant heap0 GL.FLOAT 3 4 (Some glDynamicBufferType.Buffer) gl0 []
              valid_FLOAT_3_4_Buffer eq_refl)
    as (b & g' & out' & H1 & H2).
  rewrite buffer_world_Construct in H1. injection H1 as <- <- <-.
  destruct (calls heap0 5 [CallResizeToFitNextPow2 10; CallUploadData] buffer_world)
    as [w'|] eqn:E; [|vm_compute in E; discriminate E].
  assert (Hw : fits heap0 (this w') /\ mirror_bytes (this w') = 192)
    by (vm_compute in E; injection E as <-; split; reflexivity).
  destruct Hw as (Hf & Hbytes).
  exists w'. split; [reflexivity|]. split; [exact Hf|].
  split; [|exact Hbytes].
  exact (proj1 (H2 5%nat [CallResizeToFitNextPow2 10; CallUploadData] w' E Hf)).
Defined.

(** Growing the written buffer from 4 to 16 entries appends 36 zeros to its
    12 elements. *)
Lemma Resize_appends_zeros_witness :
  (constructed heap0 (this written_world) /\ nbEntries (this written_world) <= 16 /\
   allocatable heap0 (array_kind (elementType (this written_world)))
     (nbElements (this written_world) * 16) = true) /\
  mirror (this (snd (Resize heap0 16 written_world))) =
  [0; 0; 0; 0; 0; 1089470464; 0; 0; 0; 0; 0; 0] ++ repeat 0 36.
Proof.
  assert (Hle : nbEntries (this written_world) <= 16) by (cbn; lia).
  split; [split; [exact written_world_constructed | split; [exact Hle | reflexivity]]|].
  exact (proj2 (Resize_appends_zeros heap0 written_world 16 written_world_constructed
                  Hle eq_refl)).
Defined.

(** [ResizeToFitNextPow2(10)] from 4 entries, with a loop bound of 31. *)
Lemma ResizeToFitNextPow2_fits_witness :
  (0 < nbEntries (this buffer_world) /\ nbEntries (this buffer_world) < 10 /\
   10 <= 2 ^ 30 /\ (30 < 31)%nat) /\
  exists k : nat,
    ResizeToFitNextPow2 heap0 31 10 buffer_world =
      Some (Resize heap0 (nbEntries (this buffer_world) * 2 ^ Z.of_nat k) buffer_world) /\
    10 <= nbEntries (this buffer_world) * 2 ^ Z.of_nat k < 2 * 10.
Proof.
  assert (H1 : 0 < nbEntries (this buffer_world)) by reflexivity.
  assert (H2 : nbEntries (this buffer_world) < 10) by reflexivity.
  assert (H3 : 10 <= 2 ^ 30) by (cbn; lia).
  assert (H4 : (30 < 31)%nat) by lia.
  split; [repeat split; assumption|].
  exact (ResizeToFitNextPow2_fits heap0 buffer_world 10 31 H1 H2 H3 H4).
Defined.

(** [ResizeToFitNextPow2(5)] on the buffer of no entries. *)
Lemma ResizeToFitNextPow2_from_zero_witness :
  (nbEntries (this empty_world) = 0 /\ 0 < 5) /\
  ResizeToFitNextPow2 heap0 100 5 empty_world = None.
Proof.
  split; [split; reflexivity|].
  exact (ResizeToFitNextPow2_from_zero heap0 empty_world 5 eq_refl eq_refl 100%nat).
Defined.

(** [ResizeToFitNextPow2(2^31)] on the buffer example. *)
Lemma ResizeToFitNextPow2_beyond_int32_witness :
  (nbEntries (this buffer_world) < 2 ^ 31 /\ 2 ^ 31 <= 2 ^ 31) /\
  ResizeToFitNextPow2 heap0 100 (2 ^ 31) buffer_world = None.
Proof.
  assert (H1 : nbEntries (this buffer_world) < 2 ^ 31) by reflexivity.
  assert (H2 : 2 ^ 31 <= 2 ^ 31) by lia.
  split; [split; assumption|].
  exact (ResizeToFitNextPow2_beyond_int32 heap0 buffer_world (2 ^ 31) H1 H2 100%nat).
Defined.

(** [ResizeToFitNextPow2(10)], then [ResizeToFitNextPow2(7)]. *)
Lemma ResizeToFitNextPow2_absorbs_witness :
  ResizeToFitNextPow2 heap0 3 10 buffer_world = Some (Resize heap0 16 buffer_world) /\
  10 <= nbEntries (this (snd (Resize heap0 16 buffer_world))) /\
  ResizeToFitNextPow2 heap0 1 7 (snd (Resize heap0 16 buffer_world)) =
    Some (Normal tt, snd (Resize heap0 16 buffer_world)).
Proof.
  assert (H : ResizeToFitNextPow2 heap0 3 10 buffer_world =
              Some (Resize heap0 16 buffer_world))
    by reflexivity.
  split; [exact H|].
  destruct (ResizeToFitNextPow2_absorbs heap0 buffer_world 10 3
              (Resize heap0 16 buffer_world) H)
    as (H1 & H2).
  split; [exact H1|]. apply (H2 7 0%nat). cbn. lia.
Defined.

(** [new glDynamicBuffer(gl.BYTE, 2, 8, glDynamicBufferType.Texture)]. *)
Lemma Construct_throws_calls_witness :
  ~ accepted_arguments heap0 GL.BYTE 2 8 (Some glDynamicBufferType.Texture) /\
  uploads
    (calls_since gl0
       (snd (fst (Construct heap0 GL.BYTE 2 8 (Some glDynamicBufferType.Texture)
                    gl0 [])))) = [].
Proof.
  destruct (Construct heap0 GL.BYTE 2 8 (Some glDynamicBufferType.Texture) gl0 [])
    as [[[b|e] g'] out'] eqn:E; [vm_compute in E; discriminate E|].
  destruct (Construct_throws_calls heap0 GL.BYTE 2 8 (Some glDynamicBufferType.Texture)
              gl0 g' [] out' e E) as (H1 & _ & H3).
  cbn [fst snd]. split; [exact H1 | exact H3].
Defined.

(** [Resize(-1)] on the buffer example. *)
Lemma Resize_nonpositive_witness :
  (constructed heap0 (this buffer_world) /\ -1 <= 0) /\
  nbEntries (this (snd (Resize heap0 (-1) buffer_world))) = -1 /\
  gl (snd (Resize heap0 (-1) buffer_world)) = gl buffer_world.
Proof.
  assert (H : -1 <= 0) by lia.
  split; [split; [exact buffer_world_constructed | exact H]|].
  destruct (Resize_nonpositive heap0 buffer_world (-1) buffer_world_constructed H)
    as (H1 & H2 & _).
  split; [exact H1 | exact H2].
Defined.

(** Three calls on the texture example. *)
Lemma calls_of_one_kind_witness :
  constructed heap0 (this texture_world) /\
  exists w' l,
    calls heap0 5 [CallResizeToFitNextPow2 6; CallUploadData;
                   CallBindAsInstanceAttribute 7%nat "position"] texture_world =
      Some w' /\
    glCalls (gl w') = glCalls (gl texture_world) ++ l /\
    forallb texture_call l = true.
Proof.
  split; [exact texture_world_constructed|].
  destruct (calls heap0 5 [CallResizeToFitNextPow2 6; CallUploadData;
                           CallBindAsInstanceAttribute 7%nat "position"] texture_world)
    as [w'|] eqn:E; [|vm_compute in E; discriminate E].
  destruct (calls_of_one_kind heap0 5
              [CallResizeToFitNextPow2 6; CallUploadData;
               CallBindAsInstanceAttribute 7%nat "position"]
              texture_world w' texture_world_constructed E)
    as (l & Hl & _ & HT).
  exists w', l. split; [reflexivity|]. split; [exact Hl|]. apply HT. reflexivity.
Defined.

(** Growth, [UploadDirtyData] and a binding on the unwritten buffer example. *)
Lemma clean_Buffer_never_uploads_witness :
  (constructed heap0 (this buffer_world) /\
   bufferType (this buffer_world) = glDynamicBufferType.Buffer /\
   dirty (this buffer_world) = false) /\
  exists w',
    calls heap0 5 [CallResizeToFitNextPow2 10; CallUploadDirtyData;
                   CallBindAsInstanceAttribute 7%nat "position"] buffer_world =
      Some w' /\
    uploads (new_calls buffer_world w') = [].
Proof.
  split; [split; [exact buffer_world_constructed | split; reflexivity]|].
  destruct (calls heap0 5 [CallResizeToFitNextPow2 10; CallUploadDirtyData;
                           CallBindAsInstanceAttribute 7%nat "position"] buffer_world)
    as [w'|] eqn:E; [|vm_compute in E; discriminate E].
  exists w'. split; [reflexivity|].
  exact (proj1 (clean_Buffer_never_uploads heap0 5
                  [CallResizeToFitNextPow2 10; CallUploadDirtyData;
                   CallBindAsInstanceAttribute 7%nat "position"]
                  buffer_world w' buffer_world_constructed eq_refl eq_refl eq_refl E)).
Defined.

(** [new glDynamicBuffer(gl.FLOAT, 3, 4, glDynamicBufferType.Buffer)], then
    a growth that the engine cannot serve: [nbBytes] stays the byte size of
    the mirror that is left. *)
Lemma byte_counts_invariant_witness :
  (valid_arguments GL.FLOAT 3 4 (Some glDynamicBufferType.Buffer) /\
   allocatable heap0 (array_kind GL.FLOAT) (3 * 4) = true) /\
  exists w',
    calls heap0 40 [CallResizeToFitNextPow2 (2 ^ 30)] buffer_world = Some w' /\
    nbElementBytes (this w') = 4 /\
    nbBytes (this w') = mirror_bytes (this w').
Proof.
  split; [split; [exact valid_FLOAT_3_4_Buffer | reflexivity]|].
  destruct (byte_counts_invariant heap0 GL.FLOAT 3 4 (Some glDynamicBufferType.Buffer)
              gl0 [] valid_FLOAT_3_4_Buffer eq_refl)
    as (b & g' & out' & H1 & H2).
  rewrite buffer_world_Construct in H1. injection H1 as <- <- <-.
  destruct (calls heap0 40 [CallResizeToFitNextPow2 (2 ^ 30)] buffer_world)
    as [w'|] eqn:E; [|vm_compute in E; discriminate E].
  assert (Ht : element_bytes (elementType (this w')) = 4)
    by (vm_compute in E; injection E as <-; reflexivity).
  exists w'. split; [reflexivity|].
  destruct (H2 40%nat [CallResizeToFitNextPow2 (2 ^ 30)] w' E) as (H3 & H4).
  split; [rewrite H3; exact Ht | exact H4].
Defined.

(** A 2 by 2 static texture created beside the texture example. *)
Lemma glCreateTexture_keeps_buffer_witness :
  (texture (this texture_world) <> Some (glNextName (gl texture_world)) /\
   gpu_size_match texture_world) /\
  fst (glCreateTexture 2 2 None texture_world) = Normal 2%nat /\
  gpu_size_match (snd (glCreateTexture 2 2 None texture_world)).
Proof.
  assert (H1 : texture (this texture_world) <> Some (glNextName (gl texture_world)))
    by discriminate.
  assert (H2 : gpu_size_match texture_world) by reflexivity.
  split; [split; assumption|].
  destruct (glCreateTexture_keeps_buffer 2 2 None texture_world H1 H2)
    as (H3 & _ & _ & H6).
  split; [exact H3 | exact H6].
Defined.

(** [new glDynamicBuffer(gl.BYTE, 1, 4, glDynamicBufferType.Texture)], a
    growth to 8 entries and an upload. *)
Lemma Texture_holds_mirror_witness :
  (0 < 4 /\ allocatable heap0 Uint8Array 4 = true) /\
  exists w' h,
    calls heap0 5 [CallResizeToFitNextPow2 6; CallUploadData] texture_world = Some w' /\
    texture (this w') = Some h /\
    texture_image (gl w') h = Some (cpuArray (this w')).
Proof.
  split; [split; reflexivity|].
  destruct (Texture_holds_mirror heap0 4 gl0 [] eq_refl eq_refl)
    as (b & g' & out' & H1 & H2).
  rewrite texture_world_Construct in H1. injection H1 as <- <- <-.
  destruct (calls heap0 5 [CallResizeToFitNextPow2 6; CallUploadData] texture_world)
    as [w'|] eqn:E; [|vm_compute in E; discriminate E].
  destruct (H2 5%nat [CallResizeToFitNextPow2 6; CallUploadData] w' E) as (h & Hh & Hi).
  exists w', h. split; [reflexivity|]. split; [exact Hh | exact Hi].
Defined.

(** [new glDynamicBuffer(gl.FLOAT, 3, 4, glDynamicBufferType.Buffer)], a
    growth to 16 entries and a binding, then a resize to 32 entries. *)
Lemma growth_replaces_buffer_witness :
  (valid_arguments GL.FLOAT 3 4 (Some glDynamicBufferType.Buffer) /\
   allocatable heap0 (array_kind GL.FLOAT) (3 * 4) = true) /\
  exists w',
    calls heap0 5 [CallResizeToFitNextPow2 10;
                   CallBindAsInstanceAttribute 7%nat "position"] buffer_world =
      Some w' /\
    buffer (this w') = Some 2%nat /\
    buffer (this (snd (Resize heap0 32 w'))) = Some 3%nat /\
    buffer (this (snd (Resize heap0 32 w'))) <> buffer (this w').
Proof.
  split; [split; [exact valid_FLOAT_3_4_Buffer | reflexivity]|].
  destruct (growth_replaces_buffer heap0 GL.FLOAT 3 4 (Some glDynamicBufferType.Buffer)
              gl0 [] 7%nat "position" valid_FLOAT_3_4_Buffer (or_intror eq_refl) eq_refl)
    as (b & g' & out' & H1 & H2).
  rewrite buffer_world_Construct in H1. injection H1 as <- <- <-.
  destruct (calls heap0 5 [CallResizeToFitNextPow2 10;
                           CallBindAsInstanceAttribute 7%nat "position"] buffer_world)
    as [w'|] eqn:E; [|vm_compute in E; discriminate E].
  assert (Hw : buffer (this w') = Some 2%nat /\ glNextName (gl w') = 3%nat /\
               nbEntries (this w') <= 32 /\
               allocatable heap0 (array_kind (elementType (this w')))
                 (nbElements (this w') * 32) = true).
  { vm_compute in E. injection E as <-. repeat split; try reflexivity.
    cbn. lia. }
  destruct Hw as (Hb & Hn & Hle & Hal).
  exists w'. split; [reflexivity|]. split; [exact Hb|].
  destruct (H2 5%nat [CallResizeToFitNextPow2 10;
                      CallBindAsInstanceAttribute 7%nat "position"] w' 32 E Hle Hal)
    as (_ & H4 & H5 & _).
  split; [rewrite H4, Hn; reflexivity | exact H5].
Defined.

(** [new glDynamicBuffer(gl.FLOAT, 3, 4)], a growth to 16 entries and an
    upload. *)
Lemma UploadData_fits_resource_witness :
  (valid_arguments GL.FLOAT 3 4 None /\
   allocatable heap0 (array_kind GL.FLOAT) (3 * 4) = true) /\
  exists w' a,
    calls heap0 5 [CallResizeToFitNextPow2 10; CallUploadData] buffer_world = Some w' /\
    fits heap0 (this w') /\
    cpuArray (this w') = Some a /\
    gpu_size w' =
      Some (element_bytes (elementType (this w')) * Z.of_nat (List.length (elems a))).
Proof.
  assert (Hv : valid_arguments GL.FLOAT 3 4 None).
  { split; [left; reflexivity|]. split; [reflexivity|]. split; [reflexivity|].
    left; reflexivity. }
  split; [split; [exact Hv | reflexivity]|].
  destruct (UploadData_fits_resource heap0 GL.FLOAT 3 4 None gl0 [] Hv eq_refl)
    as (b & g' & out' & H1 & H2).
  assert (HC : Construct heap0 GL.FLOAT 3 4 None gl0 [] =
               (Normal (this buffer_world), gl buffer_world, console buffer_world))
    by reflexivity.
  rewrite HC in H1. injection H1 as <- <- <-.
  destruct (calls heap0 5 [CallResizeToFitNextPow2 10; CallUploadData] buffer_world)
    as [w'|] eqn:E; [|vm_compute in E; discriminate E].
  assert (Hf : fits heap0 (this w'))
    by (vm_compute in E; injection E as <-; reflexivity).
  destruct (H2 5%nat [CallResizeToFitNextPow2 10; CallUploadData] w' E Hf)
    as (a & _ & Ha & Hg).
  exists w', a. split; [reflexivity|]. split; [exact Hf|]. split; [exact Ha | exact Hg].
Defined.
